(** * DTLS handshake and SRTP session wrappers of SIPSorcery.Media

    A shallow embedding of the C++/CLI classes [DtlsHandshake]
    (src/src/DtlsHandshake.cpp), [Dtls] (src/SIPSorcery.Media/Dtls.cpp,
    src/src/Dtls.h) and [Srtp] (src/src/Srtp.cpp, src/SIPSorcery.Media/Srtp.h).

    The classes are thin layers over OpenSSL and libsrtp.  The methods of
    the repository are embedded statement by statement in a small
    state-and-early-return monad.  The two libraries are not part of the
    repository: the result of every library call the code branches on is
    read from an environment, and the library behaviour a property talks
    about (cookie exchange, keying material export, packet transform, replay
    window) is a reference model kept in modules of its own.

    The same is done for [DtlsManaged]
    (src/SIPSorcery.Media/DtlsManaged.cpp), whose library answers on the
    memory BIOs depend on the calls made so far, and for the media classes:
    the look-ups of src/src/VideoSubTypes.h, [GetDefaultStride] and
    [MediaSampleProperties] of src/src/MediaCommon.h, and [FindVideoMode],
    [SetStreamIndexes], [Shutdown] and the destructor of
    src/src/MediaSource.cpp. *)

From Stdlib Require Import ZArith String Ascii Bool Lia List.
Import ListNotations.
Local Open Scope Z_scope.

(* ================================================================== *)
(** ** Bytes and buffers *)
(* ================================================================== *)

(** [unsigned char] / [System::Byte]: an 8-bit value kept as a [Z]. *)
Definition byte := Z.

Definition bytes_of_string (s : string) : list byte :=
  map (fun c => Z.of_nat (nat_of_ascii c)) (list_ascii_of_string s).

(** [sizeof] of a string literal counts the terminating NUL. *)
Definition sizeof_literal (s : string) : nat := S (String.length s).

(** The bytes a string literal occupies in memory. *)
Definition literal_bytes (s : string) : list byte := bytes_of_string s ++ [0].

(** [memcpy(&dst[doff], &src[soff], n)] on arrays held as lists.  The
    source only calls it in bounds; out of bounds the copy is cut at the end
    of [src]. *)
Definition memcpy (dst : list byte) (doff : nat) (src : list byte) (soff n : nat)
  : list byte :=
  firstn doff dst ++ firstn n (skipn soff src) ++ skipn (doff + n) dst.

Definition slice (src : list byte) (off n : nat) : list byte :=
  firstn n (skipn off src).

Fixpoint bytes_eqb (a b : list byte) : bool :=
  match a, b with
  | [], [] => true
  | x :: a', y :: b' => (x =? y) && bytes_eqb a' b'
  | _, _ => false
  end.

(* ================================================================== *)
(** ** Constants of the headers *)
(* ================================================================== *)

(** src/src/DtlsHandshake.h and src/src/Dtls.h, lines 78-80 / 67-69. *)
Definition SRTP_ALGORITHM : string := "SRTP_AES128_CM_SHA1_80".
Definition DTLS_COOKIE : string := "sipsorcery".
Definition HANDSHAKE_ERROR_STATUS : Z := -1.

(* ================================================================== *)
(** ** The OpenSSL objects the code holds *)
(* ================================================================== *)

Module OpenSSL.

(** Values of openssl/ssl.h and openssl/bio.h, which are not in the
    repository. *)
Definition SSL_VERIFY_NONE : Z := 0.
Definition SSL_VERIFY_PEER : Z := 1.
Definition SSL_FILETYPE_PEM : Z := 1.
Definition BIO_NOCLOSE : Z := 0.

Inductive SSL_METHOD := DTLS_method | DTLS_server_method | DTLS_client_method.

(** The arguments [X509_STORE_CTX*] and [SSL*] handed to a callback: the
    callbacks of the repository never look at them. *)
Definition X509_STORE_CTX := unit.
Definition SSL_handle := unit.

Definition SOCKET := Z.

Record sockaddr_in := {
  sin_family : Z;
  sin_addr : Z;
  sin_port : Z
}.

(** What the code configures on an [SSL_CTX]. *)
Record SSL_CTX := {
  method : SSL_METHOD;
  cipher_list : option string;
  srtp_profiles : option string;
  certificate_file : option string;
  private_key_file : option string;
  cookie_generate_cb : option (SSL_handle -> Z * list byte);
  cookie_verify_cb : option (SSL_handle -> list byte -> nat -> Z);
  ecdh_auto : bool;
  verify_mode : Z;
  verify_callback : option (Z -> X509_STORE_CTX -> Z)
}.

Definition SSL_CTX_fresh (m : SSL_METHOD) : SSL_CTX :=
  {| method := m; cipher_list := None; srtp_profiles := None;
     certificate_file := None; private_key_file := None;
     cookie_generate_cb := None; cookie_verify_cb := None;
     ecdh_auto := false; verify_mode := SSL_VERIFY_NONE;
     verify_callback := None |}.

Inductive handshake_state := ST_BEFORE | ST_INIT | ST_OK | ST_ERR.

Definition handshake_state_eqb (a b : handshake_state) : bool :=
  match a, b with
  | ST_BEFORE, ST_BEFORE | ST_INIT, ST_INIT | ST_OK, ST_OK | ST_ERR, ST_ERR => true
  | _, _ => false
  end.

(** An [SSL] connection object.  [SSL_new] copies the verification
    settings and callbacks of its context; [master_secret] is there once
    the handshake is done. *)
Record SSL := {
  of_ctx : SSL_CTX;
  has_bio : bool;
  info_callback : bool;
  server : option bool;
  state : handshake_state;
  master_secret : option (list byte)
}.

Record BIO := {
  fd : SOCKET;
  close_flag : Z;
  connected : option sockaddr_in
}.

End OpenSSL.
Import OpenSSL.

(* ================================================================== *)
(** ** The instance state of [Dtls] and [DtlsHandshake] *)
(* ================================================================== *)

(** [typedef struct { SSL_CTX* ctx; SSL* ssl; BIO* bio; } krx;] with a null
    pointer as [None].  Each object is owned through exactly one pointer, so
    it is kept in place of its pointer. *)
Record krx := {
  ctx : option SSL_CTX;
  ssl : option SSL;
  bio : option BIO
}.

(** The private fields both classes declare; a null [System::String^] is
    [None]. *)
Record engine := {
  _k : option krx;
  _certFile : option string;
  _keyFile : option string;
  _handshakeComplete : bool
}.

(** Datagrams on the socket the handshake is run on. *)
Inductive datagram :=
| ClientHello (cookie : list byte)
| HelloVerifyRequest (cookie : list byte)
| Flight (payload : list byte)
| NotDtls (payload : list byte).

(** Library calls and output left behind by a method, in order. *)
Inductive call :=
| ERR_print_errors
| printf (msg : string)
| Call_SSL_library_init
| Call_SSL_CTX_new (m : SSL_METHOD)
| Call_SSL_CTX_free
| Call_SSL_new
| Call_SSL_shutdown
| Call_SSL_free
| Call_BIO_new_dgram (s : SOCKET)
| Call_DTLSv1_listen
| Call_SSL_accept
| Call_SSL_connect
| Recv (d : datagram)
| Send (d : datagram).

(** Everything a method can read or change. *)
Record world := {
  _isOpenSSLInitialised : bool;
  this : engine;
  inbound : list datagram;
  trace : list call
}.

(* ================================================================== *)
(** ** The environment: what the libraries and the peer answer *)
(* ================================================================== *)

(** The code branches on the result of library calls whose outcome depends
    on files, memory and the network.  A run is taken against an
    environment that fixes these outcomes. *)
Record environment := {
  env_SSL_CTX_new : SSL_METHOD -> bool;
  env_SSL_CTX_set_cipher_list : string -> Z;
  env_SSL_CTX_set_tlsext_use_srtp : string -> Z;
  env_SSL_CTX_use_certificate_file : string -> Z;
  env_SSL_CTX_use_PrivateKey_file : string -> Z;
  env_SSL_CTX_check_private_key : Z;
  env_SSL_new : bool;
  env_BIO_new_dgram : SOCKET -> bool;
  env_BIO_ctrl : Z;
  (** does the certificate chain of the peer validate *)
  peer_certificate_valid : bool;
  (** the key agreement of the flights received: the master secret, if any *)
  key_exchange : list datagram -> option (list byte);
  (** the i-th byte of the exporter's pseudo-random stream *)
  tls_prf : list byte -> string -> nat -> byte;
  (** the i-th byte found in an uninitialised local array *)
  stack_garbage : nat -> byte
}.

(* ================================================================== *)
(** ** Methods as state transformers with early return *)
(* ================================================================== *)

(** How a method body stops before its end: a [return r;], a managed
    exception, or a null pointer dereference in native code. *)
Inductive exit :=
| Returned (r : Z)
| Thrown (exn : string)
| AccessViolation.

Definition M (A : Type) : Type := world -> (exit + A) * world.

Definition ret {A} (a : A) : M A := fun w => (inr a, w).

Definition bind {A B} (m : M A) (f : A -> M B) : M B :=
  fun w => match m w with
           | (inl e, w') => (inl e, w')
           | (inr a, w') => f a w'
           end.

Definition return_ {A} (r : Z) : M A := fun w => (inl (Returned r), w).

Definition fault {A} : M A := fun w => (inl AccessViolation, w).

Definition throw {A} (exn : string) : M A := fun w => (inl (Thrown exn), w).

Declare Scope method_scope.
Delimit Scope method_scope with method.
Notation "x <- m ;; k" := (bind m (fun x => k))
  (at level 61, m at next level, right associativity) : method_scope.
Notation "m ;; k" := (bind m (fun _ => k))
  (at level 61, right associativity) : method_scope.
Local Open Scope method_scope.

Definition emit (c : call) : M unit :=
  fun w => (inr tt,
            {| _isOpenSSLInitialised := _isOpenSSLInitialised w;
               this := this w; inbound := inbound w;
               trace := trace w ++ [c] |}).

Definition get_this : M engine := fun w => (inr (this w), w).

Definition put_this (e : engine) : M unit :=
  fun w => (inr tt,
            {| _isOpenSSLInitialised := _isOpenSSLInitialised w;
               this := e; inbound := inbound w; trace := trace w |}).

Definition get_inbound : M (list datagram) := fun w => (inr (inbound w), w).

Definition put_inbound (l : list datagram) : M unit :=
  fun w => (inr tt,
            {| _isOpenSSLInitialised := _isOpenSSLInitialised w;
               this := this w; inbound := l; trace := trace w |}).

Definition set_k (e : engine) (k : option krx) : engine :=
  {| _k := k; _certFile := _certFile e; _keyFile := _keyFile e;
     _handshakeComplete := _handshakeComplete e |}.

(** [_k->...]: dereferences [_k]. *)
Definition deref_k : M krx :=
  e <- get_this ;;
  match _k e with
  | Some k => ret k
  | None => fault
  end.

Definition store_k (k : krx) : M unit :=
  e <- get_this ;; put_this (set_k e (Some k)).

Definition set_ctx (k : krx) (c : option SSL_CTX) : krx :=
  {| ctx := c; ssl := ssl k; bio := bio k |}.
Definition set_ssl (k : krx) (s : option SSL) : krx :=
  {| ctx := ctx k; ssl := s; bio := bio k |}.
Definition set_bio (k : krx) (b : option BIO) : krx :=
  {| ctx := ctx k; ssl := ssl k; bio := b |}.

(** A library call on [_k->ctx]; the library dereferences its argument. *)
Definition on_ctx (f : SSL_CTX -> SSL_CTX) : M unit :=
  k <- deref_k ;;
  match ctx k with
  | Some c => store_k (set_ctx k (Some (f c)))
  | None => fault
  end.

Definition on_ssl (f : SSL -> SSL) : M unit :=
  k <- deref_k ;;
  match ssl k with
  | Some s => store_k (set_ssl k (Some (f s)))
  | None => fault
  end.

(** What the caller of a method sees. *)
Inductive outcome (A : Type) :=
| Done (a : A)
| Raised (exn : string)
| Crashed.
Arguments Done {A} a.
Arguments Raised {A} exn.
Arguments Crashed {A}.

(** Runs a method body of result type [int]. *)
Definition run (m : M Z) (w : world) : outcome Z * world :=
  match m w with
  | (inl (Returned r), w') => (Done r, w')
  | (inl (Thrown x), w') => (Raised x, w')
  | (inl AccessViolation, w') => (Crashed, w')
  | (inr r, w') => (Done r, w')
  end.

(** Runs a [void] method body. *)
Definition run_void (m : M unit) (w : world) : outcome unit * world :=
  match m w with
  | (inl (Returned _), w') => (Done tt, w')
  | (inl (Thrown x), w') => (Raised x, w')
  | (inl AccessViolation, w') => (Crashed, w')
  | (inr _, w') => (Done tt, w')
  end.

Definition emit_all (l : list call) : M unit :=
  fun w => (inr tt,
            {| _isOpenSSLInitialised := _isOpenSSLInitialised w;
               this := this w; inbound := inbound w;
               trace := trace w ++ l |}).

(** [msclr::interop::marshal_as<std::string>] raises on a null string. *)
Definition marshal_as (s : option string) : M string :=
  match s with
  | Some x => ret x
  | None => throw "ArgumentNullException"
  end.

Definition get_initialised : M bool :=
  fun w => (inr (_isOpenSSLInitialised w), w).

Definition put_initialised (b : bool) : M unit :=
  fun w => (inr tt,
            {| _isOpenSSLInitialised := b; this := this w;
               inbound := inbound w; trace := trace w |}).

(** [if (b) { m }]. *)
Definition when_ (b : bool) (m : M unit) : M unit := if b then m else ret tt.

Definition is_null {A} (p : option A) : bool :=
  match p with Some _ => false | None => true end.

(** The error exits of the set-up steps: a message, with or without the
    dump of the OpenSSL error queue, and [return HANDSHAKE_ERROR_STATUS]. *)
Definition fail_dump (msg : string) : M unit :=
  emit (printf msg) ;; emit ERR_print_errors ;; return_ HANDSHAKE_ERROR_STATUS.

Definition fail_plain (msg : string) : M unit :=
  emit (printf msg) ;; return_ HANDSHAKE_ERROR_STATUS.

(* ================================================================== *)
(** ** The OpenSSL calls of the handshake methods *)
(* ================================================================== *)

Module Lib.
Section WithEnvironment.
Variable E : environment.

Definition ERR_print_errors_fp : M unit := emit ERR_print_errors.

Definition SSL_CTX_new (m : SSL_METHOD) : M (option SSL_CTX) :=
  emit (Call_SSL_CTX_new m) ;;
  ret (if env_SSL_CTX_new E m then Some (SSL_CTX_fresh m) else None).

Definition with_cipher_list (l : string) (c : SSL_CTX) : SSL_CTX :=
  {| method := method c; cipher_list := Some l; srtp_profiles := srtp_profiles c;
     certificate_file := certificate_file c; private_key_file := private_key_file c;
     cookie_generate_cb := cookie_generate_cb c; cookie_verify_cb := cookie_verify_cb c;
     ecdh_auto := ecdh_auto c; verify_mode := verify_mode c;
     verify_callback := verify_callback c |}.

Definition with_srtp_profiles (l : string) (c : SSL_CTX) : SSL_CTX :=
  {| method := method c; cipher_list := cipher_list c; srtp_profiles := Some l;
     certificate_file := certificate_file c; private_key_file := private_key_file c;
     cookie_generate_cb := cookie_generate_cb c; cookie_verify_cb := cookie_verify_cb c;
     ecdh_auto := ecdh_auto c; verify_mode := verify_mode c;
     verify_callback := verify_callback c |}.

Definition with_certificate_file (f : string) (c : SSL_CTX) : SSL_CTX :=
  {| method := method c; cipher_list := cipher_list c; srtp_profiles := srtp_profiles c;
     certificate_file := Some f; private_key_file := private_key_file c;
     cookie_generate_cb := cookie_generate_cb c; cookie_verify_cb := cookie_verify_cb c;
     ecdh_auto := ecdh_auto c; verify_mode := verify_mode c;
     verify_callback := verify_callback c |}.

Definition with_private_key_file (f : string) (c : SSL_CTX) : SSL_CTX :=
  {| method := method c; cipher_list := cipher_list c; srtp_profiles := srtp_profiles c;
     certificate_file := certificate_file c; private_key_file := Some f;
     cookie_generate_cb := cookie_generate_cb c; cookie_verify_cb := cookie_verify_cb c;
     ecdh_auto := ecdh_auto c; verify_mode := verify_mode c;
     verify_callback := verify_callback c |}.

Definition with_cookie_generate_cb (cb : SSL_handle -> Z * list byte) (c : SSL_CTX)
  : SSL_CTX :=
  {| method := method c; cipher_list := cipher_list c; srtp_profiles := srtp_profiles c;
     certificate_file := certificate_file c; private_key_file := private_key_file c;
     cookie_generate_cb := Some cb; cookie_verify_cb := cookie_verify_cb c;
     ecdh_auto := ecdh_auto c; verify_mode := verify_mode c;
     verify_callback := verify_callback c |}.

Definition with_cookie_verify_cb (cb : SSL_handle -> list byte -> nat -> Z)
  (c : SSL_CTX) : SSL_CTX :=
  {| method := method c; cipher_list := cipher_list c; srtp_profiles := srtp_profiles c;
     certificate_file := certificate_file c; private_key_file := private_key_file c;
     cookie_generate_cb := cookie_generate_cb c; cookie_verify_cb := Some cb;
     ecdh_auto := ecdh_auto c; verify_mode := verify_mode c;
     verify_callback := verify_callback c |}.

Definition with_ecdh_auto (b : bool) (c : SSL_CTX) : SSL_CTX :=
  {| method := method c; cipher_list := cipher_list c; srtp_profiles := srtp_profiles c;
     certificate_file := certificate_file c; private_key_file := private_key_file c;
     cookie_generate_cb := cookie_generate_cb c; cookie_verify_cb := cookie_verify_cb c;
     ecdh_auto := b; verify_mode := verify_mode c;
     verify_callback := verify_callback c |}.

Definition with_verify (mode : Z) (cb : option (Z -> X509_STORE_CTX -> Z))
  (c : SSL_CTX) : SSL_CTX :=
  {| method := method c; cipher_list := cipher_list c; srtp_profiles := srtp_profiles c;
     certificate_file := certificate_file c; private_key_file := private_key_file c;
     cookie_generate_cb := cookie_generate_cb c; cookie_verify_cb := cookie_verify_cb c;
     ecdh_auto := ecdh_auto c; verify_mode := mode;
     verify_callback := cb |}.

(** A fallible setter on [_k->ctx]: the setting is stored when the library
    reports [ok]. *)
Definition ctx_call (r ok : Z) (f : SSL_CTX -> SSL_CTX) : M Z :=
  on_ctx (fun c => if r =? ok then f c else c) ;; ret r.

Definition SSL_CTX_set_cipher_list (l : string) : M Z :=
  ctx_call (env_SSL_CTX_set_cipher_list E l) 1 (with_cipher_list l).

Definition SSL_CTX_set_tlsext_use_srtp (l : string) : M Z :=
  ctx_call (env_SSL_CTX_set_tlsext_use_srtp E l) 0 (with_srtp_profiles l).

Definition SSL_CTX_use_certificate_file (f : string) (type : Z) : M Z :=
  ctx_call (env_SSL_CTX_use_certificate_file E f) 1 (with_certificate_file f).

Definition SSL_CTX_use_PrivateKey_file (f : string) (type : Z) : M Z :=
  ctx_call (env_SSL_CTX_use_PrivateKey_file E f) 1 (with_private_key_file f).

Definition SSL_CTX_check_private_key : M Z :=
  ctx_call (env_SSL_CTX_check_private_key E) 1 (fun c => c).

Definition SSL_CTX_set_cookie_generate_cb cb : M unit :=
  on_ctx (with_cookie_generate_cb cb).

Definition SSL_CTX_set_cookie_verify_cb cb : M unit :=
  on_ctx (with_cookie_verify_cb cb).

Definition SSL_CTX_set_ecdh_auto (onoff : Z) : M unit :=
  on_ctx (with_ecdh_auto (negb (onoff =? 0))).

Definition SSL_CTX_set_verify (mode : Z) (cb : option (Z -> X509_STORE_CTX -> Z))
  : M unit :=
  on_ctx (with_verify mode cb).

Definition SSL_fresh (c : SSL_CTX) : SSL :=
  {| of_ctx := c; has_bio := false; info_callback := false; server := None;
     state := ST_BEFORE; master_secret := None |}.

(** [SSL_new(_k->ctx)]. *)
Definition SSL_new : M (option SSL) :=
  emit Call_SSL_new ;;
  k <- deref_k ;;
  match ctx k with
  | Some c => ret (if env_SSL_new E then Some (SSL_fresh c) else None)
  | None => ret None
  end.

Definition BIO_new_dgram (s : SOCKET) (flag : Z) : M (option BIO) :=
  emit (Call_BIO_new_dgram s) ;;
  ret (if env_BIO_new_dgram E s
       then Some {| fd := s; close_flag := flag; connected := None |}
       else None).

Definition with_bio (b : bool) (s : SSL) : SSL :=
  {| of_ctx := of_ctx s; has_bio := b; info_callback := info_callback s;
     server := server s; state := state s; master_secret := master_secret s |}.

Definition with_info_callback (s : SSL) : SSL :=
  {| of_ctx := of_ctx s; has_bio := has_bio s; info_callback := true;
     server := server s; state := state s; master_secret := master_secret s |}.

Definition with_role (r : bool) (s : SSL) : SSL :=
  {| of_ctx := of_ctx s; has_bio := has_bio s; info_callback := info_callback s;
     server := Some r; state := state s; master_secret := master_secret s |}.

Definition with_state (st : handshake_state) (m : option (list byte)) (s : SSL)
  : SSL :=
  {| of_ctx := of_ctx s; has_bio := has_bio s; info_callback := info_callback s;
     server := server s; state := st; master_secret := m |}.

(** [SSL_set_bio(_k->ssl, _k->bio, _k->bio)]. *)
Definition SSL_set_bio : M unit :=
  k <- deref_k ;;
  on_ssl (with_bio (match bio k with Some _ => true | None => false end)).

Definition SSL_set_info_callback : M unit := on_ssl with_info_callback.
Definition SSL_set_accept_state : M unit := on_ssl (with_role true).
Definition SSL_set_connect_state : M unit := on_ssl (with_role false).

(** [BIO_ctrl(_k->bio, BIO_CTRL_DGRAM_SET_CONNECTED, 0, &addr)]. *)
Definition BIO_ctrl_set_connected (addr : sockaddr_in) : M Z :=
  k <- deref_k ;;
  match bio k with
  | Some b =>
      store_k (set_bio k (Some {| fd := fd b; close_flag := close_flag b;
                                  connected := Some addr |})) ;;
      ret (env_BIO_ctrl E)
  | None => fault
  end.

End WithEnvironment.
End Lib.

(* ================================================================== *)
(** ** Reference model of the handshake calls *)
(* ================================================================== *)

Module Handshake.
Section WithEnvironment.
Variable E : environment.

(** Modelled from the spec: OpenSSL's certificate verdict during the
    handshake is not in the repository.  Section 4.2: the validation policy
    is strict chain validation or accept-any, and a validation failure fails
    the handshake when strict mode is enabled.  Strict mode is
    [SSL_VERIFY_PEER]: the verdict is the one of the registered callback on
    the chain validation result, or that result itself without a callback. *)
Definition certificate_accepted (c : SSL_CTX) (preverify_ok : bool) : bool :=
  if verify_mode c =? SSL_VERIFY_NONE then true
  else match verify_callback c with
       | Some cb => negb (cb (if preverify_ok then 1 else 0) tt =? 0)
       | None => preverify_ok
       end.

(** Modelled from the spec: the negotiation inside [SSL_accept] and
    [SSL_connect] is not in the repository.  Section 4.2: it ends Completed
    with key material to export, or Failed; cipher negotiation failure,
    decode and transport errors are the environment's [key_exchange] giving
    no secret, certificate validation failure is [certificate_accepted]. *)
Definition negotiate (s : SSL) (flights : list datagram) : Z * SSL :=
  if negb (has_bio s) then (-1, Lib.with_state ST_ERR None s)
  else match key_exchange E flights with
       | Some secret =>
           if certificate_accepted (of_ctx s) (peer_certificate_valid E)
           then (1, Lib.with_state ST_OK (Some secret) s)
           else (-1, Lib.with_state ST_ERR None s)
       | None => (-1, Lib.with_state ST_ERR None s)
       end.

(** The blocking handshake call on [_k->ssl]: it reads what arrives on the
    socket and negotiates. *)
Definition do_handshake (c : call) : M Z :=
  emit c ;;
  k <- deref_k ;;
  match ssl k with
  | Some s =>
      inb <- get_inbound ;;
      emit_all (map Recv inb) ;;
      put_inbound [] ;;
      store_k (set_ssl k (Some (snd (negotiate s inb)))) ;;
      ret (fst (negotiate s inb))
  | None => fault
  end.

Definition SSL_accept : M Z := do_handshake Call_SSL_accept.
Definition SSL_connect : M Z := do_handshake Call_SSL_connect.

(** Modelled from the spec: the cookie exchange of [DTLSv1_listen] is not in
    the repository.  Section 4.2: an initiation datagram with no or invalid
    cookie makes the engine emit a fresh cookie challenge and remain waiting;
    a valid cookie lets the handshake go on.  The cookie is produced and
    judged by the callbacks registered on the context.  The result is the
    return value, the calls made and the datagrams left unread. *)
Fixpoint cookie_exchange (c : SSL_CTX) (inb : list datagram)
  : Z * list call * list datagram :=
  match inb with
  | [] => (0, [], [])
  | d :: rest =>
      match d with
      | ClientHello cookie =>
          match cookie_generate_cb c, cookie_verify_cb c with
          | Some gen, Some ver =>
              let valid :=
                match cookie with
                | [] => false
                | _ => negb (ver tt cookie (length cookie) =? 0)
                end in
              if valid then (1, [Recv d], rest)
              else
                let '(r, ev, unread) := cookie_exchange c rest in
                (r, Recv d :: Send (HelloVerifyRequest (snd (gen tt))) :: ev, unread)
          | _, _ => (-1, [Recv d], rest)
          end
      | _ =>
          let '(r, ev, unread) := cookie_exchange c rest in
          (r, Recv d :: ev, unread)
      end
  end.

(** [DTLSv1_listen(_k->ssl, &clientAddr)]. *)
Definition DTLSv1_listen : M Z :=
  emit Call_DTLSv1_listen ;;
  k <- deref_k ;;
  match ssl k with
  | Some s =>
      inb <- get_inbound ;;
      let '(r, ev, unread) := cookie_exchange (of_ctx s) inb in
      emit_all ev ;;
      put_inbound unread ;;
      ret r
  | None => fault
  end.

Definition SSL_get_state (s : SSL) : handshake_state := state s.

End WithEnvironment.
End Handshake.

(** [htons] and [htonl] on a little-endian host. *)
Definition htons (x : Z) : Z := (x mod 256) * 256 + (x / 256) mod 256.
Definition htonl (x : Z) : Z :=
  (x mod 256) * 16777216 + ((x / 256) mod 256) * 65536
  + ((x / 65536) mod 256) * 256 + (x / 16777216) mod 256.

(* ================================================================== *)
(** ** src/src/DtlsHandshake.cpp *)
(* ================================================================== *)

Module DtlsHandshake.
Import Lib Handshake.

Definition krx_ssl_verify_peer (ok : Z) (ctx : X509_STORE_CTX) : Z := 1.

(** [// Accept any cookie.] *)
Definition verify_cookie (ssl : SSL_handle) (cookie : list byte) (cookie_len : nat)
  : Z := 1.

(** The result is the return value and the cookie written, whose length is
    [*cookie_len]. *)
Definition generate_cookie (ssl : SSL_handle) : Z * list byte :=
  let cookieLength := sizeof_literal DTLS_COOKIE in
  (1, firstn cookieLength (literal_bytes DTLS_COOKIE)).

(** [static void InitialiseOpenSSL()] of DtlsHandshake.h. *)
Definition InitialiseOpenSSL : M unit :=
  b <- get_initialised ;;
  when_ (negb b) (emit Call_SSL_library_init ;; put_initialised true).

Definition new_krx : krx := {| ctx := None; ssl := None; bio := None |}.

(** [DtlsHandshake::DtlsHandshake()]. *)
Definition ctor : M unit :=
  b <- get_initialised ;;
  when_ (negb b) InitialiseOpenSSL ;;
  put_this {| _k := Some new_krx; _certFile := None; _keyFile := None;
              _handshakeComplete := false |}.

(** [DtlsHandshake::DtlsHandshake(String^ certFile, String^ keyFile)]. *)
Definition ctor_files (certFile keyFile : option string) : M unit :=
  ctor ;;
  e <- get_this ;;
  put_this {| _k := _k e; _certFile := certFile; _keyFile := keyFile;
              _handshakeComplete := _handshakeComplete e |}.

Section WithEnvironment.
Variable E : environment.

(** [int DtlsHandshake::DoHandshakeAsServer(SOCKET rtpSocket)]. *)
Definition DoHandshakeAsServer (rtpSocket : SOCKET) : M Z :=
  ERR_print_errors_fp ;;
  c <- SSL_CTX_new E DTLS_server_method ;;
  k <- deref_k ;; store_k (set_ctx k c) ;;
  k <- deref_k ;;
  when_ (is_null (ctx k)) (fail_dump "Error: cannot create SSL_CTX.") ;;
  r <- SSL_CTX_set_cipher_list E "ALL:!ADH:!LOW:!EXP:!MD5:@STRENGTH" ;;
  when_ (negb (r =? 1)) (fail_dump "Error: cannot set the cipher list.") ;;
  r <- SSL_CTX_set_tlsext_use_srtp E SRTP_ALGORITHM ;;
  when_ (negb (r =? 0)) (fail_dump "Error: cannot setup srtp.") ;;
  e <- get_this ;;
  certFilePath <- marshal_as (_certFile e) ;;
  r <- SSL_CTX_use_certificate_file E certFilePath SSL_FILETYPE_PEM ;;
  when_ (negb (r =? 1)) (fail_dump "Error: cannot load certificate file.") ;;
  e <- get_this ;;
  keyFilePath <- marshal_as (_keyFile e) ;;
  r <- SSL_CTX_use_PrivateKey_file E keyFilePath SSL_FILETYPE_PEM ;;
  when_ (negb (r =? 1)) (fail_dump "Error: cannot load private key file.") ;;
  r <- SSL_CTX_check_private_key E ;;
  when_ (negb (r =? 1)) (fail_dump "Error: checking the private key failed. ") ;;
  SSL_CTX_set_ecdh_auto 1 ;;
  SSL_CTX_set_verify SSL_VERIFY_NONE None ;;
  s <- SSL_new E ;;
  k <- deref_k ;; store_k (set_ssl k s) ;;
  k <- deref_k ;;
  when_ (is_null (ssl k)) (fail_plain "Error: cannot create new SSL*.") ;;
  b <- BIO_new_dgram E rtpSocket BIO_NOCLOSE ;;
  k <- deref_k ;; store_k (set_bio k b) ;;
  k <- deref_k ;;
  when_ (is_null (bio k)) (fail_plain "Error: cannot create new BIO*.") ;;
  SSL_set_bio ;;
  SSL_set_info_callback ;;
  SSL_set_accept_state ;;
  r <- SSL_accept E ;;
  (if r <=? 0 then fail_plain "Failed to complete SSL handshake."
   else emit (printf "DTLS Handshake completed.")) ;;
  ERR_print_errors_fp ;;
  ret 0.

(** [int DtlsHandshake::DoHandshakeAsClient(SOCKET, short, u_long, u_short)]. *)
Definition DoHandshakeAsClient (rtpSocket : SOCKET)
  (svrAddrFamily svrIPAddr svrPort : Z) : M Z :=
  ERR_print_errors_fp ;;
  let svrAddr := {| sin_family := svrAddrFamily; sin_addr := htonl svrIPAddr;
                    sin_port := htons svrPort |} in
  c <- SSL_CTX_new E DTLS_client_method ;;
  k <- deref_k ;; store_k (set_ctx k c) ;;
  k <- deref_k ;;
  when_ (is_null (ctx k)) (fail_dump "Error: cannot create SSL_CTX.") ;;
  r <- SSL_CTX_set_cipher_list E "ALL:!ADH:!LOW:!EXP:!MD5:@STRENGTH" ;;
  when_ (negb (r =? 1)) (fail_dump "Error: cannot set the cipher list.") ;;
  r <- SSL_CTX_set_tlsext_use_srtp E SRTP_ALGORITHM ;;
  when_ (negb (r =? 0)) (fail_dump "Error: cannot setup srtp.") ;;
  SSL_CTX_set_ecdh_auto 1 ;;
  SSL_CTX_set_verify SSL_VERIFY_NONE None ;;
  s <- SSL_new E ;;
  k <- deref_k ;; store_k (set_ssl k s) ;;
  k <- deref_k ;;
  when_ (is_null (ssl k)) (fail_plain "Error: cannot create new SSL*.") ;;
  b <- BIO_new_dgram E rtpSocket BIO_NOCLOSE ;;
  k <- deref_k ;; store_k (set_bio k b) ;;
  k <- deref_k ;;
  when_ (is_null (bio k)) (fail_plain "Error: cannot create new BIO*.") ;;
  SSL_set_bio ;;
  SSL_set_info_callback ;;
  SSL_set_connect_state ;;
  r <- BIO_ctrl_set_connected E svrAddr ;;
  when_ (r <=? 0)
    (emit (printf "Error: BIO_CTL to set BIO_CTRL_DGRAM_SET_CONNECTED failed.")) ;;
  r <- SSL_connect E ;;
  (if r <=? 0 then fail_plain "Failed to complete SSL handshake."
   else emit (printf "DTLS Handshake completed.")) ;;
  ERR_print_errors_fp ;;
  ret 0.

End WithEnvironment.

(** [bool DtlsHandshake::IsHandshakeComplete()]:
    [SSL_get_state(_k->ssl) == TLS_ST_OK]. *)
Definition IsHandshakeComplete : M bool :=
  ERR_print_errors_fp ;;
  k <- deref_k ;;
  match ssl k with
  | Some s => ret (handshake_state_eqb (SSL_get_state s) ST_OK)
  | None => fault
  end.

(** [void DtlsHandshake::Shutdown()]. *)
Definition Shutdown : M unit :=
  ERR_print_errors_fp ;;
  e <- get_this ;;
  if is_null (_k e) then ret tt
  else
    k <- deref_k ;;
    (if is_null (ctx k) then ret tt
     else emit Call_SSL_CTX_free ;;
          k <- deref_k ;; store_k (set_ctx k None)) ;;
    k <- deref_k ;;
    (if is_null (ssl k) then ret tt
     else emit Call_SSL_shutdown ;;
          emit Call_SSL_free ;;
          k <- deref_k ;; store_k (set_ssl k None)) ;;
    e <- get_this ;;
    put_this (set_k e None).

(** [DtlsHandshake::~DtlsHandshake()]. *)
Definition dtor : M unit := Shutdown.

(** [SSL* GetSSL()] of DtlsHandshake.h. *)
Definition GetSSL (e : engine) : option SSL :=
  match _k e with
  | Some k => ssl k
  | None => None
  end.

End DtlsHandshake.

(* ================================================================== *)
(** ** src/SIPSorcery.Media/Dtls.cpp and src/src/Dtls.h *)
(* ================================================================== *)

Module Dtls.
Import Lib Handshake.

Definition krx_ssl_verify_peer (ok : Z) (ctx : X509_STORE_CTX) : Z := 1.

(** [// Accept any cookie.] *)
Definition verify_cookie (ssl : SSL_handle) (cookie : list byte) (cookie_len : nat)
  : Z := 1.

Definition generate_cookie (ssl : SSL_handle) : Z * list byte :=
  let cookieLength := sizeof_literal DTLS_COOKIE in
  (1, firstn cookieLength (literal_bytes DTLS_COOKIE)).

(** [enum class DtlsState] of Dtls.h, for the states the model has. *)
Definition DtlsState (st : handshake_state) : Z :=
  match st with
  | ST_BEFORE => 16384
  | ST_INIT => 12288
  | ST_OK => 3
  | ST_ERR => 12293
  end.

(** [static void InitialiseOpenSSL()] of Dtls.h. *)
Definition InitialiseOpenSSL : M unit :=
  b <- get_initialised ;;
  when_ (negb b) (emit Call_SSL_library_init ;; put_initialised true).

(** [Dtls::Dtls(String^ certFile, String^ keyFile)]. *)
Definition ctor (certFile keyFile : option string) : M unit :=
  b <- get_initialised ;;
  when_ (negb b) InitialiseOpenSSL ;;
  put_this {| _k := Some {| ctx := None; ssl := None; bio := None |};
              _certFile := certFile; _keyFile := keyFile;
              _handshakeComplete := false |}.

Section WithEnvironment.
Variable E : environment.

(** [int Dtls::DoHandshake(SOCKET rtpSocket)]. *)
Definition DoHandshake (rtpSocket : SOCKET) : M Z :=
  ERR_print_errors_fp ;;
  c <- SSL_CTX_new E DTLS_method ;;
  k <- deref_k ;; store_k (set_ctx k c) ;;
  k <- deref_k ;;
  when_ (is_null (ctx k)) (fail_dump "Error: cannot create SSL_CTX.") ;;
  r <- SSL_CTX_set_cipher_list E "ALL:!ADH:!LOW:!EXP:!MD5:@STRENGTH" ;;
  when_ (negb (r =? 1)) (fail_dump "Error: cannot set the cipher list.") ;;
  SSL_CTX_set_ecdh_auto 1 ;;
  SSL_CTX_set_verify SSL_VERIFY_PEER (Some krx_ssl_verify_peer) ;;
  r <- SSL_CTX_set_tlsext_use_srtp E SRTP_ALGORITHM ;;
  when_ (negb (r =? 0)) (fail_dump "Error: cannot setup srtp.") ;;
  e <- get_this ;;
  certFilePath <- marshal_as (_certFile e) ;;
  r <- SSL_CTX_use_certificate_file E certFilePath SSL_FILETYPE_PEM ;;
  when_ (negb (r =? 1)) (fail_dump "Error: cannot load certificate file.") ;;
  e <- get_this ;;
  keyFilePath <- marshal_as (_keyFile e) ;;
  r <- SSL_CTX_use_PrivateKey_file E keyFilePath SSL_FILETYPE_PEM ;;
  when_ (negb (r =? 1)) (fail_dump "Error: cannot load private key file.") ;;
  r <- SSL_CTX_check_private_key E ;;
  when_ (negb (r =? 1)) (fail_dump "Error: checking the private key failed. ") ;;
  SSL_CTX_set_cookie_generate_cb generate_cookie ;;
  SSL_CTX_set_cookie_verify_cb verify_cookie ;;
  SSL_CTX_set_ecdh_auto 1 ;;
  SSL_CTX_set_verify SSL_VERIFY_NONE None ;;
  s <- SSL_new E ;;
  k <- deref_k ;; store_k (set_ssl k s) ;;
  k <- deref_k ;;
  when_ (is_null (ssl k)) (fail_plain "Error: cannot create new SSL*.") ;;
  b <- BIO_new_dgram E rtpSocket BIO_NOCLOSE ;;
  k <- deref_k ;; store_k (set_bio k b) ;;
  SSL_set_bio ;;
  SSL_set_info_callback ;;
  SSL_set_accept_state ;;
  DTLSv1_listen ;;
  emit (printf "New DTLS client connection.") ;;
  r <- SSL_accept E ;;
  (if r <=? 0 then fail_plain "Failed to complete SSL handshake."
   else emit (printf "DTLS Handshake completed.")) ;;
  ERR_print_errors_fp ;;
  ret 0.

End WithEnvironment.

(** [int Dtls::GetState()]: [_k->ssl->state]. *)
Definition GetState : M Z :=
  ERR_print_errors_fp ;;
  k <- deref_k ;;
  match ssl k with
  | Some s => ret (DtlsState (state s))
  | None => fault
  end.

(** [void Dtls::Shutdown()]. *)
Definition Shutdown : M unit :=
  ERR_print_errors_fp ;;
  e <- get_this ;;
  if is_null (_k e) then ret tt
  else
    k <- deref_k ;;
    (if is_null (ctx k) then ret tt
     else emit Call_SSL_CTX_free ;;
          k <- deref_k ;; store_k (set_ctx k None)) ;;
    k <- deref_k ;;
    (if is_null (ssl k) then ret tt
     else emit Call_SSL_shutdown ;;
          emit Call_SSL_free ;;
          k <- deref_k ;; store_k (set_ssl k None)) ;;
    e <- get_this ;;
    put_this (set_k e None).

(** [Dtls::~Dtls()]. *)
Definition dtor : M unit := Shutdown.

(** [SSL* GetSSL()] of Dtls.h. *)
Definition GetSSL (e : engine) : option SSL :=
  match _k e with
  | Some k => ssl k
  | None => None
  end.

End Dtls.


(* ================================================================== *)
(** ** Reference model of the keying material exporter *)
(* ================================================================== *)

Module Exporter.
Section WithEnvironment.
Variable E : environment.

(** Modelled from the spec: [SSL_export_keying_material] is OpenSSL's and
    not in the repository.  Section 4.4: it requires the session to be
    Completed and is an error on any other session; it derives the block
    from the session's underlying secret and the label, so the same session,
    label and length give the same bytes.  The result is the return value
    (1 on success) and the contents of [out] afterwards; the exporter reads
    the session and does not change it. *)
Definition SSL_export_keying_material (s : SSL) (out : list byte) (olen : nat)
  (label : string) (llen : nat) : Z * list byte :=
  match state s, master_secret s with
  | ST_OK, Some secret =>
      (1, map (tls_prf E secret (substring 0 llen label)) (seq 0 olen)
          ++ skipn olen out)
  | _, _ => (-1, out)
  end.


End WithEnvironment.
End Exporter.

(* ================================================================== *)
(** ** Reference model of the packet transform *)
(* ================================================================== *)

Module LibSrtp.

(** [srtp_err_status_t] of srtp2/srtp.h, which is not in the repository:
    the statuses the model produces. *)
Inductive srtp_err_status_t :=
| srtp_err_status_ok
| srtp_err_status_bad_param
| srtp_err_status_auth_fail
| srtp_err_status_replay_fail
| srtp_err_status_replay_old
| srtp_err_status_key_expired.

(** The [int] a status converts to, as libsrtp numbers them. *)
Definition status_code (st : srtp_err_status_t) : Z :=
  match st with
  | srtp_err_status_ok => 0
  | srtp_err_status_bad_param => 2
  | srtp_err_status_auth_fail => 7
  | srtp_err_status_replay_fail => 9
  | srtp_err_status_replay_old => 10
  | srtp_err_status_key_expired => 15
  end.

Inductive srtp_ssrc_type_t := ssrc_any_inbound | ssrc_any_outbound.

Inductive srtp_crypto_policy_t := AES_CM_128_HMAC_SHA1_80.

(** The fields of [srtp_policy_t] the constructors fill in. *)
Record srtp_policy_t := {
  rtp : srtp_crypto_policy_t;
  rtcp : srtp_crypto_policy_t;
  key : list byte;
  ssrc_type : srtp_ssrc_type_t;
  ssrc_value : Z;
  window_size : Z;
  allow_repeat_tx : Z;
  enc_xtn_hdr_count : Z
}.

(** The cipher and the authentication function of the protection profile.
    Nothing is assumed about them. *)
Record primitives := {
  (** i-th keystream byte under a key for a packet's clear part *)
  keystream : list byte -> list byte -> nat -> byte;
  (** authentication tag of a message under a key *)
  auth_tag : list byte -> list byte -> list byte
}.

(** Modelled from the spec: libsrtp's replay database is not in the
    repository.  Glossary: a bounded sliding record of recently seen
    sequence numbers used to reject duplicate or too-old packets.  [index]
    is the highest sequence number seen; bit [i] of [bitmask] records that
    [index - i] was seen. *)
Record rdbx_t := {
  index : Z;
  bitmask : Z
}.

Definition rdbx_init : rdbx_t := {| index := 0; bitmask := 0 |}.

(** Modelled from the spec: the replay check of libsrtp is not in the
    repository.  Section 4.5: a sequence number outside the window (too old)
    and one already seen (duplicate) are rejected with distinct reasons. *)
Definition rdbx_check (ws : Z) (r : rdbx_t) (s : Z) : srtp_err_status_t :=
  let delta := s - index r in
  if 0 <? delta then srtp_err_status_ok
  else if ws - 1 + delta <? 0 then srtp_err_status_replay_old
  else if Z.testbit (bitmask r) (- delta) then srtp_err_status_replay_fail
  else srtp_err_status_ok.

(** Modelled from the spec: the replay update of libsrtp is not in the
    repository.  Section 4.5: an accepted packet updates the window, which
    slides forward with the highest sequence number. *)
Definition rdbx_add_index (ws : Z) (r : rdbx_t) (s : Z) : rdbx_t :=
  let delta := s - index r in
  if 0 <? delta
  then {| index := s;
          bitmask := Z.land (Z.lor (Z.shiftl (bitmask r) delta) 1) (Z.ones ws) |}
  else {| index := index r;
          bitmask := Z.lor (bitmask r) (Z.shiftl 1 (- delta)) |}.

(** Modelled from the spec: libsrtp's session is not in the repository.
    Section 3, DirectionalCryptoContext: a key and salt, a rolling sequence
    counter and a replay-detection window; section 4.5: the payload and the
    control flavor keep independent replay state. *)
Record srtp_ctx_t := {
  master_key : list byte;
  direction : srtp_ssrc_type_t;
  ctx_window_size : Z;
  ctx_allow_repeat_tx : bool;
  rtp_rdbx : rdbx_t;
  rtcp_index : Z;
  rtcp_rdb : rdbx_t
}.

(** Modelled from the spec: [srtp_create] is libsrtp's and not in the
    repository.  Section 4.5: construction instantiates the keyed context
    from the key material.  A window size other than 0 or 64..32767 is
    refused. *)
Definition srtp_create (p : srtp_policy_t) : srtp_err_status_t * option srtp_ctx_t :=
  if negb (window_size p =? 0)
     && ((window_size p <? 64) || (32768 <=? window_size p))
  then (srtp_err_status_bad_param, None)
  else (srtp_err_status_ok,
        Some {| master_key := key p;
                direction := ssrc_type p;
                ctx_window_size := if window_size p =? 0 then 128 else window_size p;
                ctx_allow_repeat_tx := negb (allow_repeat_tx p =? 0);
                rtp_rdbx := rdbx_init;
                rtcp_index := 0;
                rtcp_rdb := rdbx_init |}).

Definition with_rtp_rdbx (c : srtp_ctx_t) (r : rdbx_t) : srtp_ctx_t :=
  {| master_key := master_key c; direction := direction c;
     ctx_window_size := ctx_window_size c;
     ctx_allow_repeat_tx := ctx_allow_repeat_tx c;
     rtp_rdbx := r; rtcp_index := rtcp_index c; rtcp_rdb := rtcp_rdb c |}.

Definition with_rtcp_index (c : srtp_ctx_t) (i : Z) : srtp_ctx_t :=
  {| master_key := master_key c; direction := direction c;
     ctx_window_size := ctx_window_size c;
     ctx_allow_repeat_tx := ctx_allow_repeat_tx c;
     rtp_rdbx := rtp_rdbx c; rtcp_index := i; rtcp_rdb := rtcp_rdb c |}.

Definition with_rtcp_rdb (c : srtp_ctx_t) (r : rdbx_t) : srtp_ctx_t :=
  {| master_key := master_key c; direction := direction c;
     ctx_window_size := ctx_window_size c;
     ctx_allow_repeat_tx := ctx_allow_repeat_tx c;
     rtp_rdbx := rtp_rdbx c; rtcp_index := rtcp_index c; rtcp_rdb := r |}.

(** Length of the authentication tag of the profile (80 bits). *)
Definition tag_len : nat := 10.
(** Length of the fixed RTP header, and of the RTCP header. *)
Definition rtp_header_len : nat := 12.
Definition rtcp_header_len : nat := 8.
(** Length of the index word a protected control packet carries. *)
Definition trailer_len : nat := 4.
(** Width of the control flavor's replay window. *)
Definition rtcp_window : Z := 128.

(** The sequence number of an RTP packet: bytes 2 and 3, big endian. *)
Definition seq_of (pkt : list byte) : Z := nth 2 pkt 0 * 256 + nth 3 pkt 0.

(** [l] cut or zero-padded to [n] bytes. *)
Definition fit (n : nat) (l : list byte) : list byte := firstn n (l ++ repeat 0 n).

Fixpoint xor_from (ks : nat -> byte) (i : nat) (l : list byte) : list byte :=
  match l with
  | [] => []
  | b :: l' => Z.lxor b (ks i) :: xor_from ks (S i) l'
  end.

Definition encode32 (x : Z) : list byte :=
  [(x / 16777216) mod 256; (x / 65536) mod 256; (x / 256) mod 256; x mod 256].

Definition decode32 (l : list byte) : Z :=
  ((nth 0 l 0 * 256 + nth 1 l 0) * 256 + nth 2 l 0) * 256 + nth 3 l 0.

Section WithPrimitives.
Variable P : primitives.

Definition tag_of (c : srtp_ctx_t) (msg : list byte) : list byte :=
  fit tag_len (auth_tag P (master_key c) msg).

(** The payload transform: the header stays in the clear, the rest is
    combined with the keystream. *)
Definition crypt (c : srtp_ctx_t) (hlen : nat) (iv pkt : list byte) : list byte :=
  firstn hlen pkt ++ xor_from (keystream P (master_key c) iv) 0 (skipn hlen pkt).

(** Modelled from the spec: [srtp_protect] is libsrtp's and not in the
    repository.  Section 4.5: protect appends an authentication tag and
    advances the send context's sequence state.  With [allow_repeat_tx]
    unset, as the constructors set it, a sequence number sent before is
    refused.  The result is the status, the packet afterwards and the
    context afterwards. *)
Definition srtp_protect (c : srtp_ctx_t) (pkt : list byte)
  : srtp_err_status_t * list byte * srtp_ctx_t :=
  if (length pkt <? rtp_header_len)%nat then (srtp_err_status_bad_param, pkt, c)
  else
    let enc := crypt c rtp_header_len (firstn rtp_header_len pkt) pkt in
    let out := enc ++ tag_of c enc in
    match rdbx_check (ctx_window_size c) (rtp_rdbx c) (seq_of pkt) with
    | srtp_err_status_ok =>
        (srtp_err_status_ok, out,
         with_rtp_rdbx c (rdbx_add_index (ctx_window_size c) (rtp_rdbx c) (seq_of pkt)))
    | srtp_err_status_replay_fail =>
        if ctx_allow_repeat_tx c then (srtp_err_status_ok, out, c)
        else (srtp_err_status_replay_fail, pkt, c)
    | st => (st, pkt, c)
    end.

(** Modelled from the spec: [srtp_unprotect] is libsrtp's and not in the
    repository.  Section 4.5: unprotect consults the replay window,
    authenticates, decrypts in place and updates the window; it fails with a
    distinct reason when the tag does not verify, when the sequence number
    is too old or already seen, or on a structural error, and a failure
    leaves the context as it was. *)
Definition srtp_unprotect (c : srtp_ctx_t) (pkt : list byte)
  : srtp_err_status_t * list byte * srtp_ctx_t :=
  if (length pkt <? rtp_header_len + tag_len)%nat
  then (srtp_err_status_bad_param, pkt, c)
  else
    match rdbx_check (ctx_window_size c) (rtp_rdbx c) (seq_of pkt) with
    | srtp_err_status_ok =>
        let enc := firstn (length pkt - tag_len) pkt in
        let tag := skipn (length pkt - tag_len) pkt in
        if bytes_eqb tag (tag_of c enc)
        then (srtp_err_status_ok,
              crypt c rtp_header_len (firstn rtp_header_len enc) enc,
              with_rtp_rdbx c
                (rdbx_add_index (ctx_window_size c) (rtp_rdbx c) (seq_of pkt)))
        else (srtp_err_status_auth_fail, pkt, c)
    | st => (st, pkt, c)
    end.

(** The index word of a protected control packet: the encryption flag and
    the 31-bit index. *)
Definition trailer (i : Z) : list byte := encode32 (2147483648 + i).

(** Modelled from the spec: [srtp_protect_rtcp] is libsrtp's and not in the
    repository.  Section 4.5: as for the payload flavor, with sequence state
    of its own: the send counter advances by one per packet and travels
    with the packet. *)
Definition srtp_protect_rtcp (c : srtp_ctx_t) (pkt : list byte)
  : srtp_err_status_t * list byte * srtp_ctx_t :=
  if (length pkt <? rtcp_header_len)%nat then (srtp_err_status_bad_param, pkt, c)
  else
    let i := rtcp_index c + 1 in
    if (i <? 0) || (2147483648 <=? i) then (srtp_err_status_key_expired, pkt, c)
    else
      let iv := firstn rtcp_header_len pkt ++ trailer i in
      let enc := crypt c rtcp_header_len iv pkt in
      (srtp_err_status_ok,
       enc ++ trailer i ++ tag_of c (enc ++ trailer i),
       with_rtcp_index c i).

(** Modelled from the spec: [srtp_unprotect_rtcp] is libsrtp's and not in
    the repository.  Section 4.5: as [srtp_unprotect], on the control
    flavor's own replay state. *)
Definition srtp_unprotect_rtcp (c : srtp_ctx_t) (pkt : list byte)
  : srtp_err_status_t * list byte * srtp_ctx_t :=
  if (length pkt <? rtcp_header_len + trailer_len + tag_len)%nat
  then (srtp_err_status_bad_param, pkt, c)
  else
    let body := firstn (length pkt - tag_len) pkt in
    let tag := skipn (length pkt - tag_len) pkt in
    let enc := firstn (length body - trailer_len) body in
    let word := decode32 (skipn (length body - trailer_len) body) in
    let i := word mod 2147483648 in
    match rdbx_check rtcp_window (rtcp_rdb c) i with
    | srtp_err_status_ok =>
        if bytes_eqb tag (tag_of c body)
        then (srtp_err_status_ok,
              (if 2147483648 <=? word
               then crypt c rtcp_header_len
                      (firstn rtcp_header_len enc
                       ++ skipn (length body - trailer_len) body) enc
               else enc),
              with_rtcp_rdb c (rdbx_add_index rtcp_window (rtcp_rdb c) i))
        else (srtp_err_status_auth_fail, pkt, c)
    | st => (st, pkt, c)
    end.

End WithPrimitives.
End LibSrtp.

(* ================================================================== *)
(** ** src/src/Srtp.cpp and src/SIPSorcery.Media/Srtp.h *)
(* ================================================================== *)

Module Srtp.
Import LibSrtp Exporter.

(** [srtp_t * _session]: a pointer to a cell holding the library's session
    pointer, each possibly null. *)
Record Srtp := {
  _session : option (option srtp_ctx_t)
}.

(** Library calls and console output of the class, in order. *)
Inductive srtp_call :=
| Call_srtp_init
| Call_SSL_export_keying_material (olen : nat) (label : string) (llen : nat)
| Call_srtp_create (policy : srtp_policy_t)
| Call_srtp_dealloc
| Out (msg : string)
| Out_result (msg : string) (err : Z).

(** The static flag of the class and what it has printed and called. *)
Record statics := {
  _isLibSrtpInitialised : bool;
  log : list srtp_call
}.

Definition say (c : srtp_call) (st : statics) : statics :=
  {| _isLibSrtpInitialised := _isLibSrtpInitialised st; log := log st ++ [c] |}.

(** [static void InitialiseLibSrtp()] of Srtp.h. *)
Definition InitialiseLibSrtp (st : statics) : statics :=
  if _isLibSrtpInitialised st then st
  else {| _isLibSrtpInitialised := true; log := log st ++ [Call_srtp_init] |}.

(** [static const int SRTP_ANTI_REPLAY_WINDOW_SIZE = 128;] of Srtp.h. *)
Definition SRTP_ANTI_REPLAY_WINDOW_SIZE : Z := 128.

(** [srtp_crypto_policy_set_rtp_default] and
    [srtp_crypto_policy_set_rtcp_default]. *)
Definition srtp_crypto_policy_default : srtp_crypto_policy_t :=
  AES_CM_128_HMAC_SHA1_80.

Section WithConstants.
Variable E : environment.
(** [SRTP_AES_128_KEY_LEN] and [SRTP_SALT_LEN] of srtp2/srtp.h, which is
    not in the repository: the constructor is embedded for any values. *)
Variables SRTP_AES_128_KEY_LEN SRTP_SALT_LEN : nat.

(** [static const int SRTP_AES_KEY_KEY_LEN = SRTP_AES_128_KEY_LEN;]. *)
Definition SRTP_AES_KEY_KEY_LEN : nat := SRTP_AES_128_KEY_LEN.

(** An uninitialised local array of [n] bytes. *)
Definition local_array (n : nat) : list byte := map (stack_garbage E) (seq 0 n).

(** [const char * label = "EXTRACTOR-dtls_srtp";]. *)
Definition label : string := "EXTRACTOR-dtls_srtp".

(** [sizeof(dtls_buffer)]. *)
Definition sizeof_dtls_buffer : nat :=
  SRTP_AES_KEY_KEY_LEN * 2 + SRTP_SALT_LEN * 2.

(** Lines 78-84: the four [memcpy] from [dtls_buffer]; the result is
    [client_write_key] and [server_write_key]. *)
Definition split_keys (dtls_buffer : list byte) : list byte * list byte :=
  let client_write_key := local_array (SRTP_AES_KEY_KEY_LEN + SRTP_SALT_LEN) in
  let server_write_key := local_array (SRTP_AES_KEY_KEY_LEN + SRTP_SALT_LEN) in
  let offset := 0%nat in
  let client_write_key :=
    memcpy client_write_key 0 dtls_buffer offset SRTP_AES_KEY_KEY_LEN in
  let offset := (offset + SRTP_AES_KEY_KEY_LEN)%nat in
  let server_write_key :=
    memcpy server_write_key 0 dtls_buffer offset SRTP_AES_KEY_KEY_LEN in
  let offset := (offset + SRTP_AES_KEY_KEY_LEN)%nat in
  let client_write_key :=
    memcpy client_write_key SRTP_AES_KEY_KEY_LEN dtls_buffer offset SRTP_SALT_LEN in
  let offset := (offset + SRTP_SALT_LEN)%nat in
  let server_write_key :=
    memcpy server_write_key SRTP_AES_KEY_KEY_LEN dtls_buffer offset SRTP_SALT_LEN in
  (client_write_key, server_write_key).

(** Lines 86-99: the policy of the [Dtls^] constructor. *)
Definition policy_of_dtls (client_write_key server_write_key : list byte)
  (isClient : bool) : srtp_policy_t :=
  {| rtp := srtp_crypto_policy_default;
     rtcp := srtp_crypto_policy_default;
     key := if isClient then client_write_key else server_write_key;
     ssrc_type := if isClient then ssrc_any_inbound else ssrc_any_outbound;
     ssrc_value := 0;
     window_size := SRTP_ANTI_REPLAY_WINDOW_SIZE;
     allow_repeat_tx := 0;
     enc_xtn_hdr_count := 0 |}.

(** Lines 27-38: the policy of the byte array constructor; [ssrc.value] is
    left uninitialised there. *)
Definition policy_of_key (key : list byte) (isClient : bool) : srtp_policy_t :=
  {| rtp := srtp_crypto_policy_default;
     rtcp := srtp_crypto_policy_default;
     key := key;
     ssrc_type := if isClient then ssrc_any_outbound else ssrc_any_inbound;
     ssrc_value := stack_garbage E 0;
     window_size := SRTP_ANTI_REPLAY_WINDOW_SIZE;
     allow_repeat_tx := 0;
     enc_xtn_hdr_count := 0 |}.

(** [Srtp::Srtp(cli::array<System::Byte>^ key, bool isClient)]. *)
Definition ctor_key (key : list byte) (isClient : bool) (st : statics)
  : outcome Srtp * statics :=
  let st := InitialiseLibSrtp st in
  match key with
  | [] => (Raised "IndexOutOfRangeException", st)
  | _ =>
      let policy := policy_of_key key isClient in
      let st := say (Call_srtp_create policy) st in
      let '(err, session) := srtp_create policy in
      (Done {| _session := Some session |},
       say (Out_result "Create srtp session result" (status_code err)) st)
  end.

(** [Srtp::Srtp(Dtls^ dtlsContext, bool isClient)]. *)
Definition ctor_dtls (dtlsContext : engine) (isClient : bool) (st : statics)
  : outcome Srtp * statics :=
  let st := InitialiseLibSrtp st in
  let dtls_buffer := local_array sizeof_dtls_buffer in
  match Dtls.GetSSL dtlsContext with
  | None => (Crashed, st)
  | Some s =>
      let st := say (Call_SSL_export_keying_material
                       sizeof_dtls_buffer label (String.length label)) st in
      let '(res, dtls_buffer) :=
        SSL_export_keying_material E s dtls_buffer sizeof_dtls_buffer
          label (String.length label) in
      if negb (res =? 1)
      then (Done {| _session := None |},
            say (Out "Export of SSL key information failed.") st)
      else
        let '(client_write_key, server_write_key) := split_keys dtls_buffer in
        let policy := policy_of_dtls client_write_key server_write_key isClient in
        let st := say (Call_srtp_create policy) st in
        let '(err, session) := srtp_create policy in
        let st :=
          if negb (status_code err =? status_code srtp_err_status_ok)
          then say (Out "Unable to create SRTP session.") st else st in
        (Done {| _session := Some session |},
         say (Out_result (if isClient then "Create srtp client session result"
                          else "Create srtp server session result")
                         (status_code err)) st)
  end.


End WithConstants.

Section WithPrimitives.
Variable P : primitives.

(** The common shape of the four packet methods: [pin_ptr] on [&buffer[0]],
    the call on [*_session] with the first [length] bytes as the packet, the
    status returned as [int].  The library works in place in [buffer]; the
    new length goes to the by-value parameter and is lost.  [grow] is the
    number of bytes the call may append, which have to fit in the array. *)
Definition packet_call
  (f : srtp_ctx_t -> list byte -> srtp_err_status_t * list byte * srtp_ctx_t)
  (grow : nat) (this : Srtp) (buffer : list byte) (len : Z)
  : outcome (Z * list byte * Srtp) :=
  match buffer with
  | [] => Raised "IndexOutOfRangeException"
  | _ =>
      match _session this with
      | Some (Some c) =>
          if (length buffer <? Z.to_nat len + grow)%nat then Crashed
          else
            let '(st, out, c') := f c (firstn (Z.to_nat len) buffer) in
            Done (status_code st,
                  out ++ skipn (length out) buffer,
                  {| _session := Some (Some c') |})
      | _ => Crashed
      end
  end.

(** [int Srtp::UnprotectRTP(cli::array<System::Byte>^ buffer, int length)]. *)
Definition UnprotectRTP := packet_call (srtp_unprotect P) 0.

(** [int Srtp::ProtectRTP(cli::array<System::Byte>^ buffer, int length)]. *)
Definition ProtectRTP := packet_call (srtp_protect P) tag_len.

(** [int Srtp::ProtectRTCP(cli::array<System::Byte>^ buffer, int length)]. *)
Definition ProtectRTCP := packet_call (srtp_protect_rtcp P) (trailer_len + tag_len).

(** [int Srtp::UnprotectRTCP(cli::array<System::Byte>^ buffer, int length)]. *)
Definition UnprotectRTCP := packet_call (srtp_unprotect_rtcp P) 0.

End WithPrimitives.

(** [Srtp::~Srtp()].  The test is on the pointer [_session] alone;
    [srtp_dealloc] is called on the session the cell holds and dereferences
    it, as the packet calls do: on a cell holding the null session, which
    is what a failed [srtp_create] leaves, the call faults. *)
Definition dtor (this : Srtp) (st : statics) : outcome Srtp * statics :=
  match _session this with
  | Some session =>
      let st := say Call_srtp_dealloc st in
      match session with
      | Some _ => (Done {| _session := None |}, st)
      | None => (Crashed, st)
      end
  | None => (Done this, st)
  end.

End Srtp.

(* ================================================================== *)
(** ** src/SIPSorcery.Media/DtlsManaged.cpp and DtlsManaged.h *)
(* ================================================================== *)

Module DtlsManaged.

(** A memory BIO, [BIO_new(BIO_s_mem())], with what the code sets on it. *)
Record mem_BIO := {
  mem_eof_return : option Z
}.

(** [typedef struct { SSL_CTX* ctx; SSL* ssl; BIO* in_bio; BIO* out_bio;
    char name[512]; } krx;] with a null pointer as [None]. *)
Record krx := {
  ctx : option SSL_CTX;
  ssl : option SSL;
  in_bio : option mem_BIO;
  out_bio : option mem_BIO;
  name : string
}.

(** The private fields of the class. *)
Record instance := {
  _k : option krx;
  _certFile : option string;
  _keyFile : option string;
  _handshakeComplete : bool
}.

(** Library calls and output left behind by a method, in order. *)
Inductive call :=
| ERR_print_errors
| printf (msg : string)
| printf_d (msg : string) (i : Z)
| Call_SSL_library_init
| Call_SSL_load_error_strings
| Call_ERR_load_BIO_strings
| Call_OpenSSL_add_all_algorithms
| Call_SSL_CTX_new (m : SSL_METHOD)
| Call_SSL_CTX_free
| Call_SSL_new
| Call_SSL_shutdown
| Call_SSL_free
| Call_DTLS_set_link_mtu (mtu : Z)
| Call_SSL_set_mtu (mtu : Z)
| Call_BIO_new_mem
| Call_BIO_write (data : list byte) (len : Z)
| Call_SSL_is_init_finished
| Call_SSL_do_handshake
| Call_BIO_ctrl_pending
| Call_BIO_read (len : Z)
| Call_SSL_read (len : Z).

Record world := {
  _isOpenSSLInitialised : bool;
  this : instance;
  trace : list call
}.

(** What the library answers on the two memory BIOs and the connection.
    The state of the library is the outcome of the calls made so far:
    every answer is read off the calls made, the one answered included. *)
Record buffers := {
  env_BIO_new : list call -> bool;
  env_BIO_write : list call -> Z;
  env_SSL_is_init_finished : list call -> bool;
  env_SSL_do_handshake : list call -> Z;
  env_BIO_ctrl_pending : list call -> Z;
  env_BIO_read : list call -> Z * list byte;
  env_SSL_read : list call -> Z * list byte
}.

(** Method bodies, as state transformers with early return. *)
Definition St (A : Type) : Type := world -> (exit + A) * world.

Definition ret {A} (a : A) : St A := fun w => (inr a, w).

Definition bind {A B} (m : St A) (f : A -> St B) : St B :=
  fun w => match m w with
           | (inl e, w') => (inl e, w')
           | (inr a, w') => f a w'
           end.

Definition return_ {A} (r : Z) : St A := fun w => (inl (Returned r), w).
Definition fault {A} : St A := fun w => (inl AccessViolation, w).
Definition throw {A} (exn : string) : St A := fun w => (inl (Thrown exn), w).

Declare Scope managed_scope.
Delimit Scope managed_scope with managed.
Notation "x <- m ;; k" := (bind m (fun x => k))
  (at level 61, m at next level, right associativity) : managed_scope.
Notation "m ;; k" := (bind m (fun _ => k))
  (at level 61, right associativity) : managed_scope.
Local Open Scope managed_scope.

Definition emit (c : call) : St unit :=
  fun w => (inr tt,
            {| _isOpenSSLInitialised := _isOpenSSLInitialised w;
               this := this w; trace := trace w ++ [c] |}).

(** A library call whose answer the code uses. *)
Definition ask {A} (c : call) (answer : list call -> A) : St A :=
  fun w => (inr (answer (trace w ++ [c])),
            {| _isOpenSSLInitialised := _isOpenSSLInitialised w;
               this := this w; trace := trace w ++ [c] |}).

Definition get_this : St instance := fun w => (inr (this w), w).

Definition put_this (e : instance) : St unit :=
  fun w => (inr tt,
            {| _isOpenSSLInitialised := _isOpenSSLInitialised w;
               this := e; trace := trace w |}).

Definition get_initialised : St bool :=
  fun w => (inr (_isOpenSSLInitialised w), w).

Definition put_initialised (b : bool) : St unit :=
  fun w => (inr tt,
            {| _isOpenSSLInitialised := b; this := this w; trace := trace w |}).

Definition deref_k : St krx :=
  e <- get_this ;;
  match _k e with
  | Some k => ret k
  | None => fault
  end.

Definition store_k (k : krx) : St unit :=
  e <- get_this ;;
  put_this {| _k := Some k; _certFile := _certFile e; _keyFile := _keyFile e;
              _handshakeComplete := _handshakeComplete e |}.

Definition set_ctx (k : krx) (c : option SSL_CTX) : krx :=
  {| ctx := c; ssl := ssl k; in_bio := in_bio k; out_bio := out_bio k;
     name := name k |}.
Definition set_ssl (k : krx) (s : option SSL) : krx :=
  {| ctx := ctx k; ssl := s; in_bio := in_bio k; out_bio := out_bio k;
     name := name k |}.
Definition set_in_bio (k : krx) (b : option mem_BIO) : krx :=
  {| ctx := ctx k; ssl := ssl k; in_bio := b; out_bio := out_bio k;
     name := name k |}.
Definition set_out_bio (k : krx) (b : option mem_BIO) : krx :=
  {| ctx := ctx k; ssl := ssl k; in_bio := in_bio k; out_bio := b;
     name := name k |}.
Definition set_name (k : krx) (n : string) : krx :=
  {| ctx := ctx k; ssl := ssl k; in_bio := in_bio k; out_bio := out_bio k;
     name := n |}.

(** A library call on [_k->ctx] or [_k->ssl]; the library dereferences its
    argument. *)
Definition on_ctx (f : SSL_CTX -> SSL_CTX) : St unit :=
  k <- deref_k ;;
  match ctx k with
  | Some c => store_k (set_ctx k (Some (f c)))
  | None => fault
  end.

Definition on_ssl (f : SSL -> SSL) : St unit :=
  k <- deref_k ;;
  match ssl k with
  | Some s => store_k (set_ssl k (Some (f s)))
  | None => fault
  end.

(** [if (b) { m }]. *)
Definition when_ (b : bool) (m : St unit) : St unit := if b then m else ret tt.

(** Runs a method body of result type [int], and a [void] one. *)
Definition run (m : St Z) (w : world) : outcome Z * world :=
  match m w with
  | (inl (Returned r), w') => (Done r, w')
  | (inl (Thrown x), w') => (Raised x, w')
  | (inl AccessViolation, w') => (Crashed, w')
  | (inr r, w') => (Done r, w')
  end.

Definition run_void (m : St unit) (w : world) : outcome unit * world :=
  match m w with
  | (inl (Returned _), w') => (Done tt, w')
  | (inl (Thrown x), w') => (Raised x, w')
  | (inl AccessViolation, w') => (Crashed, w')
  | (inr _, w') => (Done tt, w')
  end.

Definition krx_ssl_verify_peer (ok : Z) (ctx : X509_STORE_CTX) : Z := 1.

(** [int DtlsManaged::VerifyPeer(int ok, X509_STORE_CTX* ctx)]. *)
Definition VerifyPeer (ok : Z) (ctx : X509_STORE_CTX) : Z := 1.

(** The error exits of [Init]: a message, with or without the dump of the
    OpenSSL error queue, and [return code]. *)
Definition fail_dump (msg : string) (code : Z) : St unit :=
  emit (printf msg) ;; emit ERR_print_errors ;; return_ code.

Definition fail_plain (msg : string) (code : Z) : St unit :=
  emit (printf msg) ;; return_ code.

(** A fallible setter on [_k->ctx]: the setting is stored when the library
    reports [ok]. *)
Definition ctx_call (r ok : Z) (f : SSL_CTX -> SSL_CTX) : St Z :=
  on_ctx (fun c => if r =? ok then f c else c) ;; ret r.

(** [DtlsManaged::DtlsManaged(String^ certFile, String^ keyFile)]. *)
Definition ctor (certFile keyFile : option string) : St unit :=
  b <- get_initialised ;;
  when_ (negb b)
    (emit Call_SSL_library_init ;;
     emit Call_SSL_load_error_strings ;;
     emit Call_ERR_load_BIO_strings ;;
     emit Call_OpenSSL_add_all_algorithms ;;
     put_initialised true) ;;
  e <- get_this ;;
  put_this {| _k := _k e; _certFile := certFile; _keyFile := keyFile;
              _handshakeComplete := _handshakeComplete e |} ;;
  e <- get_this ;;
  put_this {| _k := Some {| ctx := None; ssl := None; in_bio := None;
                            out_bio := None; name := "" |};
              _certFile := _certFile e; _keyFile := _keyFile e;
              _handshakeComplete := _handshakeComplete e |}.

Section WithEnvironment.
Variable E : environment.
Variable B : buffers.

(** [BIO_new(BIO_s_mem())]. *)
Definition BIO_new_mem : St (option mem_BIO) :=
  ok <- ask Call_BIO_new_mem (env_BIO_new B) ;;
  ret (if ok then Some {| mem_eof_return := None |} else None).

(** [int DtlsManaged::Init()]. *)
Definition Init : St Z :=
  emit ERR_print_errors ;;
  emit (Call_SSL_CTX_new DTLS_method) ;;
  k <- deref_k ;;
  store_k (set_ctx k (if env_SSL_CTX_new E DTLS_method
                      then Some (SSL_CTX_fresh DTLS_method) else None)) ;;
  k <- deref_k ;;
  when_ (is_null (ctx k)) (fail_dump "Error: cannot create SSL_CTX." (-1)) ;;
  r <- ctx_call (env_SSL_CTX_set_cipher_list E "ALL:!ADH:!LOW:!EXP:!MD5:@STRENGTH") 1
         (Lib.with_cipher_list "ALL:!ADH:!LOW:!EXP:!MD5:@STRENGTH") ;;
  when_ (negb (r =? 1)) (fail_dump "Error: cannot set the cipher list." (-2)) ;;
  on_ctx (Lib.with_ecdh_auto true) ;;
  on_ctx (Lib.with_verify SSL_VERIFY_PEER (Some krx_ssl_verify_peer)) ;;
  r <- ctx_call (env_SSL_CTX_set_tlsext_use_srtp E "SRTP_AES128_CM_SHA1_80") 0
         (Lib.with_srtp_profiles "SRTP_AES128_CM_SHA1_80") ;;
  when_ (negb (r =? 0)) (fail_dump "Error: cannot setup srtp." (-3)) ;;
  e <- get_this ;;
  certFilePath <- match _certFile e with
                  | Some x => ret x
                  | None => throw "ArgumentNullException"
                  end ;;
  r <- ctx_call (env_SSL_CTX_use_certificate_file E certFilePath) 1
         (Lib.with_certificate_file certFilePath) ;;
  when_ (negb (r =? 1)) (fail_dump "Error: cannot load certificate file." (-4)) ;;
  e <- get_this ;;
  keyFilePath <- match _keyFile e with
                 | Some x => ret x
                 | None => throw "ArgumentNullException"
                 end ;;
  r <- ctx_call (env_SSL_CTX_use_PrivateKey_file E keyFilePath) 1
         (Lib.with_private_key_file keyFilePath) ;;
  when_ (negb (r =? 1)) (fail_dump "Error: cannot load private key file." (-5)) ;;
  r <- ctx_call (env_SSL_CTX_check_private_key E) 1 (fun c => c) ;;
  when_ (negb (r =? 1))
    (fail_dump "Error: checking the private key failed. " (-6)) ;;
  k <- deref_k ;; store_k (set_name k "+ server") ;;
  emit Call_SSL_new ;;
  k <- deref_k ;;
  store_k (set_ssl k (match ctx k with
                      | Some c => if env_SSL_new E then Some (Lib.SSL_fresh c)
                                  else None
                      | None => None
                      end)) ;;
  k <- deref_k ;;
  when_ (is_null (ssl k)) (fail_plain "Error: cannot create new SSL*." (-7)) ;;
  on_ssl Lib.with_info_callback ;;
  emit (Call_DTLS_set_link_mtu 1400) ;;
  emit (Call_SSL_set_mtu 1400) ;;
  b <- BIO_new_mem ;;
  k <- deref_k ;; store_k (set_in_bio k b) ;;
  k <- deref_k ;;
  when_ (is_null (in_bio k)) (fail_plain "Error: cannot allocate read bio." (-2)) ;;
  k <- deref_k ;;
  store_k (set_in_bio k (Some {| mem_eof_return := Some (-1) |})) ;;
  b <- BIO_new_mem ;;
  k <- deref_k ;; store_k (set_out_bio k b) ;;
  k <- deref_k ;;
  when_ (is_null (out_bio k)) (fail_plain "Error: cannot allocate write bio." (-3)) ;;
  k <- deref_k ;;
  store_k (set_out_bio k (Some {| mem_eof_return := Some (-1) |})) ;;
  on_ssl (Lib.with_bio true) ;;
  on_ssl (Lib.with_role true) ;;
  emit ERR_print_errors ;;
  ret 0.

(** [SSL_is_init_finished(_k->ssl)]; the library dereferences its
    argument. *)
Definition SSL_is_init_finished : St bool :=
  k <- deref_k ;;
  match ssl k with
  | Some _ => ask Call_SSL_is_init_finished (env_SSL_is_init_finished B)
  | None => fault
  end.

Definition set_handshakeComplete (b : bool) : St unit :=
  e <- get_this ;;
  put_this {| _k := _k e; _certFile := _certFile e; _keyFile := _keyFile e;
              _handshakeComplete := b |}.

(** [int DtlsManaged::Write(cli::array<System::Byte>^ buffer, int
    bufferLength)]. *)
Definition Write (buffer : list byte) (bufferLength : Z) : St Z :=
  match buffer with
  | [] => throw "IndexOutOfRangeException"
  | _ =>
      deref_k ;;
      written <- ask (Call_BIO_write buffer bufferLength) (env_BIO_write B) ;;
      todo <- (if 0 <? written
               then finished <- SSL_is_init_finished ;; ret (negb finished)
               else ret false) ;;
      (if (todo : bool)
       then
         deref_k ;;
         res <- ask Call_SSL_do_handshake (env_SSL_do_handshake B) ;;
         emit (printf_d "Handshake result" res) ;;
         set_handshakeComplete (res =? 1)
       else emit (printf_d "BIO_write bytes written" written)) ;;
      emit ERR_print_errors ;;
      ret written
  end.

(** The array after the library has written [data] at its start. *)
Definition written_to (buffer data : list byte) : list byte :=
  data ++ skipn (length data) buffer.

(** [int DtlsManaged::Read(cli::array<System::Byte>^ buffer, int
    bufferLength)]: the result and the array afterwards. *)
Definition Read (buffer : list byte) (bufferLength : Z) : St (Z * list byte) :=
  deref_k ;;
  pending <- ask Call_BIO_ctrl_pending (env_BIO_ctrl_pending B) ;;
  if 0 <? pending then
    match buffer with
    | [] => throw "IndexOutOfRangeException"
    | _ =>
        deref_k ;;
        r <- ask (Call_BIO_read bufferLength) (env_BIO_read B) ;;
        ret (fst r, written_to buffer (snd r))
    end
  else
    finished <- SSL_is_init_finished ;;
    if (finished : bool) then
      match buffer with
      | [] => throw "IndexOutOfRangeException"
      | _ =>
          deref_k ;;
          r <- ask (Call_SSL_read bufferLength) (env_SSL_read B) ;;
          emit (printf_d "SSL_read" (fst r)) ;;
          ret (fst r, written_to buffer (snd r))
      end
    else
      emit ERR_print_errors ;;
      ret (0, buffer).

End WithEnvironment.

(** [void DtlsManaged::Shutdown()]. *)
Definition Shutdown : St unit :=
  emit ERR_print_errors ;;
  e <- get_this ;;
  if is_null (_k e) then ret tt
  else
    k <- deref_k ;;
    (if is_null (ctx k) then ret tt
     else emit Call_SSL_CTX_free ;;
          k <- deref_k ;; store_k (set_ctx k None)) ;;
    k <- deref_k ;;
    (if is_null (ssl k) then ret tt
     else emit Call_SSL_shutdown ;;
          emit Call_SSL_free ;;
          k <- deref_k ;; store_k (set_ssl k None)) ;;
    e <- get_this ;;
    put_this {| _k := None; _certFile := _certFile e; _keyFile := _keyFile e;
                _handshakeComplete := _handshakeComplete e |}.

(** [DtlsManaged::~DtlsManaged()]. *)
Definition dtor : St unit := Shutdown.

(** [property SSL* Ssl { SSL* get() { return _k->ssl; } }]. *)
Definition Ssl : St (option SSL) :=
  k <- deref_k ;; ret (ssl k).

End DtlsManaged.

(* ================================================================== *)
(** ** Media Foundation values the media classes name *)
(* ================================================================== *)

Module MediaFoundation.

(** [HRESULT]: a signed 32-bit status.  Values of winerror.h and mferror.h,
    which are not in the repository. *)
Definition HRESULT := Z.
Definition S_OK : HRESULT := 0.
Definition MF_E_NO_MORE_TYPES : HRESULT := -1072875847.

(** [GUID] of guiddef.h; [operator==] compares the sixteen bytes. *)
Record GUID := {
  Data1 : Z;
  Data2 : Z;
  Data3 : Z;
  Data4 : list byte
}.

Definition GUID_eqb (a b : GUID) : bool :=
  (Data1 a =? Data1 b) && (Data2 a =? Data2 b) && (Data3 a =? Data3 b)
  && bytes_eqb (Data4 a) (Data4 b).

Definition GUID_NULL : GUID :=
  {| Data1 := 0; Data2 := 0; Data3 := 0; Data4 := repeat 0 8 |}.

(** [FCC('abcd')] of mfapi.h: the four characters, first one lowest. *)
Definition FCC (a b c d : ascii) : Z :=
  Z.of_nat (nat_of_ascii a) + Z.of_nat (nat_of_ascii b) * 256
  + Z.of_nat (nat_of_ascii c) * 65536 + Z.of_nat (nat_of_ascii d) * 16777216.

(** [DEFINE_MEDIATYPE_GUID(name, format)] of mfapi.h. *)
Definition MEDIATYPE_GUID (format : Z) : GUID :=
  {| Data1 := format; Data2 := 0; Data3 := 16;
     Data4 := [128; 0; 0; 170; 0; 56; 155; 113] |}.

Definition D3DFMT_R8G8B8 : Z := 20.
Definition D3DFMT_X8R8G8B8 : Z := 22.

Definition MFVideoFormat_I420 : GUID := MEDIATYPE_GUID (FCC "I" "4" "2" "0").
Definition MFVideoFormat_RGB24 : GUID := MEDIATYPE_GUID D3DFMT_R8G8B8.
Definition MFVideoFormat_RGB32 : GUID := MEDIATYPE_GUID D3DFMT_X8R8G8B8.
Definition MFVideoFormat_YUY2 : GUID := MEDIATYPE_GUID (FCC "Y" "U" "Y" "2").
Definition MFMediaType_Audio : GUID := MEDIATYPE_GUID (FCC "a" "u" "d" "s").
Definition MFMediaType_Video : GUID := MEDIATYPE_GUID (FCC "v" "i" "d" "s").

(** The attribute keys the code asks a media type for. *)
Inductive attribute :=
| MF_MT_MAJOR_TYPE
| MF_MT_SUBTYPE
| MF_MT_FRAME_SIZE
| MF_MT_DEFAULT_STRIDE.

(** What an [IMFMediaType] answers: the status of the call and the value
    left in the output variable ([MFGetAttributeSize] leaves two). *)
Record IMFMediaType := {
  GetUINT32 : attribute -> HRESULT * Z;
  GetGUID : attribute -> HRESULT * GUID;
  MFGetAttributeSize : attribute -> HRESULT * Z * Z
}.

End MediaFoundation.

(* ================================================================== *)
(** ** src/src/VideoSubTypes.h *)
(* ================================================================== *)

Module VideoSubTypes.
Import MediaFoundation.

(** [public enum class VideoSubTypesEnum { I420, RGB24, RGB32, YUY2, BGR24 }]:
    an [int] with five named values. *)
Definition VideoSubTypesEnum := Z.
Definition I420 : VideoSubTypesEnum := 0.
Definition RGB24 : VideoSubTypesEnum := 1.
Definition RGB32 : VideoSubTypesEnum := 2.
Definition YUY2 : VideoSubTypesEnum := 3.
Definition BGR24 : VideoSubTypesEnum := 4.

(** The enumerators of libavutil/pixfmt.h the code names. *)
Inductive AVPixelFormat :=
| AV_PIX_FMT_YUV420P
| AV_PIX_FMT_RGB24
| AV_PIX_FMT_RGB32
| AV_PIX_FMT_YUYV422
| AV_PIX_FMT_BGR24.

(** [static GUID GetGuidForVideoSubType(VideoSubTypesEnum)]; a
    [System::ApplicationException] is [Raised] with its message. *)
Definition GetGuidForVideoSubType (videoSubType : VideoSubTypesEnum)
  : outcome GUID :=
  if videoSubType =? I420 then Done MFVideoFormat_I420
  else if videoSubType =? RGB24 then Done MFVideoFormat_RGB24
  else if videoSubType =? RGB32 then Done MFVideoFormat_RGB32
  else if videoSubType =? YUY2 then Done MFVideoFormat_YUY2
  else if videoSubType =? BGR24 then Done MFVideoFormat_RGB24
  else Raised "Video mode not recognised in GetGuidForVideoSubType.".

(** [static VideoSubTypesEnum GetVideoSubTypeForGuid(REFGUID)]. *)
Definition GetVideoSubTypeForGuid (guid : GUID) : outcome VideoSubTypesEnum :=
  if GUID_eqb guid MFVideoFormat_I420 then Done I420
  else if GUID_eqb guid MFVideoFormat_RGB24 then Done RGB24
  else if GUID_eqb guid MFVideoFormat_RGB32 then Done RGB32
  else if GUID_eqb guid MFVideoFormat_YUY2 then Done YUY2
  else if GUID_eqb guid MFVideoFormat_RGB24 then Done BGR24
  else Raised "GUID not recognised in GetVideoSubTypeForGuid.".

(** [static AVPixelFormat GetPixelFormatForVideoSubType(VideoSubTypesEnum)]. *)
Definition GetPixelFormatForVideoSubType (videoSubType : VideoSubTypesEnum)
  : outcome AVPixelFormat :=
  if videoSubType =? I420 then Done AV_PIX_FMT_YUV420P
  else if videoSubType =? RGB24 then Done AV_PIX_FMT_RGB24
  else if videoSubType =? RGB32 then Done AV_PIX_FMT_RGB32
  else if videoSubType =? YUY2 then Done AV_PIX_FMT_YUYV422
  else if videoSubType =? BGR24 then Done AV_PIX_FMT_BGR24
  else Raised "Video mode not recognised in GetPixelFormatForVideoSubType.".

End VideoSubTypes.


(* ================================================================== *)
(** ** src/src/MediaCommon.h *)
(* ================================================================== *)

Module MediaCommon.
Import MediaFoundation.



Section WithLibrary.
(** [MFGetStrideForBitmapInfoHeader(format, width, &stride)] of mfapi.h:
    the status and the stride written. *)
Variable MFGetStrideForBitmapInfoHeader : Z -> Z -> HRESULT * Z.


End WithLibrary.

(** [public ref class MediaSampleProperties]; a null [String^] is [None]. *)
Record MediaSampleProperties := {
  Success : bool;
  HasVideoSample : bool;
  HasAudioSample : bool;
  EndOfStream : bool;
  Error : option string;
  Width : Z;
  Height : Z;
  Stride : Z;
  VideoSubType : GUID;
  VideoSubTypeFriendlyName : option string;
  Timestamp : Z;
  FrameCount : Z;
  NowMilliseconds : Z
}.

(** [MediaSampleProperties()]; a field the initialiser list leaves out is
    zero, as the runtime allocates it. *)
Definition MediaSampleProperties_new : MediaSampleProperties :=
  {| Success := true; HasVideoSample := false; HasAudioSample := false;
     EndOfStream := false; Error := None; Width := 0; Height := 0;
     Stride := 0; VideoSubType := GUID_NULL; VideoSubTypeFriendlyName := None;
     Timestamp := 0; FrameCount := 0; NowMilliseconds := 0 |}.

(** [MediaSampleProperties(const MediaSampleProperties% copy)]: nine
    assignments; the other fields stay as the runtime allocates them. *)
Definition MediaSampleProperties_copy (copy : MediaSampleProperties)
  : MediaSampleProperties :=
  {| Success := Success copy;
     HasVideoSample := HasVideoSample copy;
     HasAudioSample := HasAudioSample copy;
     EndOfStream := false;
     Error := Error copy;
     Width := Width copy;
     Height := Height copy;
     Stride := 0;
     VideoSubType := VideoSubType copy;
     VideoSubTypeFriendlyName := VideoSubTypeFriendlyName copy;
     Timestamp := Timestamp copy;
     FrameCount := 0;
     NowMilliseconds := 0 |}.

End MediaCommon.

(* ================================================================== *)
(** ** src/src/MediaSource.cpp *)
(* ================================================================== *)

Module MediaSource.
Import MediaFoundation MediaCommon.

(** Calls on the source reader and on media types, and console output, in
    order. *)
Inductive media_call :=
| Call_GetNativeMediaType (dwMediaTypeIndex : nat)
| Call_GetStreamSelection (stmIndex : nat)
| Call_GetCurrentMediaType (stmIndex : nat)
| Call_Release_native (dwMediaTypeIndex : nat)
| Call_Release_current (stmIndex : nat)
| Call_Release_reader
| printf (msg : string)
| cout_index (msg : string) (stmIndex : nat).

(** What an [IMFSourceReader] answers.  [GetNativeMediaType(0, i, &pType)]
    answers with the i-th entry of [native_types], and with
    [MF_E_NO_MORE_TYPES] past their end; an entry is the status and the
    pointer left in [pType]. *)
Record IMFSourceReader := {
  native_types : list (HRESULT * option IMFMediaType);
  GetStreamSelection : nat -> HRESULT * bool;
  GetCurrentMediaType : nat -> HRESULT * option IMFMediaType
}.

(** The fields of the class the methods embedded here use. *)
Record MediaSource := {
  _sourceReader : option IMFSourceReader;
  _audioStreamIndex : Z;
  _videoStreamIndex : Z
}.

(** [const unsigned int MAX_STREAM_INDEX = 10;] of MediaSource.h. *)
Definition MAX_STREAM_INDEX : nat := 10.

(** The loop of [FindVideoMode] from media type index [dwMediaTypeIndex]
    on, entered with [hr == S_OK]; [types] are the reader's answers from
    that index on.  The result is the status returned and [*ppFoundType]
    afterwards. *)
Fixpoint FindVideoMode_loop (types : list (HRESULT * option IMFMediaType))
  (dwMediaTypeIndex : nat) (mediaSubType : GUID) (width height : Z)
  (ppFoundType : option IMFMediaType) (log : list media_call)
  : outcome (HRESULT * option IMFMediaType) * list media_call :=
  let log := log ++ [Call_GetNativeMediaType dwMediaTypeIndex] in
  match types with
  | [] => (Done (S_OK, ppFoundType), log)
  | (hr, pType) :: rest =>
      if hr =? MF_E_NO_MORE_TYPES then (Done (S_OK, ppFoundType), log)
      else if hr =? S_OK then
        match pType with
        | None => (Crashed, log)
        | Some t =>
            let '(hr, videoSubType) := GetGUID t MF_MT_SUBTYPE in
            let '(hrs, pWidth, pHeight) := MFGetAttributeSize t MF_MT_FRAME_SIZE in
            if negb (hrs =? S_OK)
            then (Raised "Failed to get attribute size.", log)
            else if (hr =? S_OK)
                    && (GUID_eqb videoSubType mediaSubType
                        && (pWidth =? width) && (pHeight =? height))
            then (Done (S_OK, Some t),
                  log ++ [printf "Media type successfully located."])
            else
              let log := log ++ [Call_Release_native dwMediaTypeIndex] in
              if hr =? S_OK
              then FindVideoMode_loop rest (S dwMediaTypeIndex) mediaSubType
                     width height ppFoundType log
              else (Done (S_OK, ppFoundType), log)
        end
      else
        (Done (S_OK, ppFoundType),
         match pType with
         | Some _ => log ++ [Call_Release_native dwMediaTypeIndex]
         | None => log
         end)
  end.

(** [HRESULT MediaSource::FindVideoMode(IMFSourceReader*, const GUID,
    UInt32, UInt32, IMFMediaType** ppFoundType)]. *)
Definition FindVideoMode (pReader : option IMFSourceReader) (mediaSubType : GUID)
  (width height : Z) (ppFoundType : option IMFMediaType)
  : outcome (HRESULT * option IMFMediaType) * list media_call :=
  match pReader with
  | None => (Crashed, [])
  | Some r =>
      FindVideoMode_loop (native_types r) 0 mediaSubType width height
        ppFoundType []
  end.

(** The loop of [SetStreamIndexes] from stream index [stmIndex] on.  The
    loop ends by its condition; [fuel] bounds the iterations the
    definition unfolds, and [None] is the answer when they do not
    suffice. *)
Fixpoint SetStreamIndexes_loop (fuel : nat) (r : IMFSourceReader)
  (stmIndex : nat) (this : MediaSource) (log : list media_call)
  : option (outcome (HRESULT * MediaSource) * list media_call) :=
  match fuel with
  | O => None
  | S fuel =>
      let '(hr, isSelected) := GetStreamSelection r stmIndex in
      let log := log ++ [Call_GetStreamSelection stmIndex] in
      if (hr =? S_OK) && (stmIndex <? MAX_STREAM_INDEX)%nat then
        if isSelected then
          let '(hrt, pTestType) := GetCurrentMediaType r stmIndex in
          let log := log ++ [Call_GetCurrentMediaType stmIndex] in
          if negb (hrt =? S_OK)
          then Some (Raised "Failed to get media type for selected stream.", log)
          else
            match pTestType with
            | None => Some (Crashed, log)
            | Some t =>
                let majorMediaType := snd (GetGUID t MF_MT_MAJOR_TYPE) in
                let '(this, log) :=
                  if GUID_eqb majorMediaType MFMediaType_Audio
                  then ({| _sourceReader := _sourceReader this;
                           _audioStreamIndex := Z.of_nat stmIndex;
                           _videoStreamIndex := _videoStreamIndex this |},
                        log ++ [cout_index "Audio stream index is" stmIndex])
                  else if GUID_eqb majorMediaType MFMediaType_Video
                  then ({| _sourceReader := _sourceReader this;
                           _audioStreamIndex := _audioStreamIndex this;
                           _videoStreamIndex := Z.of_nat stmIndex |},
                        log ++ [cout_index "Video stream index is" stmIndex])
                  else (this, log) in
                SetStreamIndexes_loop fuel r (S stmIndex) this
                  (log ++ [Call_Release_current stmIndex])
            end
        else SetStreamIndexes_loop fuel r (S stmIndex) this log
      else Some (Done (S_OK, this), log)
  end.

(** [HRESULT MediaSource::SetStreamIndexes()]. *)
Definition SetStreamIndexes (this : MediaSource)
  : option (outcome (HRESULT * MediaSource) * list media_call) :=
  match _sourceReader this with
  | None => Some (Crashed, [])
  | Some r => SetStreamIndexes_loop (S MAX_STREAM_INDEX) r 0 this []
  end.

(** [MediaSource::~MediaSource()]. *)
Definition dtor (this : MediaSource) : MediaSource * list media_call :=
  match _sourceReader this with
  | Some _ => (this, [Call_Release_reader])
  | None => (this, [])
  end.

(** [void MediaSource::Shutdown()]. *)
Definition Shutdown (this : MediaSource) : MediaSource * list media_call :=
  match _sourceReader this with
  | Some _ =>
      ({| _sourceReader := None;
          _audioStreamIndex := _audioStreamIndex this;
          _videoStreamIndex := _videoStreamIndex this |},
       [Call_Release_reader])
  | None => (this, [])
  end.

End MediaSource.

(* ================================================================== *)
(** ** Vocabulary of the properties *)
(* ================================================================== *)

(** The calls that release a library object. *)
Definition is_release (c : call) : bool :=
  match c with
  | Call_SSL_CTX_free | Call_SSL_shutdown | Call_SSL_free => true
  | _ => false
  end.

Definition releases (tr : list call) : list call := filter is_release tr.

(** What there is to release in an instance. *)
Definition release_of (e : engine) : list call :=
  match _k e with
  | Some k =>
      (if is_null (ctx k) then [] else [Call_SSL_CTX_free])
      ++ (if is_null (ssl k) then [] else [Call_SSL_shutdown; Call_SSL_free])
  | None => []
  end.

(** The world after one more call has been logged. *)
Definition logged (c : call) (w : world) : world :=
  {| _isOpenSSLInitialised := _isOpenSSLInitialised w; this := this w;
     inbound := inbound w; trace := trace w ++ [c] |}.

(** [n] further calls of a [void] method. *)
Definition again (m : M unit) (n : nat) (w : world) : world :=
  Nat.iter n (fun w => snd (run_void m w)) w.

(** No datagram is read before the [SSL] object has been allocated. *)
Fixpoint allocated_before_receive (tr : list call) : bool :=
  match tr with
  | [] => true
  | Call_SSL_new :: _ => true
  | Recv _ :: _ => false
  | _ :: tr' => allocated_before_receive tr'
  end.

Definition is_challenge (c : call) : bool :=
  match c with
  | Send (HelloVerifyRequest _) => true
  | _ => false
  end.

(** The cookie challenges sent. *)
Definition challenges (tr : list call) : list call := filter is_challenge tr.


(** The same environment with another validity of the peer's chain. *)
Definition with_peer_certificate (b : bool) (E : environment) : environment :=
  {| env_SSL_CTX_new := env_SSL_CTX_new E;
     env_SSL_CTX_set_cipher_list := env_SSL_CTX_set_cipher_list E;
     env_SSL_CTX_set_tlsext_use_srtp := env_SSL_CTX_set_tlsext_use_srtp E;
     env_SSL_CTX_use_certificate_file := env_SSL_CTX_use_certificate_file E;
     env_SSL_CTX_use_PrivateKey_file := env_SSL_CTX_use_PrivateKey_file E;
     env_SSL_CTX_check_private_key := env_SSL_CTX_check_private_key E;
     env_SSL_new := env_SSL_new E;
     env_BIO_new_dgram := env_BIO_new_dgram E;
     env_BIO_ctrl := env_BIO_ctrl E;
     peer_certificate_valid := b;
     key_exchange := key_exchange E;
     tls_prf := tls_prf E;
     stack_garbage := stack_garbage E |}.

(** A world in which an instance is about to be constructed. *)
Definition before_ctor (init : bool) (inb : list datagram) (tr : list call)
  : world :=
  {| _isOpenSSLInitialised := init;
     this := {| _k := None; _certFile := None; _keyFile := None;
                _handshakeComplete := false |};
     inbound := inb; trace := tr |}.

(** The session is in the Completed state. *)
Definition completed (e : engine) : bool :=
  match Dtls.GetSSL e with
  | Some s => handshake_state_eqb (state s) ST_OK
  | None => false
  end.

(** The two packet flavors. *)
Inductive flavor := primary | control.

Definition session_of (c : LibSrtp.srtp_ctx_t) : Srtp.Srtp :=
  {| Srtp._session := Some (Some c) |}.

Definition Protect (P : LibSrtp.primitives) (fl : flavor) :=
  match fl with
  | primary => Srtp.ProtectRTP P
  | control => Srtp.ProtectRTCP P
  end.

Definition Unprotect (P : LibSrtp.primitives) (fl : flavor) :=
  match fl with
  | primary => Srtp.UnprotectRTP P
  | control => Srtp.UnprotectRTCP P
  end.

(** The bytes protection adds to a packet. *)
Definition overhead (fl : flavor) : nat :=
  match fl with
  | primary => LibSrtp.tag_len
  | control => LibSrtp.trailer_len + LibSrtp.tag_len
  end.

(** The receive context [rx] has not yet seen, within its window, the
    sequence number under which [tx] sends the packet in [buffer]. *)
Definition admits (fl : flavor) (tx rx : LibSrtp.srtp_ctx_t) (buffer : list byte)
  : Prop :=
  match fl with
  | primary =>
      LibSrtp.rdbx_check (LibSrtp.ctx_window_size rx) (LibSrtp.rtp_rdbx rx)
        (LibSrtp.seq_of buffer) = LibSrtp.srtp_err_status_ok
  | control =>
      LibSrtp.rdbx_check LibSrtp.rtcp_window (LibSrtp.rtcp_rdb rx)
        (LibSrtp.rtcp_index tx + 1) = LibSrtp.srtp_err_status_ok
  end.

(** The key a policy gives to the send direction, and to the receive
    direction. *)
Definition send_key (p : LibSrtp.srtp_policy_t) : option (list byte) :=
  match LibSrtp.ssrc_type p with
  | LibSrtp.ssrc_any_outbound => Some (LibSrtp.key p)
  | LibSrtp.ssrc_any_inbound => None
  end.

Definition receive_key (p : LibSrtp.srtp_policy_t) : option (list byte) :=
  match LibSrtp.ssrc_type p with
  | LibSrtp.ssrc_any_inbound => Some (LibSrtp.key p)
  | LibSrtp.ssrc_any_outbound => None
  end.

(** Two sessions are mirror images: what one sends under, the other
    receives under. *)
Definition mirror (a b : LibSrtp.srtp_policy_t) : Prop :=
  send_key a = receive_key b /\ receive_key a = send_key b.

(** The four fields of a keying material block, by position. *)
Definition key_client (K S : nat) (b : list byte) := slice b 0 K.
Definition key_server (K S : nat) (b : list byte) := slice b K K.
Definition salt_client (K S : nat) (b : list byte) := slice b (K + K) S.
Definition salt_server (K S : nat) (b : list byte) := slice b (K + K + S) S.

(** An environment in which every set-up call succeeds, the key agreement
    succeeds once a flight has arrived, and the peer's certificate chain
    does not validate. *)
Definition cooperative : environment :=
  {| env_SSL_CTX_new := fun _ => true;
     env_SSL_CTX_set_cipher_list := fun _ => 1;
     env_SSL_CTX_set_tlsext_use_srtp := fun _ => 0;
     env_SSL_CTX_use_certificate_file := fun _ => 1;
     env_SSL_CTX_use_PrivateKey_file := fun _ => 1;
     env_SSL_CTX_check_private_key := 1;
     env_SSL_new := true;
     env_BIO_new_dgram := fun _ => true;
     env_BIO_ctrl := 1;
     peer_certificate_valid := false;
     key_exchange :=
       fun l => if existsb (fun d => match d with Flight _ => true | _ => false end) l
                then Some [11; 22; 33] else None;
     tls_prf := fun secret lbl i => (nth 0 secret 0 + Z.of_nat i) mod 256;
     stack_garbage := fun _ => 204 |}.

(** A small cipher and tag function to run the packet transform on. *)
Definition sample_primitives : LibSrtp.primitives :=
  {| LibSrtp.keystream :=
       fun key iv i => (fold_right Z.add 0 key + fold_right Z.add 0 iv
                        + Z.of_nat i * 7) mod 256;
     LibSrtp.auth_tag :=
       fun key msg => [fold_right Z.add 0 key mod 256;
                       fold_right Z.add 0 msg mod 256;
                       Z.of_nat (length msg) mod 256] |}.

(** A 17-byte RTP packet with sequence number [s] (below 256). *)
Definition sample_packet (s : Z) : list byte :=
  [128; 0; 0; s; 0; 0; 0; 1; 0; 0; 0; 9; 72; 101; 108; 108; 111].

Definition sample_key : list byte := map Z.of_nat (seq 1 30).

Definition sample_ctx (d : LibSrtp.srtp_ssrc_type_t) : LibSrtp.srtp_ctx_t :=
  {| LibSrtp.master_key := sample_key; LibSrtp.direction := d;
     LibSrtp.ctx_window_size := 128; LibSrtp.ctx_allow_repeat_tx := false;
     LibSrtp.rtp_rdbx := LibSrtp.rdbx_init; LibSrtp.rtcp_index := 0;
     LibSrtp.rtcp_rdb := LibSrtp.rdbx_init |}.

(** A responder of class [Dtls] after [DoHandshake] against [E] with the
    datagrams [inb] arriving. *)
Definition dtls_after (E : environment) (inb : list datagram) : world :=
  snd (run (Dtls.DoHandshake E 5)
         (snd (run_void (Dtls.ctor (Some "cert.pem"%string) (Some "key.pem"%string))
                 (before_ctor false inb [])))).

(** The handshake of a freshly constructed instance: construction with the
    two file names, then the handshake method on [sock], with [inb] arriving
    on the socket. *)
Definition server_run (E : environment) (cert key : option string)
  (sock : SOCKET) (init : bool) (inb : list datagram) : outcome Z * world :=
  run (DtlsHandshake.DoHandshakeAsServer E sock)
    (snd (run_void (DtlsHandshake.ctor_files cert key) (before_ctor init inb []))).

Definition client_run (E : environment) (sock : SOCKET) (family addr port : Z)
  (init : bool) (inb : list datagram) : outcome Z * world :=
  run (DtlsHandshake.DoHandshakeAsClient E sock family addr port)
    (snd (run_void DtlsHandshake.ctor (before_ctor init inb []))).

Definition dtls_run (E : environment) (cert key : option string)
  (sock : SOCKET) (init : bool) (inb : list datagram) : outcome Z * world :=
  run (Dtls.DoHandshake E sock)
    (snd (run_void (Dtls.ctor cert key) (before_ctor init inb []))).

(** The verification settings of the connection object an instance holds
    are accept-any: no verification, no callback. *)
Definition accepts_any_certificate (e : engine) : Prop :=
  forall s, Dtls.GetSSL e = Some s ->
            verify_mode (of_ctx s) = SSL_VERIFY_NONE
            /\ verify_callback (of_ctx s) = None.

(** Datagrams of a peer that sends an initiation without cookie, then one
    with a cookie of its own making, then its flights. *)
Definition sample_inbound : list datagram :=
  [ClientHello []; ClientHello [7]; Flight [1]].

(** A [Dtls] instance whose handshake has completed, and one whose
    handshake has failed for want of any flight. *)
Definition completed_session : engine :=
  this (dtls_after cooperative sample_inbound).
Definition failed_session : engine := this (dtls_after cooperative []).

(** The connection object of the completed session and the block its
    export gives for 16-byte keys and 14-byte salts. *)
Definition sample_ssl : SSL :=
  Eval vm_compute in
    match Dtls.GetSSL completed_session with
    | Some s => s
    | None => Lib.SSL_fresh (SSL_CTX_fresh DTLS_method)
    end.

Definition failed_ssl : SSL :=
  Eval vm_compute in
    match Dtls.GetSSL failed_session with
    | Some s => s
    | None => Lib.SSL_fresh (SSL_CTX_fresh DTLS_method)
    end.

Definition sample_block : list byte :=
  Eval vm_compute in
    snd (Exporter.SSL_export_keying_material cooperative sample_ssl
           (Srtp.local_array cooperative (Srtp.sizeof_dtls_buffer 16 14))
           (Srtp.sizeof_dtls_buffer 16 14) Srtp.label
           (String.length Srtp.label)).

Definition fresh_statics : Srtp.statics :=
  {| Srtp._isLibSrtpInitialised := false; Srtp.log := [] |}.

(** The sample packet in a buffer with room for the tag and the index
    word, and what the two protect methods make of it on a fresh sending
    context. *)
Definition sample_buffer : list byte := sample_packet 5 ++ repeat 0 14.

Definition sample_protected (fl : flavor) : list byte :=
  Eval vm_compute in
    match fl with
    | primary =>
        match Srtp.ProtectRTP sample_primitives
                (session_of (sample_ctx LibSrtp.ssrc_any_outbound))
                sample_buffer 17 with
        | Done (_, b, _) => b
        | _ => []
        end
    | control =>
        match Srtp.ProtectRTCP sample_primitives
                (session_of (sample_ctx LibSrtp.ssrc_any_outbound))
                sample_buffer 17 with
        | Done (_, b, _) => b
        | _ => []
        end
    end.

Definition sample_sender_after (fl : flavor) : Srtp.Srtp :=
  Eval vm_compute in
    match fl with
    | primary =>
        match Srtp.ProtectRTP sample_primitives
                (session_of (sample_ctx LibSrtp.ssrc_any_outbound))
                sample_buffer 17 with
        | Done (_, _, t) => t
        | _ => {| Srtp._session := None |}
        end
    | control =>
        match Srtp.ProtectRTCP sample_primitives
                (session_of (sample_ctx LibSrtp.ssrc_any_outbound))
                sample_buffer 17 with
        | Done (_, _, t) => t
        | _ => {| Srtp._session := None |}
        end
    end.

(* ------------------------------------------------------------------ *)
(** *** Further vocabulary: the handshake classes and [Srtp] *)
(* ------------------------------------------------------------------ *)


(** The same environment with another answer of [BIO_ctrl]. *)
Definition with_BIO_ctrl (v : Z) (E : environment) : environment :=
  {| env_SSL_CTX_new := env_SSL_CTX_new E;
     env_SSL_CTX_set_cipher_list := env_SSL_CTX_set_cipher_list E;
     env_SSL_CTX_set_tlsext_use_srtp := env_SSL_CTX_set_tlsext_use_srtp E;
     env_SSL_CTX_use_certificate_file := env_SSL_CTX_use_certificate_file E;
     env_SSL_CTX_use_PrivateKey_file := env_SSL_CTX_use_PrivateKey_file E;
     env_SSL_CTX_check_private_key := env_SSL_CTX_check_private_key E;
     env_SSL_new := env_SSL_new E;
     env_BIO_new_dgram := env_BIO_new_dgram E;
     env_BIO_ctrl := v;
     peer_certificate_valid := peer_certificate_valid E;
     key_exchange := key_exchange E;
     tls_prf := tls_prf E;
     stack_garbage := stack_garbage E |}.

(** Everything but console output. *)
Definition is_library_call (c : call) : bool :=
  match c with
  | printf _ => false
  | _ => true
  end.

(** The initialisations of the OpenSSL library. *)
Definition initialisations (tr : list call) : nat :=
  length (filter (fun c => match c with
                           | Call_SSL_library_init => true
                           | _ => false
                           end) tr).

(** The four packet methods of [Srtp]. *)
Definition packet_methods (P : LibSrtp.primitives) :=
  [Srtp.ProtectRTP P; Srtp.UnprotectRTP P; Srtp.ProtectRTCP P; Srtp.UnprotectRTCP P].

(* ------------------------------------------------------------------ *)
(** *** Further vocabulary: [DtlsManaged] *)
(* ------------------------------------------------------------------ *)


(** A world in which a [DtlsManaged] is about to be constructed. *)
Definition managed_before_ctor (init : bool) (tr : list DtlsManaged.call)
  : DtlsManaged.world :=
  {| DtlsManaged._isOpenSSLInitialised := init;
     DtlsManaged.this :=
       {| DtlsManaged._k := None; DtlsManaged._certFile := None;
          DtlsManaged._keyFile := None;
          DtlsManaged._handshakeComplete := false |};
     DtlsManaged.trace := tr |}.

(** Construction with the two file names, then [Init]. *)
Definition managed_init (E : environment) (B : DtlsManaged.buffers)
  (cert key : option string) (init : bool)
  : outcome Z * DtlsManaged.world :=
  DtlsManaged.run (DtlsManaged.Init E B)
    (snd (DtlsManaged.run_void (DtlsManaged.ctor cert key)
            (managed_before_ctor init []))).

(** The last message printed. *)
Fixpoint last_message (tr : list DtlsManaged.call) : option string :=
  match tr with
  | [] => None
  | c :: tr' =>
      match last_message tr' with
      | Some m => Some m
      | None => match c with
                | DtlsManaged.printf m => Some m
                | _ => None
                end
      end
  end.

(** The calls that release a library object. *)
Definition managed_is_release (c : DtlsManaged.call) : bool :=
  match c with
  | DtlsManaged.Call_SSL_CTX_free | DtlsManaged.Call_SSL_shutdown
  | DtlsManaged.Call_SSL_free => true
  | _ => false
  end.

(** The calls that move data or drive the handshake. *)
Definition is_traffic (c : DtlsManaged.call) : bool :=
  match c with
  | DtlsManaged.Call_BIO_write _ _ | DtlsManaged.Call_SSL_do_handshake
  | DtlsManaged.Call_BIO_read _ | DtlsManaged.Call_SSL_read _ => true
  | _ => false
  end.

(** An environment that differs from [cooperative] in refusing the cipher
    list, and library answers on the memory BIOs: the allocation of a BIO
    succeeds or fails, a write takes all it is given, the handshake is
    done after one step, which leaves five bytes to send. *)
Definition refusing_ciphers : environment :=
  {| env_SSL_CTX_new := fun _ => true;
     env_SSL_CTX_set_cipher_list := fun _ => 0;
     env_SSL_CTX_set_tlsext_use_srtp := fun _ => 0;
     env_SSL_CTX_use_certificate_file := fun _ => 1;
     env_SSL_CTX_use_PrivateKey_file := fun _ => 1;
     env_SSL_CTX_check_private_key := 1;
     env_SSL_new := true;
     env_BIO_new_dgram := fun _ => true;
     env_BIO_ctrl := 1;
     peer_certificate_valid := false;
     key_exchange := fun _ => None;
     tls_prf := fun _ _ _ => 0;
     stack_garbage := fun _ => 204 |}.

Definition stepped (tr : list DtlsManaged.call) : bool :=
  existsb (fun c => match c with
                    | DtlsManaged.Call_SSL_do_handshake => true
                    | _ => false
                    end) tr.

Definition drained (tr : list DtlsManaged.call) : bool :=
  existsb (fun c => match c with
                    | DtlsManaged.Call_BIO_read _ => true
                    | _ => false
                    end) tr.

Definition sample_buffers (allocates : bool) : DtlsManaged.buffers :=
  {| DtlsManaged.env_BIO_new := fun _ => allocates;
     DtlsManaged.env_BIO_write :=
       fun tr => match last tr DtlsManaged.ERR_print_errors with
                 | DtlsManaged.Call_BIO_write _ len => len
                 | _ => 0
                 end;
     DtlsManaged.env_SSL_is_init_finished := stepped;
     DtlsManaged.env_SSL_do_handshake := fun _ => 1;
     DtlsManaged.env_BIO_ctrl_pending :=
       fun tr => if stepped tr && negb (drained tr) then 5 else 0;
     DtlsManaged.env_BIO_read := fun _ => (5, [22; 254; 253; 0; 0]);
     DtlsManaged.env_SSL_read := fun _ => (2, [8; 9]) |}.

(** A [DtlsManaged] after a successful [Init]. *)
Definition managed_ready : DtlsManaged.world :=
  Eval vm_compute in
    snd (managed_init cooperative (sample_buffers true)
           (Some "cert.pem"%string) (Some "key.pem"%string) false).

(** The structure and the connection object [managed_ready] holds. *)
Definition ready_krx : DtlsManaged.krx :=
  Eval vm_compute in
    match DtlsManaged._k (DtlsManaged.this managed_ready) with
    | Some k => k
    | None => {| DtlsManaged.ctx := None; DtlsManaged.ssl := None;
                 DtlsManaged.in_bio := None; DtlsManaged.out_bio := None;
                 DtlsManaged.name := "" |}
    end.

Definition ready_ssl : SSL :=
  Eval vm_compute in
    match DtlsManaged.ssl ready_krx with
    | Some s => s
    | None => Lib.SSL_fresh (SSL_CTX_fresh DTLS_method)
    end.

(* ------------------------------------------------------------------ *)
(** *** Further vocabulary: the media classes *)
(* ------------------------------------------------------------------ *)


(** A media type of subtype [mediaSubType] and frame size [width] by
    [height]. *)
Definition matches (mediaSubType : MediaFoundation.GUID) (width height : Z)
  (t : MediaFoundation.IMFMediaType) : bool :=
  MediaFoundation.GUID_eqb
    (snd (MediaFoundation.GetGUID t MediaFoundation.MF_MT_SUBTYPE)) mediaSubType
  && (snd (fst (MediaFoundation.MFGetAttributeSize t
                  MediaFoundation.MF_MT_FRAME_SIZE)) =? width)
  && (snd (MediaFoundation.MFGetAttributeSize t
             MediaFoundation.MF_MT_FRAME_SIZE) =? height).

(** A media type that answers both questions of [FindVideoMode]. *)
Definition answers (t : MediaFoundation.IMFMediaType) : Prop :=
  fst (MediaFoundation.GetGUID t MediaFoundation.MF_MT_SUBTYPE)
  = MediaFoundation.S_OK
  /\ fst (fst (MediaFoundation.MFGetAttributeSize t
                 MediaFoundation.MF_MT_FRAME_SIZE))
     = MediaFoundation.S_OK.

(** The native media types released. *)
Definition released (log : list MediaSource.media_call) : list nat :=
  flat_map (fun c => match c with
                     | MediaSource.Call_Release_native i => [i]
                     | _ => []
                     end) log.

(** Stream [i] of the reader is selected and its current media type has
    the major type [major]. *)
Definition stream_of (major : MediaFoundation.GUID)
  (r : MediaSource.IMFSourceReader) (i : nat) : Prop :=
  MediaSource.GetStreamSelection r i = (MediaFoundation.S_OK, true)
  /\ exists t,
      MediaSource.GetCurrentMediaType r i = (MediaFoundation.S_OK, Some t)
      /\ snd (MediaFoundation.GetGUID t MediaFoundation.MF_MT_MAJOR_TYPE) = major.

(** The position of the first element that satisfies [f], or the length. *)
Fixpoint first_index {A} (f : A -> bool) (l : list A) : nat :=
  match l with
  | [] => 0
  | x :: l' => if f x then 0 else S (first_index f l')
  end.

(** A video media type of the given subtype and frame size, and a media
    type of the given major type. *)
Definition sample_type (sub : MediaFoundation.GUID) (w h : Z)
  : MediaFoundation.IMFMediaType :=
  {| MediaFoundation.GetUINT32 := fun _ => (MediaFoundation.S_OK, w * 2);
     MediaFoundation.GetGUID :=
       fun a => match a with
                | MediaFoundation.MF_MT_MAJOR_TYPE =>
                    (MediaFoundation.S_OK, MediaFoundation.MFMediaType_Video)
                | _ => (MediaFoundation.S_OK, sub)
                end;
     MediaFoundation.MFGetAttributeSize := fun _ => (MediaFoundation.S_OK, w, h) |}.

Definition sample_stream (major : MediaFoundation.GUID)
  : MediaFoundation.IMFMediaType :=
  {| MediaFoundation.GetUINT32 := fun _ => (MediaFoundation.S_OK, 0);
     MediaFoundation.GetGUID := fun _ => (MediaFoundation.S_OK, major);
     MediaFoundation.MFGetAttributeSize := fun _ => (MediaFoundation.S_OK, 0, 0) |}.

Definition sample_types : list MediaFoundation.IMFMediaType :=
  [sample_type MediaFoundation.MFVideoFormat_YUY2 640 480;
   sample_type MediaFoundation.MFVideoFormat_I420 640 480;
   sample_type MediaFoundation.MFVideoFormat_I420 1280 720].

(** A reader of a file with a video stream 0 and an audio stream 1; the
    selection of any further stream fails with
    [MF_E_INVALIDSTREAMNUMBER]. *)
Definition sample_reader : MediaSource.IMFSourceReader :=
  {| MediaSource.native_types :=
       map (fun t => (MediaFoundation.S_OK, Some t)) sample_types;
     MediaSource.GetStreamSelection :=
       fun i => if (i <? 2)%nat then (MediaFoundation.S_OK, true)
                else (-1072875853, false);
     MediaSource.GetCurrentMediaType :=
       fun i => (MediaFoundation.S_OK,
                 Some (sample_stream
                         (if (i =? 0)%nat then MediaFoundation.MFMediaType_Video
                          else MediaFoundation.MFMediaType_Audio))) |}.

(** A [MediaSource] as its field initialisers leave it, with a reader. *)
Definition sample_source : MediaSource.MediaSource :=
  {| MediaSource._sourceReader := Some sample_reader;
     MediaSource._audioStreamIndex := -1;
     MediaSource._videoStreamIndex := -1 |}.

(* ================================================================== *)
(** ** Running a method body statement by statement *)
(* ================================================================== *)

Definition continue_with {A B} (r : (exit + A) * world) (f : A -> M B)
  : (exit + B) * world :=
  match r with
  | (inl e, w') => (inl e, w')
  | (inr a, w') => f a w'
  end.

Definition ctx_of (e : engine) : option SSL_CTX :=
  match _k e with
  | Some k => ctx k
  | None => None
  end.

(** A statement run on [w] with result [v] hands [v] to what follows. *)
Definition bind_run {A B} (m : M A) (f : A -> M B) (w : world)
  (v : (exit + A) * world) (H : m w = v)
  : bind m f w = continue_with v f :=
  match H in _ = x return bind m f w = continue_with x f with
  | eq_refl => eq_refl
  end.

Ltac norm t :=
  eval cbv [ret return_ fault throw emit emit_all get_this put_this
       get_inbound put_inbound get_initialised put_initialised
       set_k deref_k store_k set_ctx set_ssl set_bio on_ctx on_ssl
       when_ is_null fail_dump fail_plain marshal_as bind
       DtlsHandshake.ctor_files DtlsHandshake.ctor Dtls.ctor
       DtlsHandshake.InitialiseOpenSSL Dtls.InitialiseOpenSSL
       DtlsHandshake.new_krx
       Lib.ERR_print_errors_fp Lib.SSL_CTX_new Lib.ctx_call
       Lib.SSL_CTX_set_cipher_list Lib.SSL_CTX_set_tlsext_use_srtp
       Lib.SSL_CTX_use_certificate_file Lib.SSL_CTX_use_PrivateKey_file
       Lib.SSL_CTX_check_private_key Lib.SSL_CTX_set_cookie_generate_cb
       Lib.SSL_CTX_set_cookie_verify_cb Lib.SSL_CTX_set_ecdh_auto
       Lib.SSL_CTX_set_verify Lib.SSL_new Lib.BIO_new_dgram Lib.SSL_set_bio
       Lib.SSL_set_info_callback Lib.SSL_set_accept_state
       Lib.SSL_set_connect_state Lib.BIO_ctrl_set_connected
       Lib.SSL_fresh Lib.with_bio Lib.with_info_callback Lib.with_role
       Lib.with_state Lib.with_verify Lib.with_ecdh_auto Lib.with_cipher_list
       Lib.with_srtp_profiles Lib.with_certificate_file
       Lib.with_private_key_file Lib.with_cookie_generate_cb
       Lib.with_cookie_verify_cb SSL_CTX_fresh
       Handshake.do_handshake Handshake.SSL_accept Handshake.SSL_connect
       Handshake.DTLSv1_listen Handshake.negotiate
       Handshake.certificate_accepted
       with_peer_certificate
       env_SSL_CTX_new env_SSL_CTX_set_cipher_list
       env_SSL_CTX_set_tlsext_use_srtp env_SSL_CTX_use_certificate_file
       env_SSL_CTX_use_PrivateKey_file env_SSL_CTX_check_private_key
       env_SSL_new env_BIO_new_dgram env_BIO_ctrl peer_certificate_valid
       key_exchange
       _k ctx ssl bio this inbound trace _isOpenSSLInitialised
       _certFile _keyFile _handshakeComplete fst snd negb
       of_ctx has_bio state master_secret verify_mode verify_callback
       cookie_generate_cb cookie_verify_cb fd close_flag connected
       method cipher_list srtp_profiles certificate_file private_key_file
       ecdh_auto info_callback server
       SSL_VERIFY_NONE SSL_VERIFY_PEER HANDSHAKE_ERROR_STATUS] in t.

(** The innermost scrutinee on which a term is stuck. *)
Ltac scrutinee v :=
  lazymatch v with
  | context [if ?c then _ else _] => scrutinee_in c
  | context [match ?c with Some _ => _ | None => _ end] => scrutinee_in c
  | context [match ?c with pair _ _ => _ end] => scrutinee_in c
  end
with scrutinee_in c :=
  lazymatch c with
  | context [if _ then _ else _] => scrutinee c
  | context [match _ with Some _ => _ | None => _ end] => scrutinee c
  | context [match _ with pair _ _ => _ end] => scrutinee c
  | _ => c
  end.

Ltac settle c :=
  let cv := eval cbv in c in
  lazymatch cv with
  | true => change c with true
  | false => change c with false
  | _ =>
      lazymatch goal with
      | H : c = _ |- _ => rewrite H
      | _ => destruct c eqn:?
      end
  end.

(** One statement of a method body, run on a world in normal form; a case
    split when the statement branches on an answer of the environment. *)
Ltac step :=
  lazymatch goal with
  | |- context [@continue_with ?A ?B ?v ?f] =>
      lazymatch v with
      | (inl _, _) => cbv beta iota delta [continue_with]
      | (inr _, _) => cbv beta iota delta [continue_with]
      | _ => let c := scrutinee v in settle c; cbv beta iota
      end
  | |- context [@bind ?A ?B ?m ?f ?w] =>
      let v := norm (m w) in
      rewrite (@bind_run A B m f w v eq_refl)
  end.

Ltac start_run :=
  lazymatch goal with
  | |- context [snd (run_void ?m ?w)] =>
      let v := eval cbv in (snd (run_void m w)) in
      change (snd (run_void m w)) with v
  end.

(** Closes the facts about a run once the run has been carried out. *)
Ltac finish_facts tac :=
  unfold accepts_any_certificate, completed, Dtls.GetSSL, ctx_of;
  cbn;
  repeat match goal with
         | |- _ /\ _ => split
         | |- forall _, _ => intro
         | H : Some _ = Some _ |- _ => injection H as <-
         | H : None = Some _ |- _ => discriminate H
         | H : Done _ = Done _ |- _ => discriminate H
         | H : Raised _ = Done _ |- _ => discriminate H
         | H : Crashed = Done _ |- _ => discriminate H
         end;
  try reflexivity;
  try tac.

(** Runs a handshake to its end in every case of the environment. *)
Ltac run_all init :=
  unfold server_run, client_run, dtls_run, DtlsHandshake.DoHandshakeAsServer,
    DtlsHandshake.DoHandshakeAsClient, Dtls.DoHandshake, run, before_ctor;
  destruct init; start_run; repeat step; cbv beta iota.

(** Runs a handshake method from any world. *)
Ltac run_from w :=
  unfold DtlsHandshake.DoHandshakeAsServer,
    DtlsHandshake.DoHandshakeAsClient, Dtls.DoHandshake, run;
  destruct w as [?i [[[?c ?s ?b]|] ?cf ?kf ?h] ?inb ?tr];
  repeat step; cbv beta iota delta [ret].

(** Closes a goal on the releases of a trace to which a handshake method has
    added calls, given the lemmas on the releases of a concatenation, of
    received datagrams and of the cookie exchange. *)
Ltac no_release_by Happ Hrecv Hcookie :=
  cbn [snd trace];
  repeat (rewrite Happ || rewrite Hrecv);
  try match goal with
      | H : Handshake.cookie_exchange ?c ?i = (_, _, _) |- _ =>
          let Hx := fresh in
          pose proof (Hcookie c i) as Hx;
          rewrite H in Hx; cbn [fst snd] in Hx; rewrite Hx
      end;
  cbn [releases filter is_release app];
  rewrite ?app_nil_r; try reflexivity.

(** The same for the methods of [DtlsManaged]. *)
Definition managed_continue {A B} (r : (exit + A) * DtlsManaged.world)
  (f : A -> DtlsManaged.St B) : (exit + B) * DtlsManaged.world :=
  match r with
  | (inl e, w') => (inl e, w')
  | (inr a, w') => f a w'
  end.

Definition managed_bind_run {A B} (m : DtlsManaged.St A)
  (f : A -> DtlsManaged.St B) (w : DtlsManaged.world)
  (v : (exit + A) * DtlsManaged.world) (H : m w = v)
  : DtlsManaged.bind m f w = managed_continue v f :=
  match H in _ = x return DtlsManaged.bind m f w = managed_continue x f with
  | eq_refl => eq_refl
  end.

Ltac managed_norm t :=
  eval cbv [DtlsManaged.ret DtlsManaged.return_ DtlsManaged.fault
       DtlsManaged.throw DtlsManaged.emit DtlsManaged.ask
       DtlsManaged.get_this DtlsManaged.put_this
       DtlsManaged.get_initialised DtlsManaged.put_initialised
       DtlsManaged.deref_k DtlsManaged.store_k DtlsManaged.set_ctx
       DtlsManaged.set_ssl DtlsManaged.set_in_bio DtlsManaged.set_out_bio
       DtlsManaged.set_name DtlsManaged.on_ctx DtlsManaged.on_ssl
       DtlsManaged.when_ DtlsManaged.fail_dump DtlsManaged.fail_plain
       DtlsManaged.ctx_call DtlsManaged.bind DtlsManaged.BIO_new_mem
       DtlsManaged.SSL_is_init_finished DtlsManaged.set_handshakeComplete
       is_null
       Lib.SSL_fresh Lib.with_bio Lib.with_info_callback Lib.with_role
       Lib.with_verify Lib.with_ecdh_auto Lib.with_cipher_list
       Lib.with_srtp_profiles Lib.with_certificate_file
       Lib.with_private_key_file SSL_CTX_fresh
       env_SSL_CTX_new env_SSL_CTX_set_cipher_list
       env_SSL_CTX_set_tlsext_use_srtp env_SSL_CTX_use_certificate_file
       env_SSL_CTX_use_PrivateKey_file env_SSL_CTX_check_private_key
       env_SSL_new
       DtlsManaged.env_BIO_new DtlsManaged.env_BIO_write
       DtlsManaged.env_SSL_is_init_finished DtlsManaged.env_SSL_do_handshake
       DtlsManaged.env_BIO_ctrl_pending DtlsManaged.env_BIO_read
       DtlsManaged.env_SSL_read
       DtlsManaged._k DtlsManaged.ctx DtlsManaged.ssl DtlsManaged.in_bio
       DtlsManaged.out_bio DtlsManaged.name DtlsManaged.this
       DtlsManaged.trace DtlsManaged._isOpenSSLInitialised
       DtlsManaged._certFile DtlsManaged._keyFile
       DtlsManaged._handshakeComplete DtlsManaged.mem_eof_return
       fst snd negb
       of_ctx has_bio state master_secret verify_mode verify_callback
       cookie_generate_cb cookie_verify_cb
       method cipher_list srtp_profiles certificate_file private_key_file
       ecdh_auto info_callback server
       SSL_VERIFY_NONE SSL_VERIFY_PEER] in t.

Ltac managed_step :=
  lazymatch goal with
  | |- context [@managed_continue ?A ?B ?v ?f] =>
      lazymatch v with
      | (inl _, _) => cbv beta iota delta [managed_continue]
      | (inr _, _) => cbv beta iota delta [managed_continue]
      | _ => let c := scrutinee v in settle c; cbv beta iota
      end
  | |- context [@DtlsManaged.bind ?A ?B ?m ?f ?w] =>
      let v := managed_norm (m w) in
      rewrite (@managed_bind_run A B m f w v eq_refl)
  | |- context [(if ?c then _ else _) _] =>
      settle c; cbv beta iota
  end.

Ltac managed_start :=
  lazymatch goal with
  | |- context [snd (DtlsManaged.run_void ?m ?w)] =>
      let v := eval cbv in (snd (DtlsManaged.run_void m w)) in
      change (snd (DtlsManaged.run_void m w)) with v
  end.

Ltac managed_run init :=
  unfold managed_init, DtlsManaged.Init, DtlsManaged.run, managed_before_ctor;
  destruct init; managed_start; repeat managed_step; cbv beta iota.

(** A world of [DtlsManaged] by cases of its pointers. *)
Ltac managed_from w :=
  destruct w as [?i [[[?c ?s ?ib ?ob ?n]|] ?cf ?kf ?h] ?tr].

(* ================================================================== *)
(** ** Cookies *)
(* ================================================================== *)

Lemma generate_cookie_value :
  DtlsHandshake.generate_cookie tt = (1, literal_bytes DTLS_COOKIE)
  /\ Dtls.generate_cookie tt = (1, literal_bytes DTLS_COOKIE).
Proof. split; reflexivity. Qed.

(** C3, as stated, fails: a candidate of the length of the generated cookie
    that differs from it in its last byte is not rejected; [verify_cookie]
    answers 1 for it in both classes. *)
Lemma forged_cookie_is_accepted :
  let genuine := snd (DtlsHandshake.generate_cookie tt) in
  let forged := [115; 105; 112; 115; 111; 114; 99; 101; 114; 121; 1] in
  length forged = length genuine
  /\ forged <> genuine
  /\ DtlsHandshake.verify_cookie tt forged (length forged) <> 0
  /\ Dtls.verify_cookie tt forged (length forged) <> 0.
Proof.
  cbv zeta. repeat split; try reflexivity; try discriminate.
Qed.

(** C3, amended: [generate_cookie] writes the 11 bytes of the literal
    "sipsorcery" with its terminating NUL and returns 1; [verify_cookie]
    returns 1 for the generated cookie and for every other candidate, of any
    length and content, and has no other outcome. *)
Theorem verify_cookie_accepts_any (ssl : SSL_handle) (candidate : list byte)
  (len : nat) :
  DtlsHandshake.verify_cookie ssl candidate len = 1
  /\ Dtls.verify_cookie ssl candidate len = 1
  /\ DtlsHandshake.verify_cookie ssl (snd (DtlsHandshake.generate_cookie ssl))
       (length (snd (DtlsHandshake.generate_cookie ssl))) = 1
  /\ Dtls.verify_cookie ssl (snd (Dtls.generate_cookie ssl))
       (length (snd (Dtls.generate_cookie ssl))) = 1
  /\ DtlsHandshake.generate_cookie ssl = (1, literal_bytes DTLS_COOKIE)
  /\ Dtls.generate_cookie ssl = (1, literal_bytes DTLS_COOKIE)
  /\ length (literal_bytes DTLS_COOKIE) = 11%nat.
Proof.
  repeat split.
Qed.

(* ================================================================== *)
(** ** Shutdown *)
(* ================================================================== *)

Lemma releases_app (a b : list call) : releases (a ++ b) = releases a ++ releases b.
Proof. apply filter_app. Qed.

(** On an instance whose [_k] is null, [Shutdown] dumps the error queue and
    does nothing else. *)
Lemma DtlsHandshake_Shutdown_null (w : world) :
  _k (this w) = None ->
  run_void DtlsHandshake.Shutdown w = (Done tt, logged ERR_print_errors w).
Proof.
  destruct w as [i [k c f h] inb tr]; simpl; intros ->. reflexivity.
Qed.

Lemma Dtls_Shutdown_null (w : world) :
  _k (this w) = None ->
  run_void Dtls.Shutdown w = (Done tt, logged ERR_print_errors w).
Proof.
  destruct w as [i [k c f h] inb tr]; simpl; intros ->. reflexivity.
Qed.

(** The first call: the library objects held are released, in the order of
    the source, and [_k] is null afterwards. *)
Lemma DtlsHandshake_Shutdown_first (w : world) :
  let w1 := snd (run_void DtlsHandshake.Shutdown w) in
  fst (run_void DtlsHandshake.Shutdown w) = Done tt
  /\ _k (this w1) = None
  /\ inbound w1 = inbound w
  /\ trace w1 = trace w ++ ERR_print_errors :: release_of (this w).
Proof.
  destruct w as [i [[[[c|] [s|] b]|] cf kf h] inb tr]; cbn;
    repeat rewrite <- app_assoc; repeat split.
Qed.

Lemma Dtls_Shutdown_first (w : world) :
  let w1 := snd (run_void Dtls.Shutdown w) in
  fst (run_void Dtls.Shutdown w) = Done tt
  /\ _k (this w1) = None
  /\ inbound w1 = inbound w
  /\ trace w1 = trace w ++ ERR_print_errors :: release_of (this w).
Proof.
  destruct w as [i [[[[c|] [s|] b]|] cf kf h] inb tr]; cbn;
    repeat rewrite <- app_assoc; repeat split.
Qed.

Lemma again_null (m : M unit) (n : nat) (w : world) :
  (forall v, _k (this v) = None ->
             run_void m v = (Done tt, logged ERR_print_errors v)) ->
  _k (this w) = None ->
  this (again m n w) = this w
  /\ inbound (again m n w) = inbound w
  /\ _isOpenSSLInitialised (again m n w) = _isOpenSSLInitialised w
  /\ releases (trace (again m n w)) = releases (trace w).
Proof.
  intros Hm Hw. induction n as [|n IH]; [repeat split|].
  destruct IH as (Ht & Hi & Ho & Hr).
  unfold again in *. simpl.
  rewrite Hm by (rewrite Ht; exact Hw).
  cbn. rewrite releases_app, Hr. cbn. rewrite app_nil_r. auto.
Qed.

(** C10: [Shutdown] is idempotent, in both classes.  The first call returns
    normally, issues [SSL_CTX_free] for a context held and [SSL_shutdown],
    [SSL_free] for a connection held, and leaves [_k] null.  Any number of
    further calls, the destructor's among them, release nothing and leave
    the instance as it is (each still dumps the OpenSSL error queue).
    [GetSSL] then answers the null pointer. *)
Theorem Shutdown_idempotent (w : world) (n : nat) :
  (let w1 := snd (run_void DtlsHandshake.Shutdown w) in
   let wn := again DtlsHandshake.dtor n w1 in
   fst (run_void DtlsHandshake.Shutdown w) = Done tt
   /\ releases (trace w1) = releases (trace w) ++ release_of (this w)
   /\ _k (this w1) = None
   /\ run_void DtlsHandshake.Shutdown w1 = (Done tt, logged ERR_print_errors w1)
   /\ this wn = this w1
   /\ releases (trace wn) = releases (trace w1)
   /\ DtlsHandshake.GetSSL (this w1) = None
   /\ DtlsHandshake.GetSSL (this wn) = None)
  /\
  (let w1 := snd (run_void Dtls.Shutdown w) in
   let wn := again Dtls.dtor n w1 in
   fst (run_void Dtls.Shutdown w) = Done tt
   /\ releases (trace w1) = releases (trace w) ++ release_of (this w)
   /\ _k (this w1) = None
   /\ run_void Dtls.Shutdown w1 = (Done tt, logged ERR_print_errors w1)
   /\ this wn = this w1
   /\ releases (trace wn) = releases (trace w1)
   /\ Dtls.GetSSL (this w1) = None
   /\ Dtls.GetSSL (this wn) = None).
Proof.
  assert (Hrel : forall e, releases (release_of e) = release_of e).
  { intros [[[[c|] [s|] b]|] cf kf h]; reflexivity. }
  split; cbv zeta.
  - destruct (DtlsHandshake_Shutdown_first w) as (H1 & H2 & _ & H4).
    destruct (again_null DtlsHandshake.dtor n _
                DtlsHandshake_Shutdown_null H2) as (A1 & _ & _ & A4).
    repeat split; auto.
    + rewrite H4, releases_app. cbn. now rewrite Hrel.
    + now apply DtlsHandshake_Shutdown_null.
    + unfold DtlsHandshake.GetSSL. now rewrite H2.
    + unfold DtlsHandshake.GetSSL. now rewrite A1, H2.
  - destruct (Dtls_Shutdown_first w) as (H1 & H2 & _ & H4).
    destruct (again_null Dtls.dtor n _ Dtls_Shutdown_null H2) as (A1 & _ & _ & A4).
    repeat split; auto.
    + rewrite H4, releases_app. cbn. now rewrite Hrel.
    + now apply Dtls_Shutdown_null.
    + unfold Dtls.GetSSL. now rewrite H2.
    + unfold Dtls.GetSSL. now rewrite A1, H2.
Qed.

(* ================================================================== *)
(** ** Buffers *)
(* ================================================================== *)

Lemma firstn_exact {A} (a b : list A) n :
  length a = n -> firstn n (a ++ b) = a.
Proof.
  intros <-. rewrite firstn_app, Nat.sub_diag, firstn_all2 by lia.
  simpl. apply app_nil_r.
Qed.

Lemma skipn_exact {A} (a b : list A) n :
  length a = n -> skipn n (a ++ b) = b.
Proof.
  intros <-. rewrite skipn_app, Nat.sub_diag, skipn_all2 by lia. reflexivity.
Qed.

Lemma length_slice (b : list byte) off n :
  (off + n <= length b)%nat -> length (slice b off n) = n.
Proof.
  intros H. unfold slice. rewrite length_firstn, length_skipn. lia.
Qed.

Lemma slice_next (b : list byte) off n :
  slice b off n ++ skipn (off + n) b = skipn off b.
Proof.
  unfold slice. rewrite Nat.add_comm, <- skipn_skipn. apply firstn_skipn.
Qed.

Lemma length_local_array E n : length (Srtp.local_array E n) = n.
Proof. unfold Srtp.local_array. now rewrite length_map, length_seq. Qed.

(** A block of the requested length is its four fields, in the order
    client key, server key, client salt, server salt. *)
Lemma block_partition K S (b : list byte) :
  length b = (K * 2 + S * 2)%nat ->
  b = key_client K S b ++ key_server K S b ++ salt_client K S b
        ++ salt_server K S b.
Proof.
  intros Hb. unfold key_client, key_server, salt_client, salt_server.
  assert (Hend : skipn (K + K + S + S) b = []) by (apply skipn_all2; lia).
  rewrite <- (app_nil_r (slice b (K + K + S) S)), <- Hend.
  rewrite slice_next, slice_next.
  rewrite slice_next.
  change K with (0 + K)%nat at 2. rewrite slice_next. reflexivity.
Qed.

(** The four copies of the constructor overwrite both key arrays entirely:
    nothing of the uninitialised arrays is left. *)
Lemma split_keys_fields E K S (b : list byte) :
  length b = (K * 2 + S * 2)%nat ->
  Srtp.split_keys E K S b
  = (key_client K S b ++ salt_client K S b,
     key_server K S b ++ salt_server K S b).
Proof.
  intros Hb.
  unfold Srtp.split_keys, Srtp.SRTP_AES_KEY_KEY_LEN, memcpy,
    key_client, key_server, salt_client, salt_server.
  cbn [firstn app Nat.add]. fold (slice b 0 K). fold (slice b (K + K) S).
  fold (slice b K K). fold (slice b (K + K + S) S).
  assert (Hg : forall a, length a = K ->
             skipn (K + S) (a ++ skipn K (Srtp.local_array E (K + S))) = []).
  { intros a Ha. apply skipn_all2.
    rewrite length_app, length_skipn, length_local_array. lia. }
  rewrite !firstn_exact by (apply length_slice; lia).
  rewrite !Hg by (apply length_slice; lia).
  now rewrite !app_nil_r.
Qed.

(* ================================================================== *)
(** ** The constructor from a DTLS session *)
(* ================================================================== *)

Lemma sizeof_dtls_buffer_value K S :
  Srtp.sizeof_dtls_buffer K S = (2 * (K + S))%nat.
Proof. unfold Srtp.sizeof_dtls_buffer, Srtp.SRTP_AES_KEY_KEY_LEN. lia. Qed.

(** The exporter fills the whole buffer it is given, or leaves it alone. *)
Lemma length_export E s out olen lbl llen :
  length out = olen ->
  length (snd (Exporter.SSL_export_keying_material E s out olen lbl llen)) = olen.
Proof.
  intros Ho. unfold Exporter.SSL_export_keying_material.
  destruct (state s), (master_secret s); simpl; auto.
  rewrite length_app, length_map, length_seq, length_skipn. lia.
Qed.

(** What the constructor does once the export has succeeded with [block]. *)
Lemma ctor_dtls_exported E K S dtls isClient st s block :
  Dtls.GetSSL dtls = Some s ->
  Exporter.SSL_export_keying_material E s
    (Srtp.local_array E (Srtp.sizeof_dtls_buffer K S))
    (Srtp.sizeof_dtls_buffer K S) Srtp.label (String.length Srtp.label)
  = (1, block) ->
  let policy :=
    Srtp.policy_of_dtls
      (key_client K S block ++ salt_client K S block)
      (key_server K S block ++ salt_server K S block) isClient in
  length block = (K * 2 + S * 2)%nat
  /\ Srtp.ctor_dtls E K S dtls isClient st
     = (Done {| Srtp._session := Some (snd (LibSrtp.srtp_create policy)) |},
        Srtp.say (Srtp.Out_result
                    (if isClient then "Create srtp client session result"
                     else "Create srtp server session result") 0)
          (Srtp.say (Srtp.Call_srtp_create policy)
             (Srtp.say (Srtp.Call_SSL_export_keying_material
                          (Srtp.sizeof_dtls_buffer K S) Srtp.label
                          (String.length Srtp.label))
                (Srtp.InitialiseLibSrtp st)))).
Proof.
  intros Hs Hx. cbv zeta.
  assert (Hlen : length block = (K * 2 + S * 2)%nat).
  { change block with (snd (1, block)). rewrite <- Hx.
    apply length_export, length_local_array. }
  split; [exact Hlen|].
  unfold Srtp.ctor_dtls. rewrite Hs, Hx. cbn [Z.eqb negb Pos.eqb].
  rewrite (split_keys_fields E K S block Hlen).
  destruct isClient; reflexivity.
Qed.

(** C2: the constructor asks the exporter for [2 * (key length + salt
    length)] bytes under the label "EXTRACTOR-dtls_srtp" (19 characters, no
    context).  When the export succeeds, the block is cut, in this order,
    into client key, server key, client salt and server salt, and the key
    handed to [srtp_create] is client key followed by client salt
    (client-write) or server key followed by server salt (server-write). *)
Theorem exporter_request_and_slicing (E : environment) (K S : nat)
  (dtls : engine) (isClient : bool) (st : Srtp.statics) (s : SSL)
  (block : list byte)
  (Hssl : Dtls.GetSSL dtls = Some s)
  (Hexport :
     Exporter.SSL_export_keying_material E s
       (Srtp.local_array E (Srtp.sizeof_dtls_buffer K S))
       (Srtp.sizeof_dtls_buffer K S) Srtp.label (String.length Srtp.label)
     = (1, block)) :
  let client_write := key_client K S block ++ salt_client K S block in
  let server_write := key_server K S block ++ salt_server K S block in
  Srtp.label = "EXTRACTOR-dtls_srtp"%string
  /\ Srtp.sizeof_dtls_buffer K S = (2 * (K + S))%nat
  /\ Srtp.log (snd (Srtp.ctor_dtls E K S dtls isClient st))
     = Srtp.log (Srtp.InitialiseLibSrtp st)
       ++ [Srtp.Call_SSL_export_keying_material (Srtp.sizeof_dtls_buffer K S)
             "EXTRACTOR-dtls_srtp" 19;
           Srtp.Call_srtp_create
             (Srtp.policy_of_dtls client_write server_write isClient);
           Srtp.Out_result
             (if isClient then "Create srtp client session result"
              else "Create srtp server session result") 0]
  /\ block = key_client K S block ++ key_server K S block
             ++ salt_client K S block ++ salt_server K S block
  /\ length (key_client K S block) = K
  /\ length (key_server K S block) = K
  /\ length (salt_client K S block) = S
  /\ length (salt_server K S block) = S
  /\ LibSrtp.key (Srtp.policy_of_dtls client_write server_write true)
     = client_write
  /\ LibSrtp.key (Srtp.policy_of_dtls client_write server_write false)
     = server_write.
Proof.
  cbv zeta.
  destruct (ctor_dtls_exported E K S dtls isClient st s block Hssl Hexport)
    as (Hlen & Hctor).
  split; [reflexivity|]. split; [apply sizeof_dtls_buffer_value|].
  split.
  { rewrite Hctor. cbn. repeat rewrite <- app_assoc. reflexivity. }
  split; [now apply block_partition|].
  unfold key_client, key_server, salt_client, salt_server.
  repeat split; try apply length_slice; lia.
Qed.

(** C4, as stated, fails: for the block 0, 1, ..., 59 (16-byte keys, 14-byte
    salts) the session built with [isClient] receives under client-write
    and the session built without it sends under server-write, two
    different keys; neither has a context for the other direction. *)
Lemma flag_sessions_are_not_mirror_images :
  let block := map Z.of_nat (seq 0 60) in
  let keys := Srtp.split_keys cooperative 16 14 block in
  ~ mirror (Srtp.policy_of_dtls (fst keys) (snd keys) true)
           (Srtp.policy_of_dtls (fst keys) (snd keys) false).
Proof.
  cbv zeta. intros [_ H]. vm_compute in H. discriminate H.
Qed.

(** C4, amended: a session built from exported key material holds one
    directional context, and the flag selects the half of the key material
    together with the direction: with [isClient] the client-write half
    backs a receive (inbound) context, without it the server-write half
    backs a send (outbound) context.  The two sessions are the two
    directions of the responder's side, under different halves. *)
Theorem flag_selects_half_and_direction (E : environment) (K S : nat)
  (dtls : engine) (st : Srtp.statics) (s : SSL) (block : list byte)
  (Hssl : Dtls.GetSSL dtls = Some s)
  (Hexport :
     Exporter.SSL_export_keying_material E s
       (Srtp.local_array E (Srtp.sizeof_dtls_buffer K S))
       (Srtp.sizeof_dtls_buffer K S) Srtp.label (String.length Srtp.label)
     = (1, block)) :
  let client_write := key_client K S block ++ salt_client K S block in
  let server_write := key_server K S block ++ salt_server K S block in
  (exists c,
      fst (Srtp.ctor_dtls E K S dtls true st) = Done (session_of c)
      /\ LibSrtp.master_key c = client_write
      /\ LibSrtp.direction c = LibSrtp.ssrc_any_inbound)
  /\ (exists c,
      fst (Srtp.ctor_dtls E K S dtls false st) = Done (session_of c)
      /\ LibSrtp.master_key c = server_write
      /\ LibSrtp.direction c = LibSrtp.ssrc_any_outbound)
  /\ receive_key (Srtp.policy_of_dtls client_write server_write true)
     = Some client_write
  /\ send_key (Srtp.policy_of_dtls client_write server_write true) = None
  /\ send_key (Srtp.policy_of_dtls client_write server_write false)
     = Some server_write
  /\ receive_key (Srtp.policy_of_dtls client_write server_write false) = None.
Proof.
  cbv zeta.
  destruct (ctor_dtls_exported E K S dtls true st s block Hssl Hexport)
    as (_ & Ht).
  destruct (ctor_dtls_exported E K S dtls false st s block Hssl Hexport)
    as (_ & Hf).
  rewrite Ht, Hf. cbn.
  repeat split; eexists; repeat split.
Qed.

Lemma exporter_request_and_slicing_witness :
  Dtls.GetSSL completed_session = Some sample_ssl
  /\ Exporter.SSL_export_keying_material cooperative sample_ssl
       (Srtp.local_array cooperative (Srtp.sizeof_dtls_buffer 16 14))
       (Srtp.sizeof_dtls_buffer 16 14) Srtp.label (String.length Srtp.label)
     = (1, sample_block)
  /\ Srtp.sizeof_dtls_buffer 16 14 = (2 * (16 + 14))%nat
  /\ length (salt_server 16 14 sample_block) = 14%nat.
Proof.
  assert (H1 : Dtls.GetSSL completed_session = Some sample_ssl) by reflexivity.
  assert (H2 : Exporter.SSL_export_keying_material cooperative sample_ssl
                 (Srtp.local_array cooperative (Srtp.sizeof_dtls_buffer 16 14))
                 (Srtp.sizeof_dtls_buffer 16 14) Srtp.label
                 (String.length Srtp.label)
               = (1, sample_block)) by reflexivity.
  split; [exact H1|]. split; [exact H2|].
  destruct (exporter_request_and_slicing cooperative 16 14 completed_session
              true fresh_statics sample_ssl sample_block H1 H2)
    as (_ & Hsize & _ & _ & _ & _ & _ & Hsalt & _).
  split; [exact Hsize|exact Hsalt].
Defined.

Lemma flag_selects_half_and_direction_witness :
  Dtls.GetSSL completed_session = Some sample_ssl
  /\ Exporter.SSL_export_keying_material cooperative sample_ssl
       (Srtp.local_array cooperative (Srtp.sizeof_dtls_buffer 16 14))
       (Srtp.sizeof_dtls_buffer 16 14) Srtp.label (String.length Srtp.label)
     = (1, sample_block)
  /\ send_key (Srtp.policy_of_dtls
                 (key_client 16 14 sample_block ++ salt_client 16 14 sample_block)
                 (key_server 16 14 sample_block ++ salt_server 16 14 sample_block)
                 false)
     = Some (key_server 16 14 sample_block ++ salt_server 16 14 sample_block).
Proof.
  assert (H1 : Dtls.GetSSL completed_session = Some sample_ssl) by reflexivity.
  assert (H2 : Exporter.SSL_export_keying_material cooperative sample_ssl
                 (Srtp.local_array cooperative (Srtp.sizeof_dtls_buffer 16 14))
                 (Srtp.sizeof_dtls_buffer 16 14) Srtp.label
                 (String.length Srtp.label)
               = (1, sample_block)) by reflexivity.
  split; [exact H1|]. split; [exact H2|].
  destruct (flag_selects_half_and_direction cooperative 16 14 completed_session
              fresh_statics sample_ssl sample_block H1 H2)
    as (_ & _ & _ & _ & Hsend & _).
  exact Hsend.
Defined.

(** C9, as stated, fails: on the session whose handshake has failed the
    constructor raises nothing.  It returns an object, with a null
    [_session], after printing a line; the failure shows only later, when
    the first packet call dereferences the null pointer. *)
Lemma export_failure_is_not_signalled :
  completed failed_session = false
  /\ Srtp.ctor_dtls cooperative 16 14 failed_session true fresh_statics
     = (Done {| Srtp._session := None |},
        {| Srtp._isLibSrtpInitialised := true;
           Srtp.log := [Srtp.Call_srtp_init;
                        Srtp.Call_SSL_export_keying_material 60
                          "EXTRACTOR-dtls_srtp" 19;
                        Srtp.Out "Export of SSL key information failed."] |})
  /\ (forall exn,
        fst (Srtp.ctor_dtls cooperative 16 14 failed_session true fresh_statics)
        <> Raised exn)
  /\ Srtp.ProtectRTP sample_primitives {| Srtp._session := None |}
       (sample_packet 5 ++ repeat 0 10) 17 = Crashed.
Proof.
  repeat split. intros exn H. vm_compute in H. discriminate H.
Qed.

(** C9, amended: on a session that holds a connection object which is not
    in the Completed state the export fails, and the constructor then prints
    "Export of SSL key information failed.", creates no libsrtp session and
    returns normally, its [_session] left null.  It does not test for
    completion before the export and signals no error. *)
Theorem export_failure_prints_and_continues (E : environment) (K S : nat)
  (dtls : engine) (isClient : bool) (st : Srtp.statics) (s : SSL)
  (Hssl : Dtls.GetSSL dtls = Some s)
  (Hstate : state s <> ST_OK) :
  Srtp.ctor_dtls E K S dtls isClient st
  = (Done {| Srtp._session := None |},
     Srtp.say (Srtp.Out "Export of SSL key information failed.")
       (Srtp.say (Srtp.Call_SSL_export_keying_material
                    (Srtp.sizeof_dtls_buffer K S) "EXTRACTOR-dtls_srtp" 19)
          (Srtp.InitialiseLibSrtp st))).
Proof.
  unfold Srtp.ctor_dtls. rewrite Hssl.
  unfold Exporter.SSL_export_keying_material.
  destruct (state s); try reflexivity. now elim Hstate.
Qed.

Lemma export_failure_prints_and_continues_witness :
  Dtls.GetSSL failed_session = Some failed_ssl
  /\ state failed_ssl <> ST_OK
  /\ fst (Srtp.ctor_dtls cooperative 16 14 failed_session false fresh_statics)
     = Done {| Srtp._session := None |}.
Proof.
  assert (H1 : Dtls.GetSSL failed_session = Some failed_ssl) by reflexivity.
  assert (H2 : state failed_ssl <> ST_OK) by discriminate.
  split; [exact H1|]. split; [exact H2|].
  rewrite (export_failure_prints_and_continues cooperative 16 14 failed_session
             false fresh_statics failed_ssl H1 H2).
  reflexivity.
Defined.




(* ================================================================== *)
(** ** The handshake methods *)
(* ================================================================== *)

Lemma challenges_received inb : challenges (map Recv inb) = [].
Proof. induction inb as [|d inb IH]; [reflexivity|exact IH]. Qed.

Lemma challenges_app (a b : list call) :
  challenges (a ++ b) = challenges a ++ challenges b.
Proof. apply filter_app. Qed.

(** [DtlsHandshake::DoHandshakeAsServer] on a fresh instance, whatever the
    environment answers. *)
Lemma server_run_facts E cert key sock init inb :
  let r := server_run E cert key sock init inb in
  accepts_any_certificate (this (snd r))
  /\ challenges (trace (snd r)) = []
  /\ allocated_before_receive (trace (snd r)) = true
  /\ (fst r = Done 0 -> completed (this (snd r)) = true)
  /\ (forall c, ctx_of (this (snd r)) = Some c ->
                cookie_generate_cb c = None /\ cookie_verify_cb c = None).
Proof.
  cbv zeta.
  destruct (server_run E cert key sock init inb) as [o w'] eqn:Hrun.
  revert Hrun. destruct E.
  run_all init.
  all: intros Hrun; injection Hrun as <- <-.
  all: finish_facts
         ltac:(rewrite ?challenges_app, challenges_received; reflexivity).
Qed.

(** [DtlsHandshake::DoHandshakeAsClient] on a fresh instance. *)
Lemma client_run_facts E sock family addr port init inb :
  let r := client_run E sock family addr port init inb in
  accepts_any_certificate (this (snd r))
  /\ (fst r = Done 0 -> completed (this (snd r)) = true).
Proof.
  cbv zeta.
  destruct (client_run E sock family addr port init inb) as [o w'] eqn:Hrun.
  revert Hrun. destruct E.
  run_all init.
  all: intros Hrun; injection Hrun as <- <-.
  all: finish_facts idtac.
Qed.

(** [Dtls::DoHandshake] on a fresh instance. *)
Lemma dtls_run_facts E cert key sock init inb :
  let r := dtls_run E cert key sock init inb in
  accepts_any_certificate (this (snd r))
  /\ allocated_before_receive (trace (snd r)) = true
  /\ (fst r = Done 0 -> completed (this (snd r)) = true)
  /\ (forall s, Dtls.GetSSL (this (snd r)) = Some s ->
                cookie_generate_cb (of_ctx s) = Some Dtls.generate_cookie
                /\ cookie_verify_cb (of_ctx s) = Some Dtls.verify_cookie).
Proof.
  cbv zeta.
  destruct (dtls_run E cert key sock init inb) as [o w'] eqn:Hrun.
  revert Hrun. destruct E.
  run_all init.
  all: intros Hrun; injection Hrun as <- <-.
  all: finish_facts idtac.
Qed.

(** The validity of the peer's certificate chain has no part in any of the
    three handshakes. *)
Lemma server_run_any_certificate b E cert key sock init inb :
  server_run (with_peer_certificate b E) cert key sock init inb
  = server_run E cert key sock init inb.
Proof. destruct E. run_all init. all: reflexivity. Qed.

Lemma client_run_any_certificate b E sock family addr port init inb :
  client_run (with_peer_certificate b E) sock family addr port init inb
  = client_run E sock family addr port init inb.
Proof. destruct E. run_all init. all: reflexivity. Qed.

Lemma dtls_run_any_certificate b E cert key sock init inb :
  dtls_run (with_peer_certificate b E) cert key sock init inb
  = dtls_run E cert key sock init inb.
Proof. destruct E. run_all init. all: reflexivity. Qed.




(** C8, as stated, fails: the policy is not configurable.  No environment,
    file names, socket or traffic make any of the three handshake methods
    verify the peer; with a peer whose certificate chain does not validate
    the handshake completes; and the one verify callback of the source
    accepts a failed validation. *)
Lemma validation_policy_is_fixed :
  (forall E cert key sock init inb,
      accepts_any_certificate (this (snd (server_run E cert key sock init inb))))
  /\ (forall E sock family addr port init inb,
         accepts_any_certificate
           (this (snd (client_run E sock family addr port init inb))))
  /\ (forall E cert key sock init inb,
         accepts_any_certificate (this (snd (dtls_run E cert key sock init inb))))
  /\ peer_certificate_valid cooperative = false
  /\ fst (server_run cooperative (Some "cert.pem"%string)
            (Some "key.pem"%string) 5 false sample_inbound) = Done 0
  /\ fst (dtls_run cooperative (Some "cert.pem"%string)
            (Some "key.pem"%string) 5 false sample_inbound) = Done 0
  /\ DtlsHandshake.krx_ssl_verify_peer 0 tt = 1
  /\ Dtls.krx_ssl_verify_peer 0 tt = 1.
Proof.
  split; [intros; apply server_run_facts|].
  split; [intros; apply client_run_facts|].
  split; [intros; apply dtls_run_facts|].
  repeat split.
Qed.

(** C8, amended: the validation policy is fixed to accept-any.  Each of the
    three handshake methods leaves its connection object with
    [SSL_VERIFY_NONE] and no verify callback; [krx_ssl_verify_peer] returns 1
    whatever the validation result; and the outcome of a handshake is the
    same whether or not the peer's certificate chain validates.  Checking
    the peer's fingerprint is left to the caller. *)
Theorem certificate_validation_is_accept_any (E : environment)
  (cert key : option string) (sock : SOCKET) (family addr port : Z)
  (init : bool) (inb : list datagram) (valid : bool) (ok : Z)
  (x : X509_STORE_CTX) :
  accepts_any_certificate (this (snd (server_run E cert key sock init inb)))
  /\ accepts_any_certificate
       (this (snd (client_run E sock family addr port init inb)))
  /\ accepts_any_certificate (this (snd (dtls_run E cert key sock init inb)))
  /\ server_run (with_peer_certificate valid E) cert key sock init inb
     = server_run E cert key sock init inb
  /\ client_run (with_peer_certificate valid E) sock family addr port init inb
     = client_run E sock family addr port init inb
  /\ dtls_run (with_peer_certificate valid E) cert key sock init inb
     = dtls_run E cert key sock init inb
  /\ DtlsHandshake.krx_ssl_verify_peer ok x = 1
  /\ Dtls.krx_ssl_verify_peer ok x = 1.
Proof.
  split; [apply server_run_facts|].
  split; [apply client_run_facts|].
  split; [apply dtls_run_facts|].
  split; [apply server_run_any_certificate|].
  split; [apply client_run_any_certificate|].
  split; [apply dtls_run_any_certificate|].
  split; reflexivity.
Qed.

(* ================================================================== *)
(** ** The packet transform *)
(* ================================================================== *)

Section Transform.
Import LibSrtp.
Variable P : primitives.

Lemma xor_from_involutive ks i l : xor_from ks i (xor_from ks i l) = l.
Proof.
  revert i. induction l as [|b l IH]; intros i; simpl; [reflexivity|].
  rewrite IH. f_equal.
  rewrite Z.lxor_assoc, Z.lxor_nilpotent. apply Z.lxor_0_r.
Qed.

Lemma length_xor_from ks i l : length (xor_from ks i l) = length l.
Proof.
  revert i. induction l as [|b l IH]; intros i; simpl; [reflexivity|].
  now rewrite IH.
Qed.

Lemma length_fit n l : length (fit n l) = n.
Proof.
  unfold fit. rewrite length_firstn, length_app, repeat_length. lia.
Qed.

Lemma bytes_eqb_refl l : bytes_eqb l l = true.
Proof.
  induction l as [|b l IH]; simpl; [reflexivity|].
  now rewrite Z.eqb_refl, IH.
Qed.

Lemma length_tag_of c msg : length (tag_of P c msg) = tag_len.
Proof. apply length_fit. Qed.

Lemma tag_of_key a b msg :
  master_key a = master_key b -> tag_of P a msg = tag_of P b msg.
Proof. unfold tag_of. now intros ->. Qed.

Lemma crypt_key a b h iv pkt :
  master_key a = master_key b -> crypt P a h iv pkt = crypt P b h iv pkt.
Proof. unfold crypt. now intros ->. Qed.

Lemma length_crypt c h iv pkt : length (crypt P c h iv pkt) = length pkt.
Proof.
  unfold crypt. rewrite length_app, length_xor_from, <- length_app.
  now rewrite firstn_skipn.
Qed.

(** The header is left in the clear. *)
Lemma firstn_crypt c h iv pkt :
  (h <= length pkt)%nat -> firstn h (crypt P c h iv pkt) = firstn h pkt.
Proof.
  intros H. unfold crypt. apply firstn_exact. rewrite length_firstn. lia.
Qed.

(** Applying the keystream twice gives the packet back. *)
Lemma crypt_involutive c h iv pkt :
  (h <= length pkt)%nat -> crypt P c h iv (crypt P c h iv pkt) = pkt.
Proof.
  intros H. unfold crypt at 1.
  rewrite firstn_crypt by exact H.
  unfold crypt. rewrite skipn_exact by (rewrite length_firstn; lia).
  rewrite xor_from_involutive. apply firstn_skipn.
Qed.

Lemma nth_firstn_low (l : list byte) i n :
  (i < n)%nat -> nth i (firstn n l) 0 = nth i l 0.
Proof.
  intros H. rewrite nth_firstn. destruct (Nat.ltb_spec i n); [reflexivity|lia].
Qed.

(** The sequence number is read from the first four bytes. *)
Lemma seq_of_prefix (a b : list byte) :
  (4 <= length a)%nat -> seq_of (a ++ b) = seq_of a.
Proof.
  intros H. unfold seq_of. now rewrite !app_nth1 by lia.
Qed.

Lemma seq_of_firstn (l : list byte) n :
  (4 <= n)%nat -> seq_of (firstn n l) = seq_of l.
Proof.
  intros H. unfold seq_of. now rewrite !nth_firstn_low by lia.
Qed.

Lemma seq_of_crypt c iv pkt :
  (rtp_header_len <= length pkt)%nat ->
  seq_of (crypt P c rtp_header_len iv pkt) = seq_of pkt.
Proof.
  intros H. unfold crypt. unfold rtp_header_len in *.
  rewrite seq_of_prefix by (rewrite length_firstn; lia).
  apply seq_of_firstn. lia.
Qed.

(** What a successful [srtp_protect] has produced. *)
Lemma srtp_protect_ok c pkt out c' :
  srtp_protect P c pkt = (srtp_err_status_ok, out, c') ->
  (rtp_header_len <= length pkt)%nat
  /\ out = crypt P c rtp_header_len (firstn rtp_header_len pkt) pkt
           ++ tag_of P c (crypt P c rtp_header_len (firstn rtp_header_len pkt) pkt).
Proof.
  unfold srtp_protect.
  destruct (Nat.ltb_spec (length pkt) rtp_header_len); [discriminate|].
  destruct (rdbx_check _ _ _); try discriminate.
  - intros [= <- _]. auto.
  - destruct (ctx_allow_repeat_tx c); [|discriminate].
    intros [= <- _]. auto.
Qed.

(** The receive side of the round trip, payload flavor. *)
Lemma srtp_unprotect_protected tx rx pkt out tx' :
  master_key tx = master_key rx ->
  srtp_protect P tx pkt = (srtp_err_status_ok, out, tx') ->
  (length out = length pkt + tag_len)%nat
  /\ seq_of out = seq_of pkt
  /\ srtp_unprotect P rx out
     = match rdbx_check (ctx_window_size rx) (rtp_rdbx rx) (seq_of pkt) with
       | srtp_err_status_ok =>
           (srtp_err_status_ok, pkt,
            with_rtp_rdbx rx
              (rdbx_add_index (ctx_window_size rx) (rtp_rdbx rx) (seq_of pkt)))
       | st => (st, out, rx)
       end.
Proof.
  intros Hkey Hp. destruct (srtp_protect_ok _ _ _ _ Hp) as (Hlen & ->).
  set (enc := crypt P tx rtp_header_len (firstn rtp_header_len pkt) pkt).
  assert (Henc : length enc = length pkt) by apply length_crypt.
  assert (Hout : (length (enc ++ tag_of P tx enc) = length pkt + tag_len)%nat)
    by now rewrite length_app, length_tag_of, Henc.
  assert (Hseq : seq_of (enc ++ tag_of P tx enc) = seq_of pkt).
  { unfold rtp_header_len in Hlen. rewrite seq_of_prefix by lia.
    now apply seq_of_crypt. }
  split; [exact Hout|]. split; [exact Hseq|].
  unfold srtp_unprotect. rewrite Hout, Hseq.
  destruct (Nat.ltb_spec (length pkt + tag_len) (rtp_header_len + tag_len));
    [lia|].
  destruct (rdbx_check _ _ _); try reflexivity.
  replace (length pkt + tag_len - tag_len)%nat with (length enc) by lia.
  rewrite firstn_exact, skipn_exact by reflexivity.
  rewrite (tag_of_key rx tx) by now symmetry.
  rewrite bytes_eqb_refl.
  rewrite (crypt_key rx tx) by now symmetry.
  unfold enc at 1. rewrite firstn_crypt by exact Hlen.
  fold enc. unfold enc. now rewrite crypt_involutive.
Qed.

End Transform.

Section Control.
Import LibSrtp.
Variable P : primitives.

Lemma decode32_encode32 x :
  0 <= x < 4294967296 -> decode32 (encode32 x) = x.
Proof.
  intros H. unfold decode32, encode32. cbn [nth].
  pose proof (Z.div_mod x 256 ltac:(lia)) as H0.
  pose proof (Z.div_mod (x / 256) 256 ltac:(lia)) as H1.
  pose proof (Z.div_mod (x / 256 / 256) 256 ltac:(lia)) as H2.
  assert (E2 : x / 65536 = x / 256 / 256)
    by (rewrite Z.div_div by lia; reflexivity).
  assert (E3 : x / 16777216 = x / 256 / 256 / 256)
    by (rewrite !Z.div_div by lia; reflexivity).
  assert (H3 : 0 <= x / 256 / 256 / 256 < 256).
  { rewrite <- E3. split; [apply Z.div_pos; lia|].
    apply Z.div_lt_upper_bound; lia. }
  rewrite E2, E3, (Z.mod_small (x / 256 / 256 / 256)) by exact H3.
  lia.
Qed.

Lemma length_trailer i : length (trailer i) = trailer_len.
Proof. reflexivity. Qed.

(** What a successful [srtp_protect_rtcp] has produced. *)
Lemma srtp_protect_rtcp_ok c pkt out c' :
  srtp_protect_rtcp P c pkt = (srtp_err_status_ok, out, c') ->
  let i := rtcp_index c + 1 in
  let enc := crypt P c rtcp_header_len (firstn rtcp_header_len pkt ++ trailer i) pkt in
  (rtcp_header_len <= length pkt)%nat
  /\ 0 <= i < 2147483648
  /\ out = enc ++ trailer i ++ tag_of P c (enc ++ trailer i)
  /\ c' = with_rtcp_index c i.
Proof.
  unfold srtp_protect_rtcp. cbv zeta.
  destruct (Nat.ltb_spec (length pkt) rtcp_header_len); [discriminate|].
  destruct (Z.ltb_spec (rtcp_index c + 1) 0); [discriminate|].
  destruct (Z.leb_spec 2147483648 (rtcp_index c + 1)); [discriminate|].
  cbn [orb]. intros Heq.
  pose proof (f_equal snd Heq) as Hc.
  pose proof (f_equal (fun x => snd (fst x)) Heq) as Ho.
  cbn [fst snd] in Hc, Ho. subst out c'.
  split; [assumption|]. split; [lia|]. split; reflexivity.
Qed.

(** The receive side of the round trip, control flavor. *)
Lemma srtp_unprotect_rtcp_protected tx rx pkt out tx' :
  master_key tx = master_key rx ->
  srtp_protect_rtcp P tx pkt = (srtp_err_status_ok, out, tx') ->
  (length out = length pkt + (trailer_len + tag_len))%nat
  /\ srtp_unprotect_rtcp P rx out
     = match rdbx_check rtcp_window (rtcp_rdb rx) (rtcp_index tx + 1) with
       | srtp_err_status_ok =>
           (srtp_err_status_ok, pkt,
            with_rtcp_rdb rx
              (rdbx_add_index rtcp_window (rtcp_rdb rx) (rtcp_index tx + 1)))
       | st => (st, out, rx)
       end.
Proof.
  intros Hkey Hp.
  destruct (srtp_protect_rtcp_ok _ _ _ _ Hp) as (Hlen & Hi & -> & _).
  set (i := rtcp_index tx + 1) in *.
  set (iv := firstn rtcp_header_len pkt ++ trailer i).
  set (enc := crypt P tx rtcp_header_len iv pkt).
  assert (Henc : length enc = length pkt) by apply length_crypt.
  set (body := enc ++ trailer i).
  assert (Hbody : (length body = length pkt + trailer_len)%nat)
    by (unfold body; now rewrite length_app, Henc).
  assert (Hout : (length (enc ++ trailer i ++ tag_of P tx body)
                  = length pkt + (trailer_len + tag_len))%nat).
  { rewrite !length_app, length_tag_of, length_trailer, Henc. lia. }
  split; [exact Hout|].
  unfold srtp_unprotect_rtcp. rewrite Hout.
  destruct (Nat.ltb_spec (length pkt + (trailer_len + tag_len))
              (rtcp_header_len + trailer_len + tag_len)); [lia|].
  rewrite app_assoc. fold body.
  assert (Hb1 : firstn (length pkt + (trailer_len + tag_len) - tag_len)
                  (body ++ tag_of P tx body) = body)
    by (apply firstn_exact; lia).
  assert (Hb2 : skipn (length pkt + (trailer_len + tag_len) - tag_len)
                  (body ++ tag_of P tx body) = tag_of P tx body)
    by (apply skipn_exact; lia).
  assert (He1 : firstn (length body - trailer_len) body = enc)
    by (apply firstn_exact; lia).
  assert (He2 : skipn (length body - trailer_len) body = trailer i)
    by (apply skipn_exact; lia).
  rewrite !Hb1, !Hb2, !He1, !He2.
  assert (Hword : decode32 (trailer i) = 2147483648 + i)
    by (apply decode32_encode32; lia).
  assert (Hidx : (2147483648 + i) mod 2147483648 = i).
  { rewrite <- (Z.mul_1_l 2147483648) at 1.
    rewrite Z.add_comm, Z.mod_add by lia. apply Z.mod_small; lia. }
  rewrite !Hword, Hidx.
  destruct (rdbx_check _ _ _); try reflexivity.
  rewrite (tag_of_key P rx tx) by now symmetry.
  rewrite bytes_eqb_refl.
  destruct (Z.leb_spec 2147483648 (2147483648 + i)); [|lia].
  rewrite (crypt_key P rx tx) by now symmetry.
  unfold enc at 1. rewrite firstn_crypt by exact Hlen.
  fold iv. unfold enc. now rewrite crypt_involutive.
Qed.

End Control.

(* ================================================================== *)
(** ** The replay window *)
(* ================================================================== *)

Section Replay.
Import LibSrtp.

(** Once added, a sequence number is a duplicate. *)
Lemma rdbx_check_added ws r s :
  0 < ws ->
  rdbx_check ws r s = srtp_err_status_ok ->
  rdbx_check ws (rdbx_add_index ws r s) s = srtp_err_status_replay_fail.
Proof.
  intros Hws. unfold rdbx_check, rdbx_add_index.
  destruct (Z.ltb_spec 0 (s - index r)) as [Hd|Hd]; cbn [index bitmask].
  - intros _. rewrite Z.sub_diag. cbn [Z.ltb Z.compare Z.opp].
    destruct (Z.ltb_spec (ws - 1 + 0) 0); [lia|].
    rewrite Z.land_spec, Z.lor_spec, Z.ones_spec_low by lia.
    now rewrite orb_true_r.
  - destruct (Z.ltb_spec 0 (s - index r)); [lia|].
    destruct (Z.ltb_spec (ws - 1 + (s - index r)) 0); [discriminate|].
    intros _. rewrite Z.lor_spec, Z.shiftl_spec by lia.
    rewrite Z.sub_diag. cbn [Z.testbit Z.odd]. now rewrite orb_true_r.
Qed.

(** A sequence number a whole window below the highest one is too old. *)
Lemma rdbx_check_old ws r s :
  0 < ws -> s + ws <= index r ->
  rdbx_check ws r s = srtp_err_status_replay_old.
Proof.
  intros Hws Hs. unfold rdbx_check.
  destruct (Z.ltb_spec 0 (s - index r)); [lia|].
  destruct (Z.ltb_spec (ws - 1 + (s - index r)) 0); [reflexivity|lia].
Qed.

End Replay.

(* ================================================================== *)
(** ** The packet methods *)
(* ================================================================== *)

Section Methods.
Import LibSrtp.
Variable P : primitives.

Lemma status_code_ok st : status_code st = 0 -> st = srtp_err_status_ok.
Proof. destruct st; simpl; intros H; try reflexivity; discriminate H. Qed.

(** What a packet method that returned the status ok has done. *)
Lemma packet_call_ok f grow c buffer n out this' :
  Srtp.packet_call f grow (session_of c) buffer n = Done (0, out, this') ->
  exists res c',
    f c (firstn (Z.to_nat n) buffer) = (srtp_err_status_ok, res, c')
    /\ (Z.to_nat n + grow <= length buffer)%nat
    /\ out = res ++ skipn (length res) buffer
    /\ this' = session_of c'.
Proof.
  unfold Srtp.packet_call, session_of. cbn [Srtp._session].
  destruct buffer as [|b0 buffer]; [discriminate|].
  destruct (Nat.ltb_spec (length (b0 :: buffer)) (Z.to_nat n + grow));
    [discriminate|].
  destruct (f c (firstn (Z.to_nat n) (b0 :: buffer))) as [[st res] c'].
  intros Heq.
  pose proof (f_equal (fun o => match o with
                                | Done (code, _, _) => code
                                | _ => 1
                                end) Heq) as Hcode.
  pose proof (f_equal (fun o => match o with
                                | Done (_, b, _) => b
                                | _ => []
                                end) Heq) as Hout.
  pose proof (f_equal (fun o => match o with
                                | Done (_, _, t) => t
                                | _ => this'
                                end) Heq) as Hthis.
  cbv beta iota in Hcode, Hout, Hthis.
  apply status_code_ok in Hcode. subst st.
  exists res, c'. repeat split; auto.
Qed.

(** A packet method on a buffer that begins with the packet [pkt], with
    room for what the call appends. *)
Lemma packet_call_run f grow c pkt rest n st res c' :
  Z.to_nat n = length pkt ->
  pkt <> [] ->
  (grow <= length rest)%nat ->
  f c pkt = (st, res, c') ->
  Srtp.packet_call f grow (session_of c) (pkt ++ rest) n
  = Done (status_code st, res ++ skipn (length res) (pkt ++ rest), session_of c').
Proof.
  intros Hn Hne Hroom Hf.
  unfold Srtp.packet_call, session_of. cbn [Srtp._session].
  destruct (pkt ++ rest) as [|b0 l] eqn:Hb.
  { destruct pkt; [now elim Hne|discriminate Hb]. }
  rewrite <- Hb.
  destruct (Nat.ltb_spec (length (pkt ++ rest)) (Z.to_nat n + grow)) as [H|H].
  { rewrite length_app in H. lia. }
  rewrite Hn, firstn_exact by reflexivity. now rewrite Hf.
Qed.

(** [UnprotectRTP] on what [ProtectRTP] has produced: the replay check of
    the receive context decides; when it passes, the packet is restored at
    the start of the buffer, and when it does not, the buffer and the
    context are as before. *)
Lemma UnprotectRTP_protected tx rx buffer n protected tx' :
  master_key tx = master_key rx ->
  Srtp.ProtectRTP P (session_of tx) buffer n = Done (0, protected, tx') ->
  Srtp.UnprotectRTP P (session_of rx) protected (n + Z.of_nat tag_len)
     = match rdbx_check (ctx_window_size rx) (rtp_rdbx rx) (seq_of buffer) with
       | srtp_err_status_ok =>
           Done (0,
                 firstn (Z.to_nat n) buffer ++ skipn (Z.to_nat n) protected,
                 session_of
                   (with_rtp_rdbx rx
                      (rdbx_add_index (ctx_window_size rx) (rtp_rdbx rx)
                         (seq_of buffer))))
       | st => Done (status_code st, protected, session_of rx)
       end.
Proof.
  intros Hkey Hp.
  destruct (packet_call_ok _ _ _ _ _ _ _ Hp) as (res & c' & Hf & Hroom & -> & _).
  set (pkt := firstn (Z.to_nat n) buffer) in *.
  assert (Hpkt : length pkt = Z.to_nat n)
    by (unfold pkt; rewrite length_firstn; lia).
  destruct (srtp_protect_ok P _ _ _ _ Hf) as (Hlen & Hres).
  destruct (srtp_unprotect_protected P tx rx pkt res c' Hkey Hf)
    as (Hlres & Hseq & Hun).
  unfold rtp_header_len, tag_len in *.
  assert (Hsb : seq_of pkt = seq_of buffer)
    by (unfold pkt; apply seq_of_firstn; lia).
  rewrite Hsb in Hun.
  assert (Hn : Z.to_nat (n + 10) = length res).
  { rewrite Z2Nat.inj_add by lia. rewrite Hlres, Hpkt. reflexivity. }
  unfold Srtp.UnprotectRTP. change (Z.of_nat 10) with 10.
  assert (Hne : res <> []) by (intros ->; simpl in Hlres; lia).
  destruct (srtp_unprotect P rx res) as [[st out] rx1] eqn:Hu.
  rewrite (packet_call_run (srtp_unprotect P) 0 rx res
             (skipn (length res) buffer) (n + 10) st out rx1 Hn Hne
             ltac:(lia) Hu).
  destruct (rdbx_check (ctx_window_size rx) (rtp_rdbx rx) (seq_of buffer));
    injection Hun as -> -> ->;
    try (rewrite skipn_exact by reflexivity; reflexivity).
  cbn [status_code]. rewrite Hpkt. reflexivity.
Qed.

(** The same for the control flavor. *)
Lemma UnprotectRTCP_protected tx rx buffer n protected tx' :
  master_key tx = master_key rx ->
  Srtp.ProtectRTCP P (session_of tx) buffer n = Done (0, protected, tx') ->
  Srtp.UnprotectRTCP P (session_of rx) protected
    (n + Z.of_nat (trailer_len + tag_len))
  = match rdbx_check rtcp_window (rtcp_rdb rx) (rtcp_index tx + 1) with
    | srtp_err_status_ok =>
        Done (0,
              firstn (Z.to_nat n) buffer ++ skipn (Z.to_nat n) protected,
              session_of
                (with_rtcp_rdb rx
                   (rdbx_add_index rtcp_window (rtcp_rdb rx)
                      (rtcp_index tx + 1))))
    | st => Done (status_code st, protected, session_of rx)
    end.
Proof.
  intros Hkey Hp.
  destruct (packet_call_ok _ _ _ _ _ _ _ Hp) as (res & c' & Hf & Hroom & -> & _).
  set (pkt := firstn (Z.to_nat n) buffer) in *.
  assert (Hpkt : length pkt = Z.to_nat n)
    by (unfold pkt; rewrite length_firstn; lia).
  destruct (srtp_protect_rtcp_ok P _ _ _ _ Hf) as (Hlen & _).
  destruct (srtp_unprotect_rtcp_protected P tx rx pkt res c' Hkey Hf)
    as (Hlres & Hun).
  unfold rtcp_header_len, trailer_len, tag_len in *.
  assert (Hn : Z.to_nat (n + Z.of_nat (4 + 10)) = length res).
  { rewrite Z2Nat.inj_add by lia. rewrite Hlres, Hpkt, Nat2Z.id. reflexivity. }
  unfold Srtp.UnprotectRTCP.
  assert (Hne : res <> []) by (intros ->; simpl in Hlres; lia).
  destruct (srtp_unprotect_rtcp P rx res) as [[st out] rx1] eqn:Hu.
  rewrite (packet_call_run (srtp_unprotect_rtcp P) 0 rx res
             (skipn (length res) buffer) (n + Z.of_nat (4 + 10)) st out rx1
             Hn Hne ltac:(lia) Hu).
  destruct (rdbx_check rtcp_window (rtcp_rdb rx) (rtcp_index tx + 1));
    injection Hun as -> -> ->;
    try (rewrite skipn_exact by reflexivity; reflexivity).
  cbn [status_code]. rewrite Hpkt. reflexivity.
Qed.

End Methods.

(** C1: the round trip, for each flavor on its own.  When a protect method
    has returned 0 on a sending context, the matching unprotect method, on a
    receive context with the same key that has not yet seen the packet's
    sequence number, called on the protected buffer with the length grown
    by the tag (and the index word, for the control flavor), returns 0 and
    leaves the original packet bytes at the start of the buffer. *)
Theorem protect_unprotect_roundtrip (P : LibSrtp.primitives) (fl : flavor)
  (tx rx : LibSrtp.srtp_ctx_t) (buffer : list byte) (n : Z)
  (protected : list byte) (tx' : Srtp.Srtp)
  (Hkey : LibSrtp.master_key tx = LibSrtp.master_key rx)
  (Hadmits : admits fl tx rx buffer)
  (Hprotect : Protect P fl (session_of tx) buffer n = Done (0, protected, tx')) :
  exists plain rx',
    Unprotect P fl (session_of rx) protected (n + Z.of_nat (overhead fl))
    = Done (0, plain, session_of rx')
    /\ firstn (Z.to_nat n) plain = firstn (Z.to_nat n) buffer
    /\ LibSrtp.master_key rx' = LibSrtp.master_key rx.
Proof.
  destruct fl; cbn [Protect Unprotect overhead admits] in *.
  - destruct (packet_call_ok _ _ _ _ _ _ _ Hprotect) as (_ & _ & _ & Hroom & _).
    rewrite (UnprotectRTP_protected P tx rx buffer n protected tx' Hkey Hprotect).
    rewrite Hadmits. eexists. eexists. split; [reflexivity|].
    split; [|reflexivity].
    apply firstn_exact. rewrite length_firstn. lia.
  - destruct (packet_call_ok _ _ _ _ _ _ _ Hprotect) as (_ & _ & _ & Hroom & _).
    rewrite (UnprotectRTCP_protected P tx rx buffer n protected tx' Hkey Hprotect).
    rewrite Hadmits. eexists. eexists. split; [reflexivity|].
    split; [|reflexivity].
    apply firstn_exact. rewrite length_firstn. lia.
Qed.

Lemma protect_unprotect_roundtrip_witness :
  fst (Srtp.ctor_key cooperative sample_key true fresh_statics)
  = Done (session_of (sample_ctx LibSrtp.ssrc_any_outbound))
  /\ fst (Srtp.ctor_key cooperative sample_key false fresh_statics)
     = Done (session_of (sample_ctx LibSrtp.ssrc_any_inbound))
  /\ forall fl,
      LibSrtp.master_key (sample_ctx LibSrtp.ssrc_any_outbound)
      = LibSrtp.master_key (sample_ctx LibSrtp.ssrc_any_inbound)
      /\ admits fl (sample_ctx LibSrtp.ssrc_any_outbound)
           (sample_ctx LibSrtp.ssrc_any_inbound) sample_buffer
      /\ Protect sample_primitives fl
           (session_of (sample_ctx LibSrtp.ssrc_any_outbound)) sample_buffer 17
         = Done (0, sample_protected fl, sample_sender_after fl)
      /\ exists plain rx',
          Unprotect sample_primitives fl
            (session_of (sample_ctx LibSrtp.ssrc_any_inbound))
            (sample_protected fl) (17 + Z.of_nat (overhead fl))
          = Done (0, plain, session_of rx')
          /\ firstn (Z.to_nat 17) plain = firstn (Z.to_nat 17) sample_buffer
          /\ LibSrtp.master_key rx'
             = LibSrtp.master_key (sample_ctx LibSrtp.ssrc_any_inbound).
Proof.
  split; [reflexivity|]. split; [reflexivity|].
  intros fl.
  assert (H1 : LibSrtp.master_key (sample_ctx LibSrtp.ssrc_any_outbound)
               = LibSrtp.master_key (sample_ctx LibSrtp.ssrc_any_inbound))
    by reflexivity.
  assert (H2 : admits fl (sample_ctx LibSrtp.ssrc_any_outbound)
                 (sample_ctx LibSrtp.ssrc_any_inbound) sample_buffer)
    by (destruct fl; reflexivity).
  assert (H3 : Protect sample_primitives fl
                 (session_of (sample_ctx LibSrtp.ssrc_any_outbound))
                 sample_buffer 17
               = Done (0, sample_protected fl, sample_sender_after fl))
    by (destruct fl; vm_compute; reflexivity).
  split; [exact H1|]. split; [exact H2|]. split; [exact H3|].
  exact (protect_unprotect_roundtrip sample_primitives fl _ _ _ _ _ _ H1 H2 H3).
Defined.

(** C5: replay against one receive context, payload flavor.  For a packet
    protected under the context's key whose sequence number the context has
    not yet seen: the first [UnprotectRTP] returns 0; a second one on the
    same protected bytes returns the replay code 9 and changes neither the
    buffer nor the context; a protected packet whose sequence number lies a
    whole window or more below the highest one returns the code 10, which is
    neither the replay code nor the authentication failure code 7; and after
    such failures a protected packet with a sequence number not yet seen is
    still accepted.  Every call returns a status to the caller.  The
    sessions the constructor builds have a window of 128 sequence numbers
    and do not allow a repeated transmission. *)
Theorem replayed_packet_is_rejected (P : LibSrtp.primitives)
  (tx rx : LibSrtp.srtp_ctx_t) (buffer : list byte) (n : Z)
  (protected : list byte) (tx' : Srtp.Srtp)
  (Hkey : LibSrtp.master_key tx = LibSrtp.master_key rx)
  (Hwindow : 0 < LibSrtp.ctx_window_size rx)
  (Hfirst : admits primary tx rx buffer)
  (Hprotect : Srtp.ProtectRTP P (session_of tx) buffer n
              = Done (0, protected, tx')) :
  exists plain rx1,
    Srtp.UnprotectRTP P (session_of rx) protected (n + 10)
    = Done (0, plain, session_of rx1)
    /\ Srtp.UnprotectRTP P (session_of rx1) protected (n + 10)
       = Done (LibSrtp.status_code LibSrtp.srtp_err_status_replay_fail,
               protected, session_of rx1)
    /\ (forall tx2 buffer2 n2 protected2 tx2',
          LibSrtp.master_key tx2 = LibSrtp.master_key rx ->
          Srtp.ProtectRTP P (session_of tx2) buffer2 n2
          = Done (0, protected2, tx2') ->
          LibSrtp.seq_of buffer2 + LibSrtp.ctx_window_size rx
          <= LibSrtp.index (LibSrtp.rtp_rdbx rx1) ->
          Srtp.UnprotectRTP P (session_of rx1) protected2 (n2 + 10)
          = Done (LibSrtp.status_code LibSrtp.srtp_err_status_replay_old,
                  protected2, session_of rx1))
    /\ (forall tx3 buffer3 n3 protected3 tx3',
          LibSrtp.master_key tx3 = LibSrtp.master_key rx ->
          Srtp.ProtectRTP P (session_of tx3) buffer3 n3
          = Done (0, protected3, tx3') ->
          admits primary tx3 rx1 buffer3 ->
          exists plain3 rx3,
            Srtp.UnprotectRTP P (session_of rx1) protected3 (n3 + 10)
            = Done (0, plain3, session_of rx3)
            /\ firstn (Z.to_nat n3) plain3 = firstn (Z.to_nat n3) buffer3)
    /\ LibSrtp.status_code LibSrtp.srtp_err_status_replay_fail = 9
    /\ LibSrtp.status_code LibSrtp.srtp_err_status_replay_old = 10
    /\ LibSrtp.status_code LibSrtp.srtp_err_status_auth_fail = 7
    /\ (forall client_write_key server_write_key isClient c,
          snd (LibSrtp.srtp_create
                 (Srtp.policy_of_dtls client_write_key server_write_key
                    isClient)) = Some c ->
          LibSrtp.ctx_window_size c = Srtp.SRTP_ANTI_REPLAY_WINDOW_SIZE
          /\ 0 < LibSrtp.ctx_window_size c
          /\ LibSrtp.ctx_allow_repeat_tx c = false).
Proof.
  cbn [admits] in Hfirst.
  set (rx1 := LibSrtp.with_rtp_rdbx rx
                (LibSrtp.rdbx_add_index (LibSrtp.ctx_window_size rx)
                   (LibSrtp.rtp_rdbx rx) (LibSrtp.seq_of buffer))).
  assert (Hkey1 : LibSrtp.master_key rx1 = LibSrtp.master_key rx) by reflexivity.
  assert (Hws1 : LibSrtp.ctx_window_size rx1 = LibSrtp.ctx_window_size rx)
    by reflexivity.
  change 10 with (Z.of_nat LibSrtp.tag_len).
  exists (firstn (Z.to_nat n) buffer ++ skipn (Z.to_nat n) protected), rx1.
  split.
  { rewrite (UnprotectRTP_protected P tx rx buffer n protected tx' Hkey Hprotect).
    now rewrite Hfirst. }
  split.
  { rewrite (UnprotectRTP_protected P tx rx1 buffer n protected tx'
               ltac:(congruence) Hprotect).
    rewrite Hws1. unfold rx1 at 1. cbn [LibSrtp.rtp_rdbx LibSrtp.with_rtp_rdbx].
    now rewrite (rdbx_check_added _ _ _ Hwindow Hfirst). }
  split.
  { intros tx2 buffer2 n2 protected2 tx2' Hk2 Hp2 Hold.
    rewrite (UnprotectRTP_protected P tx2 rx1 buffer2 n2 protected2 tx2'
               ltac:(congruence) Hp2).
    rewrite Hws1. now rewrite (rdbx_check_old _ _ _ Hwindow Hold). }
  split.
  { intros tx3 buffer3 n3 protected3 tx3' Hk3 Hp3 Hfresh.
    cbn [admits] in Hfresh.
    destruct (packet_call_ok _ _ _ _ _ _ _ Hp3) as (_ & _ & _ & Hroom & _).
    rewrite (UnprotectRTP_protected P tx3 rx1 buffer3 n3 protected3 tx3'
               ltac:(congruence) Hp3).
    rewrite Hfresh. eexists. eexists. split; [reflexivity|].
    apply firstn_exact. rewrite length_firstn. lia. }
  split; [reflexivity|]. split; [reflexivity|]. split; [reflexivity|].
  intros cw sw flag c Hc. cbn in Hc. injection Hc as <-. repeat split.
Qed.

Lemma replayed_packet_is_rejected_witness :
  LibSrtp.master_key (sample_ctx LibSrtp.ssrc_any_outbound)
  = LibSrtp.master_key (sample_ctx LibSrtp.ssrc_any_inbound)
  /\ 0 < LibSrtp.ctx_window_size (sample_ctx LibSrtp.ssrc_any_inbound)
  /\ admits primary (sample_ctx LibSrtp.ssrc_any_outbound)
       (sample_ctx LibSrtp.ssrc_any_inbound) sample_buffer
  /\ Srtp.ProtectRTP sample_primitives
       (session_of (sample_ctx LibSrtp.ssrc_any_outbound)) sample_buffer 17
     = Done (0, sample_protected primary, sample_sender_after primary)
  /\ exists plain rx1,
      Srtp.UnprotectRTP sample_primitives
        (session_of (sample_ctx LibSrtp.ssrc_any_inbound))
        (sample_protected primary) (17 + 10)
      = Done (0, plain, session_of rx1)
      /\ Srtp.UnprotectRTP sample_primitives (session_of rx1)
           (sample_protected primary) (17 + 10)
         = Done (9, sample_protected primary, session_of rx1).
Proof.
  assert (H1 : LibSrtp.master_key (sample_ctx LibSrtp.ssrc_any_outbound)
               = LibSrtp.master_key (sample_ctx LibSrtp.ssrc_any_inbound))
    by reflexivity.
  assert (H2 : 0 < LibSrtp.ctx_window_size (sample_ctx LibSrtp.ssrc_any_inbound))
    by reflexivity.
  assert (H3 : admits primary (sample_ctx LibSrtp.ssrc_any_outbound)
                 (sample_ctx LibSrtp.ssrc_any_inbound) sample_buffer)
    by reflexivity.
  assert (H4 : Srtp.ProtectRTP sample_primitives
                 (session_of (sample_ctx LibSrtp.ssrc_any_outbound))
                 sample_buffer 17
               = Done (0, sample_protected primary, sample_sender_after primary))
    by (vm_compute; reflexivity).
  split; [exact H1|]. split; [exact H2|]. split; [exact H3|].
  split; [exact H4|].
  destruct (replayed_packet_is_rejected sample_primitives _ _ _ _ _ _
              H1 H2 H3 H4) as (plain & rx1 & Hfirst & Hsecond & _).
  exists plain, rx1. split; [exact Hfirst|exact Hsecond].
Defined.

(* ================================================================== *)
(** ** Further properties of [DtlsHandshake] and [Dtls] *)
(* ================================================================== *)


Lemma releases_received inb : releases (map Recv inb) = [].
Proof. induction inb as [|d inb IH]; [reflexivity|exact IH]. Qed.

Lemma releases_cookie_exchange c inb :
  releases (snd (fst (Handshake.cookie_exchange c inb))) = [].
Proof.
  induction inb as [|d inb IH]; [reflexivity|].
  cbn [Handshake.cookie_exchange].
  destruct (Handshake.cookie_exchange c inb) as [[r ev] unread].
  cbn [fst snd] in IH.
  destruct d; cbn [fst snd]; try exact IH.
  destruct (cookie_generate_cb c), (cookie_verify_cb c); try reflexivity.
  destruct (match cookie with [] => false | _ => _ end); cbn; auto.
Qed.

Lemma server_never_releases E sock w :
  releases (trace (snd (run (DtlsHandshake.DoHandshakeAsServer E sock) w)))
  = releases (trace w)
  /\ (_k (this w) <> None ->
      is_null (ctx_of (this (snd (run (DtlsHandshake.DoHandshakeAsServer E sock) w))))
      = negb (env_SSL_CTX_new E DTLS_server_method)).
Proof.
  destruct E. run_from w.
  all: split; [no_release_by releases_app releases_received
                releases_cookie_exchange|].
  all: unfold ctx_of; cbn; intros Hk; try (now elim Hk).
  all: repeat match goal with H : _ = _ |- _ => rewrite H end; reflexivity.
Qed.

Lemma client_never_releases E sock family addr port w :
  releases (trace (snd (run (DtlsHandshake.DoHandshakeAsClient E sock family
                               addr port) w)))
  = releases (trace w)
  /\ (_k (this w) <> None ->
      is_null (ctx_of (this (snd (run (DtlsHandshake.DoHandshakeAsClient E sock
                                         family addr port) w))))
      = negb (env_SSL_CTX_new E DTLS_client_method)).
Proof.
  destruct E. run_from w.
  all: split; [no_release_by releases_app releases_received
                releases_cookie_exchange|].
  all: unfold ctx_of; cbn; intros Hk; try (now elim Hk).
  all: repeat match goal with H : _ = _ |- _ => rewrite H end; reflexivity.
Qed.

Lemma dtls_never_releases E sock w :
  releases (trace (snd (run (Dtls.DoHandshake E sock) w))) = releases (trace w)
  /\ (_k (this w) <> None ->
      is_null (ctx_of (this (snd (run (Dtls.DoHandshake E sock) w))))
      = negb (env_SSL_CTX_new E DTLS_method)).
Proof.
  destruct E. run_from w.
  all: split; [no_release_by releases_app releases_received
                releases_cookie_exchange|].
  all: unfold ctx_of; cbn; intros Hk; try (now elim Hk).
  all: repeat match goal with H : _ = _ |- _ => rewrite H end; reflexivity.
Qed.

(* ---------- facts of a handshake on a fresh instance ---------- *)

Lemma server_run_result E cert key sock init inb :
  let r := server_run E cert key sock init inb in
  (fst r = Done 0 \/ fst r = Done HANDSHAKE_ERROR_STATUS
   \/ fst r = Raised "ArgumentNullException")
  /\ (fst r = Done 0 <-> completed (this (snd r)) = true)
  /\ (fst r = Raised "ArgumentNullException" -> cert = None \/ key = None)
  /\ (cert = None \/ key = None ->
      fst r <> Done 0 /\ inbound (snd r) = inb
      /\ DtlsHandshake.GetSSL (this (snd r)) = None)
  /\ is_null (ctx_of (this (snd r))) = negb (env_SSL_CTX_new E DTLS_server_method)
  /\ _k (this (snd r)) <> None.
Proof.
  cbv zeta.
  destruct (server_run E cert key sock init inb) as [o w'] eqn:Hrun.
  revert Hrun. destruct E.
  run_all init.
  all: intros Hrun; injection Hrun as <- <-.
  all: unfold ctx_of; cbn.
  all: repeat match goal with H : _ = true |- _ => rewrite H
                         | H : _ = false |- _ => rewrite H end.
  all: repeat split; intros; try discriminate; try reflexivity; auto.
  all: match goal with
       | H : _ \/ _ |- _ => destruct H as [H|H]; discriminate H
       end.
Qed.

Lemma client_run_result E sock family addr port init inb :
  let r := client_run E sock family addr port init inb in
  (fst r = Done 0 \/ fst r = Done HANDSHAKE_ERROR_STATUS)
  /\ (fst r = Done 0 <-> completed (this (snd r)) = true)
  /\ is_null (ctx_of (this (snd r))) = negb (env_SSL_CTX_new E DTLS_client_method)
  /\ _k (this (snd r)) <> None.
Proof.
  cbv zeta.
  destruct (client_run E sock family addr port init inb) as [o w'] eqn:Hrun.
  revert Hrun. destruct E.
  run_all init.
  all: intros Hrun; injection Hrun as <- <-.
  all: unfold ctx_of; cbn.
  all: repeat match goal with H : _ = true |- _ => rewrite H
                         | H : _ = false |- _ => rewrite H end.
  all: repeat split; intros; try discriminate; try reflexivity; auto.
Qed.

Lemma dtls_run_result E cert key sock init inb :
  let r := dtls_run E cert key sock init inb in
  (fst r = Done 0 \/ fst r = Done HANDSHAKE_ERROR_STATUS
   \/ fst r = Raised "ArgumentNullException")
  /\ (fst r = Done 0 <-> completed (this (snd r)) = true)
  /\ (fst r = Raised "ArgumentNullException" -> cert = None \/ key = None)
  /\ (cert = None \/ key = None ->
      fst r <> Done 0 /\ inbound (snd r) = inb
      /\ Dtls.GetSSL (this (snd r)) = None)
  /\ is_null (ctx_of (this (snd r))) = negb (env_SSL_CTX_new E DTLS_method)
  /\ _k (this (snd r)) <> None.
Proof.
  cbv zeta.
  destruct (dtls_run E cert key sock init inb) as [o w'] eqn:Hrun.
  revert Hrun. destruct E.
  run_all init.
  all: intros Hrun; injection Hrun as <- <-.
  all: unfold ctx_of; cbn.
  all: repeat match goal with H : _ = true |- _ => rewrite H
                         | H : _ = false |- _ => rewrite H end.
  all: repeat split; intros; try discriminate; try reflexivity; auto.
  all: match goal with
       | H : _ \/ _ |- _ => destruct H as [H|H]; discriminate H
       end.
Qed.

(** X1: on a freshly constructed instance each handshake method returns 0
    or [HANDSHAKE_ERROR_STATUS] (-1); the two server methods may instead
    raise [ArgumentNullException], and only when a file name is null; none
    faults.  The result is 0 exactly when the session is Completed
    afterwards. *)
Theorem handshake_returns_zero_iff_completed (E : environment)
  (cert key : option string) (sock : SOCKET) (family addr port : Z)
  (init : bool) (inb : list datagram) :
  (let r := server_run E cert key sock init inb in
   (fst r = Done 0 \/ fst r = Done HANDSHAKE_ERROR_STATUS
    \/ fst r = Raised "ArgumentNullException")
   /\ (fst r = Done 0 <-> completed (this (snd r)) = true)
   /\ (fst r = Raised "ArgumentNullException" -> cert = None \/ key = None))
  /\ (let r := client_run E sock family addr port init inb in
      (fst r = Done 0 \/ fst r = Done HANDSHAKE_ERROR_STATUS)
      /\ (fst r = Done 0 <-> completed (this (snd r)) = true))
  /\ (let r := dtls_run E cert key sock init inb in
      (fst r = Done 0 \/ fst r = Done HANDSHAKE_ERROR_STATUS
       \/ fst r = Raised "ArgumentNullException")
      /\ (fst r = Done 0 <-> completed (this (snd r)) = true)
      /\ (fst r = Raised "ArgumentNullException" -> cert = None \/ key = None)).
Proof.
  cbv zeta.
  destruct (server_run_result E cert key sock init inb) as (S1 & S2 & S3 & _).
  destruct (client_run_result E sock family addr port init inb) as (C1 & C2 & _).
  destruct (dtls_run_result E cert key sock init inb) as (D1 & D2 & D3 & _).
  repeat split; auto; try apply S2; try apply C2; try apply D2.
Qed.

(** X2: a server handshake on an instance without certificate file name,
    or without key file name, never completes: it ends in -1 or in
    [ArgumentNullException], before any connection object is created and
    without reading a datagram.  So the instance of the default constructor
    serves the client side only. *)
Theorem server_handshake_needs_both_file_names (E : environment)
  (cert key : option string) (sock : SOCKET) (init : bool)
  (inb : list datagram) :
  (let r := server_run E None key sock init inb in
   fst r <> Done 0 /\ inbound (snd r) = inb
   /\ DtlsHandshake.GetSSL (this (snd r)) = None)
  /\ (let r := server_run E cert None sock init inb in
      fst r <> Done 0 /\ inbound (snd r) = inb
      /\ DtlsHandshake.GetSSL (this (snd r)) = None)
  /\ (let r := dtls_run E None key sock init inb in
      fst r <> Done 0 /\ inbound (snd r) = inb
      /\ Dtls.GetSSL (this (snd r)) = None)
  /\ (let r := dtls_run E cert None sock init inb in
      fst r <> Done 0 /\ inbound (snd r) = inb
      /\ Dtls.GetSSL (this (snd r)) = None)
  /\ snd (run_void DtlsHandshake.ctor (before_ctor init inb []))
     = snd (run_void (DtlsHandshake.ctor_files None None) (before_ctor init inb [])).
Proof.
  cbv zeta.
  split; [apply (server_run_result E None key sock init inb); now left|].
  split; [apply (server_run_result E cert None sock init inb); now right|].
  split; [apply (dtls_run_result E None key sock init inb); now left|].
  split; [apply (dtls_run_result E cert None sock init inb); now right|].
  destruct init; reflexivity.
Qed.

(** X3: no handshake method releases anything, in whatever state it is
    called: it issues no [SSL_CTX_free], [SSL_shutdown] or [SSL_free].
    Whether [_k->ctx] is null afterwards depends on the [SSL_CTX_new] of this
    call alone, so a context the instance held before is overwritten
    without having been freed. *)
Theorem handshake_methods_never_release (E : environment) (sock : SOCKET)
  (family addr port : Z) (w : world) :
  (let w' := snd (run (DtlsHandshake.DoHandshakeAsServer E sock) w) in
   releases (trace w') = releases (trace w)
   /\ (_k (this w) <> None ->
       is_null (ctx_of (this w')) = negb (env_SSL_CTX_new E DTLS_server_method)))
  /\ (let w' := snd (run (DtlsHandshake.DoHandshakeAsClient E sock family addr
                            port) w) in
      releases (trace w') = releases (trace w)
      /\ (_k (this w) <> None ->
          is_null (ctx_of (this w'))
          = negb (env_SSL_CTX_new E DTLS_client_method)))
  /\ (let w' := snd (run (Dtls.DoHandshake E sock) w) in
      releases (trace w') = releases (trace w)
      /\ (_k (this w) <> None ->
          is_null (ctx_of (this w')) = negb (env_SSL_CTX_new E DTLS_method))).
Proof.
  cbv zeta.
  split; [apply server_never_releases|].
  split; [apply client_never_releases|apply dtls_never_releases].
Qed.

Lemma release_of_held e :
  _k e <> None ->
  release_of e
  = (if is_null (ctx_of e) then [] else [Call_SSL_CTX_free])
    ++ (if is_null (Dtls.GetSSL e) then [] else [Call_SSL_shutdown; Call_SSL_free]).
Proof.
  destruct e as [[k|] cf kf h]; [reflexivity|]. intros H; now elim H.
Qed.

Lemma releases_release_of e : releases (release_of e) = release_of e.
Proof. destruct e as [[[[c|] [s|] b]|] cf kf h]; reflexivity. Qed.

(** The releases of [Shutdown] after a run that released nothing and left
    [_k] non-null. *)
Lemma Shutdown_after_run (allocated : bool) (w0 w : world) :
  releases (trace w) = releases (trace w0) ->
  releases (trace w0) = [] ->
  _k (this w) <> None ->
  is_null (ctx_of (this w)) = negb allocated ->
  releases (trace (snd (run_void DtlsHandshake.Shutdown w)))
  = (if allocated then [Call_SSL_CTX_free] else [])
    ++ (if is_null (Dtls.GetSSL (this w)) then []
        else [Call_SSL_shutdown; Call_SSL_free])
  /\ releases (trace (snd (run_void Dtls.Shutdown w)))
     = (if allocated then [Call_SSL_CTX_free] else [])
       ++ (if is_null (Dtls.GetSSL (this w)) then []
           else [Call_SSL_shutdown; Call_SSL_free]).
Proof.
  intros Hr H0 Hk Hc.
  destruct (DtlsHandshake_Shutdown_first w) as (_ & _ & _ & Ht).
  destruct (Dtls_Shutdown_first w) as (_ & _ & _ & Ht').
  rewrite Ht, Ht', !releases_app, Hr, H0.
  change (releases (ERR_print_errors :: release_of (this w)))
    with (releases (release_of (this w))).
  rewrite releases_release_of, (release_of_held _ Hk), Hc.
  destruct allocated; split; reflexivity.
Qed.

(** X4: whatever the outcome of the handshake on a fresh instance (0, -1
    or an exception), a [Shutdown] after it frees the context exactly when
    [SSL_CTX_new] had returned one, and shuts down and frees the connection
    object exactly when the instance holds one; nothing else is released and
    nothing was released before. *)
Theorem Shutdown_frees_what_the_handshake_allocated (E : environment)
  (cert key : option string) (sock : SOCKET) (family addr port : Z)
  (init : bool) (inb : list datagram) :
  (let r := server_run E cert key sock init inb in
   releases (trace (snd r)) = []
   /\ releases (trace (snd (run_void DtlsHandshake.Shutdown (snd r))))
      = (if env_SSL_CTX_new E DTLS_server_method then [Call_SSL_CTX_free] else [])
        ++ (if is_null (DtlsHandshake.GetSSL (this (snd r))) then []
            else [Call_SSL_shutdown; Call_SSL_free]))
  /\ (let r := client_run E sock family addr port init inb in
      releases (trace (snd r)) = []
      /\ releases (trace (snd (run_void DtlsHandshake.Shutdown (snd r))))
         = (if env_SSL_CTX_new E DTLS_client_method then [Call_SSL_CTX_free]
            else [])
           ++ (if is_null (DtlsHandshake.GetSSL (this (snd r))) then []
               else [Call_SSL_shutdown; Call_SSL_free]))
  /\ (let r := dtls_run E cert key sock init inb in
      releases (trace (snd r)) = []
      /\ releases (trace (snd (run_void Dtls.Shutdown (snd r))))
         = (if env_SSL_CTX_new E DTLS_method then [Call_SSL_CTX_free] else [])
           ++ (if is_null (Dtls.GetSSL (this (snd r))) then []
               else [Call_SSL_shutdown; Call_SSL_free])).
Proof.
  cbv zeta.
  split; [|split].
  - destruct (server_run_result E cert key sock init inb)
      as (_ & _ & _ & _ & Hc & Hk).
    destruct (server_never_releases E sock
                (snd (run_void (DtlsHandshake.ctor_files cert key)
                        (before_ctor init inb [])))) as (Hr & _).
    assert (Hz : releases (trace (snd (run_void (DtlsHandshake.ctor_files cert key)
                                        (before_ctor init inb [])))) = [])
      by (destruct init; reflexivity).
    fold (server_run E cert key sock init inb) in Hr.
    split; [now rewrite Hr|].
    now destruct (Shutdown_after_run _ _ _ Hr Hz Hk Hc).
  - destruct (client_run_result E sock family addr port init inb)
      as (_ & _ & Hc & Hk).
    destruct (client_never_releases E sock family addr port
                (snd (run_void DtlsHandshake.ctor (before_ctor init inb []))))
      as (Hr & _).
    assert (Hz : releases (trace (snd (run_void DtlsHandshake.ctor
                                        (before_ctor init inb [])))) = [])
      by (destruct init; reflexivity).
    fold (client_run E sock family addr port init inb) in Hr.
    split; [now rewrite Hr|].
    now destruct (Shutdown_after_run _ _ _ Hr Hz Hk Hc).
  - destruct (dtls_run_result E cert key sock init inb)
      as (_ & _ & _ & _ & Hc & Hk).
    destruct (dtls_never_releases E sock
                (snd (run_void (Dtls.ctor cert key) (before_ctor init inb []))))
      as (Hr & _).
    assert (Hz : releases (trace (snd (run_void (Dtls.ctor cert key)
                                        (before_ctor init inb [])))) = [])
      by (destruct init; reflexivity).
    fold (dtls_run E cert key sock init inb) in Hr.
    split; [now rewrite Hr|].
    now destruct (Shutdown_after_run _ _ _ Hr Hz Hk Hc).
Qed.

(* ---------- use after Shutdown ---------- *)

Lemma server_on_null E sock w :
  _k (this w) = None ->
  run (DtlsHandshake.DoHandshakeAsServer E sock) w
  = (Crashed, logged (Call_SSL_CTX_new DTLS_server_method)
                (logged ERR_print_errors w)).
Proof.
  destruct w as [i [k cf kf h] inb tr]; cbn [this _k]; intros ->.
  destruct E. reflexivity.
Qed.

Lemma client_on_null E sock family addr port w :
  _k (this w) = None ->
  run (DtlsHandshake.DoHandshakeAsClient E sock family addr port) w
  = (Crashed, logged (Call_SSL_CTX_new DTLS_client_method)
                (logged ERR_print_errors w)).
Proof.
  destruct w as [i [k cf kf h] inb tr]; cbn [this _k]; intros ->.
  destruct E. reflexivity.
Qed.

Lemma dtls_on_null E sock w :
  _k (this w) = None ->
  run (Dtls.DoHandshake E sock) w
  = (Crashed, logged (Call_SSL_CTX_new DTLS_method)
                (logged ERR_print_errors w)).
Proof.
  destruct w as [i [k cf kf h] inb tr]; cbn [this _k]; intros ->.
  destruct E. reflexivity.
Qed.

Lemma queries_on_null w :
  _k (this w) = None ->
  DtlsHandshake.IsHandshakeComplete w
  = (inl AccessViolation, logged ERR_print_errors w)
  /\ Dtls.GetState w = (inl AccessViolation, logged ERR_print_errors w)
  /\ DtlsHandshake.GetSSL (this w) = None
  /\ Dtls.GetSSL (this w) = None.
Proof.
  destruct w as [i [k cf kf h] inb tr]; cbn [this _k]; intros ->.
  repeat split.
Qed.

(** X5: after [Shutdown] the instance cannot be used again.  Each handshake
    method calls [SSL_CTX_new] and then faults on the null [_k], so the
    context just created is lost; [IsHandshakeComplete] and [GetState] fault
    as well; only [GetSSL] and [Shutdown] test [_k], and [GetSSL] answers the
    null pointer. *)
Theorem use_after_Shutdown_faults (E : environment) (sock : SOCKET)
  (family addr port : Z) (w : world) :
  (let w1 := snd (run_void DtlsHandshake.Shutdown w) in
   run (DtlsHandshake.DoHandshakeAsServer E sock) w1
   = (Crashed, logged (Call_SSL_CTX_new DTLS_server_method)
                 (logged ERR_print_errors w1))
   /\ run (DtlsHandshake.DoHandshakeAsClient E sock family addr port) w1
      = (Crashed, logged (Call_SSL_CTX_new DTLS_client_method)
                    (logged ERR_print_errors w1))
   /\ DtlsHandshake.IsHandshakeComplete w1
      = (inl AccessViolation, logged ERR_print_errors w1)
   /\ DtlsHandshake.GetSSL (this w1) = None)
  /\
  (let w1 := snd (run_void Dtls.Shutdown w) in
   run (Dtls.DoHandshake E sock) w1
   = (Crashed, logged (Call_SSL_CTX_new DTLS_method)
                 (logged ERR_print_errors w1))
   /\ Dtls.GetState w1 = (inl AccessViolation, logged ERR_print_errors w1)
   /\ Dtls.GetSSL (this w1) = None).
Proof.
  split; cbv zeta.
  - destruct (DtlsHandshake_Shutdown_first w) as (_ & Hk & _).
    destruct (queries_on_null _ Hk) as (Hq & _ & Hg & _).
    repeat split; auto using server_on_null, client_on_null.
  - destruct (Dtls_Shutdown_first w) as (_ & Hk & _).
    destruct (queries_on_null _ Hk) as (_ & Hq & _ & Hg).
    repeat split; auto using dtls_on_null.
Qed.

(* ---------- IsHandshakeComplete ---------- *)

Lemma server_then_IsHandshakeComplete E cert key sock init inb :
  let r := server_run E cert key sock init inb in
  let q := fst (DtlsHandshake.IsHandshakeComplete (snd r)) in
  (q = inr true <-> fst r = Done 0)
  /\ (q = inl AccessViolation <-> DtlsHandshake.GetSSL (this (snd r)) = None)
  /\ (q = inr true \/ q = inr false \/ q = inl AccessViolation)
  /\ this (snd (DtlsHandshake.IsHandshakeComplete (snd r))) = this (snd r).
Proof.
  cbv zeta.
  destruct (server_run E cert key sock init inb) as [o w'] eqn:Hrun.
  revert Hrun. destruct E.
  run_all init.
  all: intros Hrun; injection Hrun as <- <-.
  all: cbn; repeat split; intros; try discriminate; auto.
Qed.

Lemma client_then_IsHandshakeComplete E sock family addr port init inb :
  let r := client_run E sock family addr port init inb in
  let q := fst (DtlsHandshake.IsHandshakeComplete (snd r)) in
  (q = inr true <-> fst r = Done 0)
  /\ (q = inl AccessViolation <-> DtlsHandshake.GetSSL (this (snd r)) = None)
  /\ (q = inr true \/ q = inr false \/ q = inl AccessViolation)
  /\ this (snd (DtlsHandshake.IsHandshakeComplete (snd r))) = this (snd r).
Proof.
  cbv zeta.
  destruct (client_run E sock family addr port init inb) as [o w'] eqn:Hrun.
  revert Hrun. destruct E.
  run_all init.
  all: intros Hrun; injection Hrun as <- <-.
  all: cbn; repeat split; intros; try discriminate; auto.
Qed.

(** X6: [IsHandshakeComplete] agrees with the result of the handshake
    method run before it: it answers true exactly when that method returned
    0.  It answers false or faults otherwise, and it faults exactly when the
    instance holds no connection object: after a set-up step that failed
    before [SSL_new], and on an instance that has not run a handshake at
    all.  It changes nothing in the instance. *)
Theorem IsHandshakeComplete_agrees_with_the_result (E : environment)
  (cert key : option string) (sock : SOCKET) (family addr port : Z)
  (init : bool) (inb : list datagram) :
  (let r := server_run E cert key sock init inb in
   let q := fst (DtlsHandshake.IsHandshakeComplete (snd r)) in
   (q = inr true <-> fst r = Done 0)
   /\ (q = inl AccessViolation <-> DtlsHandshake.GetSSL (this (snd r)) = None)
   /\ (q = inr true \/ q = inr false \/ q = inl AccessViolation)
   /\ this (snd (DtlsHandshake.IsHandshakeComplete (snd r))) = this (snd r))
  /\ (let r := client_run E sock family addr port init inb in
      let q := fst (DtlsHandshake.IsHandshakeComplete (snd r)) in
      (q = inr true <-> fst r = Done 0)
      /\ (q = inl AccessViolation <-> DtlsHandshake.GetSSL (this (snd r)) = None)
      /\ (q = inr true \/ q = inr false \/ q = inl AccessViolation)
      /\ this (snd (DtlsHandshake.IsHandshakeComplete (snd r))) = this (snd r))
  /\ fst (DtlsHandshake.IsHandshakeComplete
            (snd (run_void (DtlsHandshake.ctor_files cert key)
                    (before_ctor init inb []))))
     = inl AccessViolation.
Proof.
  split; [apply server_then_IsHandshakeComplete|].
  split; [apply client_then_IsHandshakeComplete|].
  destruct init; reflexivity.
Qed.

(* ---------- the datagram BIO ---------- *)

(** X7: in [DoHandshakeAsClient] a failure of [BIO_ctrl] to connect the
    datagram BIO is reported on the console and nothing more: the method
    goes on to [SSL_connect], and with the other answers of the library
    unchanged its result, the instance, the unread datagrams and the library
    calls are those of the run in which [BIO_ctrl] succeeds. *)
Theorem client_ignores_BIO_ctrl_failure (v : Z) (E : environment)
  (sock : SOCKET) (family addr port : Z) (init : bool) (inb : list datagram) :
  let r := client_run E sock family addr port init inb in
  let r' := client_run (with_BIO_ctrl v E) sock family addr port init inb in
  fst r' = fst r /\ this (snd r') = this (snd r)
  /\ inbound (snd r') = inbound (snd r)
  /\ filter is_library_call (trace (snd r'))
     = filter is_library_call (trace (snd r)).
Proof.
  cbv zeta. unfold with_BIO_ctrl. destruct E.
  run_all init.
  all: cbn; repeat split.
Qed.

(** X8: a datagram BIO that cannot be created stops
    [DtlsHandshake::DoHandshakeAsServer] with -1 before [SSL_accept] and
    before any datagram is read.  [Dtls::DoHandshake] does not test the
    result of [BIO_new_dgram]: whenever it gets as far as calling it, it goes
    on to [DTLSv1_listen] and [SSL_accept], with a null BIO too. *)
Theorem null_BIO_is_checked_by_DtlsHandshake_only (E : environment)
  (cert key : option string) (sock : SOCKET) (init : bool)
  (inb : list datagram) :
  (env_BIO_new_dgram E sock = false ->
   let r := server_run E cert key sock init inb in
   ~ In Call_SSL_accept (trace (snd r))
   /\ fst r <> Done 0
   /\ inbound (snd r) = inb)
  /\ (let r := dtls_run E cert key sock init inb in
      In (Call_BIO_new_dgram sock) (trace (snd r)) ->
      In Call_DTLSv1_listen (trace (snd r))
      /\ In Call_SSL_accept (trace (snd r))).
Proof.
  split.
  - intros HB. cbv zeta.
    destruct (server_run E cert key sock init inb) as [o w'] eqn:Hrun.
    revert Hrun. destruct E. cbn in HB.
    run_all init.
    all: intros Hrun; injection Hrun as <- <-.
    all: cbn; repeat split; try discriminate.
    all: intuition discriminate.
  - cbv zeta.
    destruct (dtls_run E cert key sock init inb) as [o w'] eqn:Hrun.
    revert Hrun. destruct E.
    run_all init.
    all: intros Hrun; injection Hrun as <- <-.
    all: cbn [snd trace]; repeat (rewrite in_app_iff || cbn [In]).
    all: intros H; try (exfalso; intuition discriminate).
    all: split; auto 20.
Qed.

(* ---------- construction ---------- *)

Lemma initialisations_app a b :
  initialisations (a ++ b) = (initialisations a + initialisations b)%nat.
Proof. unfold initialisations. now rewrite filter_app, length_app. Qed.

Lemma construction_initialises_once (m : M unit) :
  (forall w,
      _isOpenSSLInitialised (snd (run_void m w)) = true
      /\ initialisations (trace (snd (run_void m w)))
         = (initialisations (trace w)
            + if _isOpenSSLInitialised w then 0 else 1)%nat) ->
  forall n w,
    initialisations (trace (again m (S n) w))
    = (initialisations (trace w) + if _isOpenSSLInitialised w then 0 else 1)%nat
    /\ _isOpenSSLInitialised (again m (S n) w) = true.
Proof.
  intros Hm. induction n as [|n IH]; intros w.
  - unfold again. cbn [Nat.iter]. destruct (Hm w) as (H1 & H2). auto.
  - destruct (IH w) as (Hi & Hf).
    change (again m (S (S n)) w) with (snd (run_void m (again m (S n) w))).
    destruct (Hm (again m (S n) w)) as (H1 & H2).
    rewrite H2, Hi, Hf. split; [lia|exact H1].
Qed.

(** X9: the OpenSSL library is initialised once per process.  However many
    instances are constructed, the initialisation is called once if the
    static flag was unset before the first construction and never if it was
    set, and the flag is set afterwards; so it is in both classes.
    [InitialiseLibSrtp] of [Srtp] is idempotent in the same way. *)
Theorem OpenSSL_is_initialised_once (cert key : option string) (n : nat)
  (w : world) (st : Srtp.statics) :
  (initialisations (trace (again (DtlsHandshake.ctor_files cert key) (S n) w))
   = (initialisations (trace w) + if _isOpenSSLInitialised w then 0 else 1)%nat
   /\ _isOpenSSLInitialised (again (DtlsHandshake.ctor_files cert key) (S n) w)
      = true)
  /\ (initialisations (trace (again (Dtls.ctor cert key) (S n) w))
      = (initialisations (trace w) + if _isOpenSSLInitialised w then 0 else 1)%nat
      /\ _isOpenSSLInitialised (again (Dtls.ctor cert key) (S n) w) = true)
  /\ Srtp.InitialiseLibSrtp (Srtp.InitialiseLibSrtp st) = Srtp.InitialiseLibSrtp st
  /\ Srtp._isLibSrtpInitialised (Srtp.InitialiseLibSrtp st) = true.
Proof.
  split; [|split].
  - apply construction_initialises_once.
    intros [[] e inb tr]; cbn -[initialisations];
      rewrite ?initialisations_app; split; try reflexivity; cbn; lia.
  - apply construction_initialises_once.
    intros [[] e inb tr]; cbn -[initialisations];
      rewrite ?initialisations_app; split; try reflexivity; cbn; lia.
  - destruct st as [[] l]; split; reflexivity.
Qed.

(* ================================================================== *)
(** ** Further properties of [Srtp] *)
(* ================================================================== *)


(** X10: the constructor over a byte array hands the caller's array to
    libsrtp as the master key, unchanged and whatever its length, with a
    replay window of 128 and repeated transmission off.  It returns an object
    with a session whatever [srtp_create] answers: the status is printed and
    not looked at.  Its flag selects the direction the other way round from
    the constructor over a [Dtls].  An empty array raises
    [IndexOutOfRangeException] before [srtp_create] is called. *)
Theorem byte_array_constructor_takes_the_key_as_given (E : environment) (b : byte) (key : list byte)
  (isClient : bool) (st : Srtp.statics) (cw sw : list byte) :
  let policy := Srtp.policy_of_key E (b :: key) isClient in
  (exists session,
      Srtp.ctor_key E (b :: key) isClient st
      = (Done {| Srtp._session := Some session |},
         Srtp.say (Srtp.Out_result "Create srtp session result"
                     (LibSrtp.status_code (fst (LibSrtp.srtp_create policy))))
           (Srtp.say (Srtp.Call_srtp_create policy) (Srtp.InitialiseLibSrtp st))))
  /\ LibSrtp.key policy = b :: key
  /\ LibSrtp.window_size policy = 128
  /\ LibSrtp.allow_repeat_tx policy = 0
  /\ LibSrtp.ssrc_type policy
     = (if isClient then LibSrtp.ssrc_any_outbound else LibSrtp.ssrc_any_inbound)
  /\ LibSrtp.ssrc_type policy
     <> LibSrtp.ssrc_type (Srtp.policy_of_dtls cw sw isClient)
  /\ Srtp.ctor_key E [] isClient st
     = (Raised "IndexOutOfRangeException", Srtp.InitialiseLibSrtp st).
Proof.
  cbv zeta. split.
  - unfold Srtp.ctor_key.
    destruct (LibSrtp.srtp_create (Srtp.policy_of_key E (b :: key) isClient))
      as [err session] eqn:Hc.
    exists session. reflexivity.
  - repeat split. destruct isClient; discriminate.
Qed.

Lemma ctor_dtls_without_connection E K S dtls isClient st :
  Dtls.GetSSL dtls = None ->
  Srtp.ctor_dtls E K S dtls isClient st = (Crashed, Srtp.InitialiseLibSrtp st).
Proof. intros H. unfold Srtp.ctor_dtls. now rewrite H. Qed.

(** X11: a [Srtp] cannot be made from a [Dtls] that holds no connection
    object: one that has been shut down, or one just constructed that has
    not run a handshake.  [GetSSL] answers the null pointer, which the
    constructor hands to OpenSSL unchecked: it faults, after the library
    initialisation and before anything is exported. *)
Theorem Srtp_needs_a_Dtls_with_a_connection (E : environment) (K S : nat) (isClient : bool)
  (st : Srtp.statics) (w : world) (cert key : option string) (init : bool)
  (inb : list datagram) (tr : list call) :
  Srtp.ctor_dtls E K S (this (snd (run_void Dtls.Shutdown w))) isClient st
  = (Crashed, Srtp.InitialiseLibSrtp st)
  /\ Srtp.ctor_dtls E K S
       (this (snd (run_void (Dtls.ctor cert key) (before_ctor init inb tr))))
       isClient st
     = (Crashed, Srtp.InitialiseLibSrtp st).
Proof.
  split; apply ctor_dtls_without_connection.
  - destruct (Dtls_Shutdown_first w) as (_ & Hk & _).
    unfold Dtls.GetSSL. now rewrite Hk.
  - destruct init; reflexivity.
Qed.

(** X12: the destructor tests the pointer [_session] alone.  On an object
    that holds a session it deallocates the session and leaves [_session]
    null, and on an object without [_session] it does nothing; running it
    again on the object it leaves does nothing, and each of the four packet
    methods then raises [IndexOutOfRangeException] for an empty array and
    faults on the null pointer for any other.  On an object whose cell holds
    the null session, as a failed [srtp_create] leaves it, the destructor
    calls [srtp_dealloc] on the null session and faults. *)
Theorem Srtp_destructor_is_idempotent (P : LibSrtp.primitives) (t : Srtp.Srtp)
  (st : Srtp.statics) :
  match Srtp._session t with
  | Some None =>
      Srtp.dtor t st = (Crashed, Srtp.say Srtp.Call_srtp_dealloc st)
      /\ forall m, In m (packet_methods P) ->
           forall b buffer len, m t (b :: buffer) len = Crashed
  | held =>
      let t1 := {| Srtp._session := None |} in
      let st1 := snd (Srtp.dtor t st) in
      fst (Srtp.dtor t st) = Done t1
      /\ Srtp.log st1
         = Srtp.log st ++ (if is_null held then [] else [Srtp.Call_srtp_dealloc])
      /\ Srtp._isLibSrtpInitialised st1 = Srtp._isLibSrtpInitialised st
      /\ Srtp.dtor t1 st1 = (Done t1, st1)
      /\ forall m, In m (packet_methods P) ->
           (forall len, m t1 [] len = Raised "IndexOutOfRangeException")
           /\ forall b buffer len, m t1 (b :: buffer) len = Crashed
  end.
Proof.
  destruct t as [[[c|]|]]; cbn.
  - rewrite ?app_nil_r. repeat split.
    all: destruct H as [<-|[<-|[<-|[<-|[]]]]]; reflexivity.
  - split; [reflexivity|]. intros m H b buffer len.
    destruct H as [<-|[<-|[<-|[<-|[]]]]]; reflexivity.
  - rewrite ?app_nil_r. repeat split.
    all: destruct H as [<-|[<-|[<-|[<-|[]]]]]; reflexivity.
Qed.

(* ================================================================== *)
(** ** Properties of [DtlsManaged] *)
(* ================================================================== *)


Lemma managed_Shutdown_null w :
  DtlsManaged._k (DtlsManaged.this w) = None ->
  DtlsManaged.run_void DtlsManaged.Shutdown w
  = (Done tt, {| DtlsManaged._isOpenSSLInitialised := DtlsManaged._isOpenSSLInitialised w;
                 DtlsManaged.this := DtlsManaged.this w;
                 DtlsManaged.trace := DtlsManaged.trace w ++ [DtlsManaged.ERR_print_errors] |}).
Proof.
  managed_from w; cbn; intros H; [discriminate H|reflexivity].
Qed.

Lemma managed_Shutdown_first w :
  let w1 := snd (DtlsManaged.run_void DtlsManaged.Shutdown w) in
  fst (DtlsManaged.run_void DtlsManaged.Shutdown w) = Done tt
  /\ DtlsManaged._k (DtlsManaged.this w1) = None
  /\ DtlsManaged.trace w1
     = DtlsManaged.trace w ++ DtlsManaged.ERR_print_errors
       :: match DtlsManaged._k (DtlsManaged.this w) with
          | Some k =>
              (if is_null (DtlsManaged.ctx k) then []
               else [DtlsManaged.Call_SSL_CTX_free])
              ++ (if is_null (DtlsManaged.ssl k) then []
                  else [DtlsManaged.Call_SSL_shutdown; DtlsManaged.Call_SSL_free])
          | None => []
          end.
Proof.
  managed_from w; [destruct c, s|]; cbn; repeat rewrite <- app_assoc; repeat split.
Qed.

Lemma managed_init_messages E B cert key init :
  let r := managed_init E B cert key init in
  let said := last_message (DtlsManaged.trace (snd r)) in
  (fst r = Done (-1) -> said = Some "Error: cannot create SSL_CTX."%string)
  /\ (fst r = Done (-2) ->
      said = Some "Error: cannot set the cipher list."%string
      \/ said = Some "Error: cannot allocate read bio."%string)
  /\ (fst r = Done (-3) ->
      said = Some "Error: cannot setup srtp."%string
      \/ said = Some "Error: cannot allocate write bio."%string)
  /\ (fst r = Done (-4) -> said = Some "Error: cannot load certificate file."%string)
  /\ (fst r = Done (-5) -> said = Some "Error: cannot load private key file."%string)
  /\ (fst r = Done (-6) -> said = Some "Error: checking the private key failed. "%string)
  /\ (fst r = Done (-7) -> said = Some "Error: cannot create new SSL*."%string)
  /\ (fst r = Done 0 -> said = None)
  /\ filter is_traffic (DtlsManaged.trace (snd r)) = [].
Proof.
  cbv zeta.
  destruct (managed_init E B cert key init) as [o w'] eqn:Hrun.
  revert Hrun. destruct E, B.
  managed_run init.
  all: intros Hrun; injection Hrun as <- <-.
  all: cbn; repeat split; intros H; try discriminate H; auto.
Qed.

Lemma managed_init_exits E B cert key init :
  let r := managed_init E B cert key init in
  ((exists c, fst r = Done c /\ -7 <= c <= 0)
   \/ fst r = Raised "ArgumentNullException")
  /\ (fst r = Raised "ArgumentNullException" -> cert = None \/ key = None).
Proof.
  cbv zeta.
  destruct (managed_init E B cert key init) as [o w'] eqn:Hrun.
  revert Hrun. destruct E, B.
  managed_run init.
  all: intros Hrun; injection Hrun as <- <-.
  all: cbn; split;
    [first [right; reflexivity|left; eexists; split; [reflexivity|lia]]|].
  all: intros H; try discriminate H; auto.
Qed.

(** X13: after construction [Init] returns 0 or one of the codes -1 to -7,
    or raises [ArgumentNullException], which it does only when a file name
    is null.  The last message printed tells the failed step for -1 and -4
    to -7; the codes -2 and -3 each stand for two failures: the cipher list
    or the read BIO, the SRTP profile or the write BIO.  On success it
    prints no message.  It never writes, reads or steps the handshake. *)
Theorem Init_return_codes (E : environment) (B : DtlsManaged.buffers)
  (cert key : option string) (init : bool) :
  let r := managed_init E B cert key init in
  let said := last_message (DtlsManaged.trace (snd r)) in
  ((exists c, fst r = Done c /\ -7 <= c <= 0)
   \/ fst r = Raised "ArgumentNullException")
  /\ (fst r = Raised "ArgumentNullException" -> cert = None \/ key = None)
  /\ (fst r = Done (-1) -> said = Some "Error: cannot create SSL_CTX."%string)
  /\ (fst r = Done (-2) ->
      said = Some "Error: cannot set the cipher list."%string
      \/ said = Some "Error: cannot allocate read bio."%string)
  /\ (fst r = Done (-3) ->
      said = Some "Error: cannot setup srtp."%string
      \/ said = Some "Error: cannot allocate write bio."%string)
  /\ (fst r = Done (-4) -> said = Some "Error: cannot load certificate file."%string)
  /\ (fst r = Done (-5) -> said = Some "Error: cannot load private key file."%string)
  /\ (fst r = Done (-6) -> said = Some "Error: checking the private key failed. "%string)
  /\ (fst r = Done (-7) -> said = Some "Error: cannot create new SSL*."%string)
  /\ (fst r = Done 0 -> said = None)
  /\ filter is_traffic (DtlsManaged.trace (snd r)) = []
  /\ (let r1 := managed_init refusing_ciphers (sample_buffers true)
                  (Some "cert.pem"%string) (Some "key.pem"%string) false in
      let r2 := managed_init cooperative (sample_buffers false)
                  (Some "cert.pem"%string) (Some "key.pem"%string) false in
      fst r1 = Done (-2) /\ fst r2 = Done (-2)
      /\ last_message (DtlsManaged.trace (snd r1))
         = Some "Error: cannot set the cipher list."%string
      /\ last_message (DtlsManaged.trace (snd r2))
         = Some "Error: cannot allocate read bio."%string).
Proof.
  cbv zeta.
  destruct (managed_init_exits E B cert key init) as (H1 & H2).
  split; [exact H1|]. split; [exact H2|].
  pose proof (managed_init_messages E B cert key init) as H3. cbv zeta in H3.
  decompose [and] H3. repeat split; auto.
Qed.

(** X14: when [Init] returns 0 the instance holds a context and a
    connection object made from it; the context asks for the peer's
    certificate ([SSL_VERIFY_PEER]) with the callback that accepts any; the
    connection is in accept state, the server side, over two memory BIOs
    whose end-of-file value is -1, with the info callback set and both MTU
    settings at 1400. *)
Theorem Init_leaves_accept_state_with_verify_peer (E : environment)
  (B : DtlsManaged.buffers) (cert key : option string) (init : bool)
  (H0 : fst (managed_init E B cert key init) = Done 0) :
  let r := managed_init E B cert key init in
  exists c s,
    DtlsManaged._k (DtlsManaged.this (snd r))
    = Some {| DtlsManaged.ctx := Some c;
              DtlsManaged.ssl := Some s;
              DtlsManaged.in_bio :=
                Some {| DtlsManaged.mem_eof_return := Some (-1) |};
              DtlsManaged.out_bio :=
                Some {| DtlsManaged.mem_eof_return := Some (-1) |};
              DtlsManaged.name := "+ server" |}
    /\ of_ctx s = c
    /\ method c = DTLS_method
    /\ verify_mode c = SSL_VERIFY_PEER
    /\ verify_callback c = Some DtlsManaged.krx_ssl_verify_peer
    /\ (forall ok x, DtlsManaged.krx_ssl_verify_peer ok x = 1)
    /\ server s = Some true
    /\ has_bio s = true
    /\ info_callback s = true
    /\ In (DtlsManaged.Call_DTLS_set_link_mtu 1400) (DtlsManaged.trace (snd r))
    /\ In (DtlsManaged.Call_SSL_set_mtu 1400) (DtlsManaged.trace (snd r)).
Proof.
  cbv zeta. revert H0.
  destruct (managed_init E B cert key init) as [o w'] eqn:Hrun.
  revert Hrun. destruct E, B.
  managed_run init.
  all: intros Hrun; injection Hrun as <- <-.
  all: cbn; intros H; try discriminate H.
  all: do 2 eexists; split; [reflexivity|]; cbn; repeat split; auto 20.
Qed.

Lemma Init_leaves_accept_state_with_verify_peer_witness :
  fst (managed_init cooperative (sample_buffers true)
         (Some "cert.pem"%string) (Some "key.pem"%string) false) = Done 0
  /\ exists c s,
      DtlsManaged._k (DtlsManaged.this managed_ready)
      = Some {| DtlsManaged.ctx := Some c;
                DtlsManaged.ssl := Some s;
                DtlsManaged.in_bio :=
                  Some {| DtlsManaged.mem_eof_return := Some (-1) |};
                DtlsManaged.out_bio :=
                  Some {| DtlsManaged.mem_eof_return := Some (-1) |};
                DtlsManaged.name := "+ server" |}
      /\ server s = Some true.
Proof.
  assert (H0 : fst (managed_init cooperative (sample_buffers true)
                      (Some "cert.pem"%string) (Some "key.pem"%string) false)
               = Done 0) by reflexivity.
  split; [exact H0|].
  destruct (Init_leaves_accept_state_with_verify_peer cooperative
              (sample_buffers true) (Some "cert.pem"%string)
              (Some "key.pem"%string) false H0)
    as (c & s & Hk & _ & _ & _ & _ & _ & Hs & _).
  exists c, s. split; [exact Hk|exact Hs].
Defined.

(** X15: [Write] returns what [BIO_write] took of the array, whatever
    happens next, and leaves the pointers of the instance alone.  It steps
    the handshake once exactly when bytes were taken and the handshake is
    not finished, and then sets [_handshakeComplete] to whether
    [SSL_do_handshake] answered 1; otherwise, a write that took nothing
    included, it steps nothing and leaves the flag as it was. *)
Theorem Write_returns_what_BIO_write_took (B : DtlsManaged.buffers)
  (w : DtlsManaged.world) (k : DtlsManaged.krx) (s : SSL)
  (b : byte) (buffer : list byte) (bufferLength : Z)
  (Hk : DtlsManaged._k (DtlsManaged.this w) = Some k)
  (Hs : DtlsManaged.ssl k = Some s) :
  let tr1 := DtlsManaged.trace w
             ++ [DtlsManaged.Call_BIO_write (b :: buffer) bufferLength] in
  let written := DtlsManaged.env_BIO_write B tr1 in
  let tr2 := tr1 ++ [DtlsManaged.Call_SSL_is_init_finished] in
  let res := DtlsManaged.env_SSL_do_handshake B
               (tr2 ++ [DtlsManaged.Call_SSL_do_handshake]) in
  let r := DtlsManaged.run (DtlsManaged.Write B (b :: buffer) bufferLength) w in
  fst r = Done written
  /\ DtlsManaged._k (DtlsManaged.this (snd r)) = Some k
  /\ (if 0 <? written
      then if DtlsManaged.env_SSL_is_init_finished B tr2
           then DtlsManaged.trace (snd r)
                = tr2 ++ [DtlsManaged.printf_d "BIO_write bytes written" written;
                          DtlsManaged.ERR_print_errors]
                /\ DtlsManaged._handshakeComplete (DtlsManaged.this (snd r))
                   = DtlsManaged._handshakeComplete (DtlsManaged.this w)
           else DtlsManaged.trace (snd r)
                = tr2 ++ [DtlsManaged.Call_SSL_do_handshake;
                          DtlsManaged.printf_d "Handshake result" res;
                          DtlsManaged.ERR_print_errors]
                /\ DtlsManaged._handshakeComplete (DtlsManaged.this (snd r))
                   = (res =? 1)
      else DtlsManaged.trace (snd r)
           = tr1 ++ [DtlsManaged.printf_d "BIO_write bytes written" written;
                     DtlsManaged.ERR_print_errors]
           /\ DtlsManaged._handshakeComplete (DtlsManaged.this (snd r))
              = DtlsManaged._handshakeComplete (DtlsManaged.this w)).
Proof.
  cbv zeta. managed_from w; cbn in Hk; [|discriminate Hk].
  injection Hk as <-. cbn in Hs. subst s0. destruct B.
  unfold DtlsManaged.Write, DtlsManaged.run.
  repeat managed_step; cbv beta iota.
  all: cbn.
  all: repeat match goal with H : _ = _ |- _ => rewrite H end.
  all: repeat rewrite <- app_assoc; cbn; repeat split.
Qed.

Lemma Write_returns_what_BIO_write_took_witness :
  DtlsManaged._k (DtlsManaged.this managed_ready) = Some ready_krx
  /\ DtlsManaged.ssl ready_krx = Some ready_ssl
  /\ fst (DtlsManaged.run (DtlsManaged.Write (sample_buffers true) [22; 254] 2)
            managed_ready) = Done 2.
Proof.
  assert (Hk : DtlsManaged._k (DtlsManaged.this managed_ready) = Some ready_krx)
    by reflexivity.
  assert (Hs : DtlsManaged.ssl ready_krx = Some ready_ssl) by reflexivity.
  split; [exact Hk|]. split; [exact Hs|].
  exact (proj1 (Write_returns_what_BIO_write_took (sample_buffers true)
                  managed_ready ready_krx ready_ssl 22 [254] 2 Hk Hs)).
Defined.

(** X16: [Read] hands out pending output of the handshake first: with
    bytes pending in the out BIO it reads them with [BIO_read], and does
    not ask whether the handshake is finished.  With none pending it reads
    application data with [SSL_read] when the handshake is finished, and
    returns 0 with the array untouched when it is not.  The empty array
    raises [IndexOutOfRangeException] only where a read would take place.
    The instance is never changed. *)
Theorem Read_prefers_pending_output (B : DtlsManaged.buffers)
  (w : DtlsManaged.world) (k : DtlsManaged.krx) (s : SSL)
  (buffer : list byte) (bufferLength : Z)
  (Hk : DtlsManaged._k (DtlsManaged.this w) = Some k)
  (Hs : DtlsManaged.ssl k = Some s) :
  let tr1 := DtlsManaged.trace w ++ [DtlsManaged.Call_BIO_ctrl_pending] in
  let pending := DtlsManaged.env_BIO_ctrl_pending B tr1 in
  let tr2 := tr1 ++ [DtlsManaged.Call_SSL_is_init_finished] in
  let r := DtlsManaged.Read B buffer bufferLength w in
  DtlsManaged.this (snd r) = DtlsManaged.this w
  /\ (if 0 <? pending
      then match buffer with
           | [] => r = (inl (Thrown "IndexOutOfRangeException"),
                        {| DtlsManaged._isOpenSSLInitialised :=
                             DtlsManaged._isOpenSSLInitialised w;
                           DtlsManaged.this := DtlsManaged.this w;
                           DtlsManaged.trace := tr1 |})
           | _ =>
               let got := DtlsManaged.env_BIO_read B
                            (tr1 ++ [DtlsManaged.Call_BIO_read bufferLength]) in
               fst r = inr (fst got, DtlsManaged.written_to buffer (snd got))
               /\ DtlsManaged.trace (snd r)
                  = tr1 ++ [DtlsManaged.Call_BIO_read bufferLength]
           end
      else if DtlsManaged.env_SSL_is_init_finished B tr2
           then match buffer with
                | [] => fst r = inl (Thrown "IndexOutOfRangeException")
                        /\ DtlsManaged.trace (snd r) = tr2
                | _ =>
                    let got := DtlsManaged.env_SSL_read B
                                 (tr2 ++ [DtlsManaged.Call_SSL_read bufferLength]) in
                    fst r = inr (fst got, DtlsManaged.written_to buffer (snd got))
                    /\ DtlsManaged.trace (snd r)
                       = tr2 ++ [DtlsManaged.Call_SSL_read bufferLength;
                                 DtlsManaged.printf_d "SSL_read" (fst got)]
                end
           else fst r = inr (0, buffer)
                /\ DtlsManaged.trace (snd r)
                   = tr2 ++ [DtlsManaged.ERR_print_errors]).
Proof.
  cbv zeta. managed_from w; cbn in Hk; [|discriminate Hk].
  injection Hk as <-. cbn in Hs. subst s0. destruct B.
  unfold DtlsManaged.Read.
  repeat managed_step; cbv beta iota.
  all: cbn.
  all: repeat match goal with H : _ = _ |- _ => rewrite H end.
  all: destruct buffer; repeat managed_step; cbv beta iota; cbn.
  all: repeat match goal with H : _ = _ |- _ => rewrite H end.
  all: repeat rewrite <- app_assoc; cbn; repeat split.
Qed.

Lemma Read_prefers_pending_output_witness :
  DtlsManaged._k (DtlsManaged.this managed_ready) = Some ready_krx
  /\ DtlsManaged.ssl ready_krx = Some ready_ssl
  /\ DtlsManaged.this
       (snd (DtlsManaged.Read (sample_buffers true) [0; 0; 0; 0; 0; 0] 6
               managed_ready))
     = DtlsManaged.this managed_ready.
Proof.
  assert (Hk : DtlsManaged._k (DtlsManaged.this managed_ready) = Some ready_krx)
    by reflexivity.
  assert (Hs : DtlsManaged.ssl ready_krx = Some ready_ssl) by reflexivity.
  split; [exact Hk|]. split; [exact Hs|].
  exact (proj1 (Read_prefers_pending_output (sample_buffers true)
                  managed_ready ready_krx ready_ssl [0; 0; 0; 0; 0; 0] 6 Hk Hs)).
Defined.

(** X17: [Shutdown] frees the context and shuts down and frees the
    connection object when the instance holds them, releases nothing else,
    and leaves [_k] null; a destructor after it releases nothing.  After it
    [Write], [Read] and the property [Ssl] fault on the null [_k]. *)
Theorem managed_Shutdown_idempotent (B : DtlsManaged.buffers)
  (w : DtlsManaged.world) (b : byte) (buffer : list byte) (bufferLength : Z) :
  let w1 := snd (DtlsManaged.run_void DtlsManaged.Shutdown w) in
  let w2 := snd (DtlsManaged.run_void DtlsManaged.dtor w1) in
  fst (DtlsManaged.run_void DtlsManaged.Shutdown w) = Done tt
  /\ DtlsManaged._k (DtlsManaged.this w1) = None
  /\ filter managed_is_release (DtlsManaged.trace w1)
     = filter managed_is_release (DtlsManaged.trace w)
       ++ match DtlsManaged._k (DtlsManaged.this w) with
          | Some k =>
              (if is_null (DtlsManaged.ctx k) then []
               else [DtlsManaged.Call_SSL_CTX_free])
              ++ (if is_null (DtlsManaged.ssl k) then []
                  else [DtlsManaged.Call_SSL_shutdown; DtlsManaged.Call_SSL_free])
          | None => []
          end
  /\ fst (DtlsManaged.run_void DtlsManaged.dtor w1) = Done tt
  /\ DtlsManaged.this w2 = DtlsManaged.this w1
  /\ filter managed_is_release (DtlsManaged.trace w2)
     = filter managed_is_release (DtlsManaged.trace w1)
  /\ fst (DtlsManaged.run (DtlsManaged.Write B (b :: buffer) bufferLength) w1)
     = Crashed
  /\ fst (DtlsManaged.Read B buffer bufferLength w1) = inl AccessViolation
  /\ fst (DtlsManaged.Ssl w1) = inl AccessViolation.
Proof.
  cbv zeta.
  destruct (managed_Shutdown_first w) as (H1 & H2 & H3).
  pose proof (managed_Shutdown_null _ H2) as H4.
  split; [exact H1|]. split; [exact H2|]. split.
  { rewrite H3, filter_app. f_equal. cbn [filter managed_is_release].
    destruct (DtlsManaged._k (DtlsManaged.this w)) as [k|]; [|reflexivity].
    destruct (DtlsManaged.ctx k), (DtlsManaged.ssl k); reflexivity. }
  unfold DtlsManaged.dtor. rewrite H4. cbn [fst snd DtlsManaged.this DtlsManaged.trace].
  split; [reflexivity|]. split; [reflexivity|]. split.
  { rewrite filter_app. cbn. now rewrite app_nil_r. }
  revert H2. generalize (snd (DtlsManaged.run_void DtlsManaged.Shutdown w)).
  intros v Hv. managed_from v; cbn in Hv; [discriminate Hv|].
  destruct B. repeat split.
Qed.

(* ================================================================== *)
(** ** Properties of the media classes *)
(* ================================================================== *)


Import MediaFoundation VideoSubTypes MediaCommon MediaSource.

Lemma bytes_eqb_eq (a b : list byte) : bytes_eqb a b = true <-> a = b.
Proof.
  revert b. induction a as [|x a IH]; intros [|y b]; simpl; split;
    try discriminate; try reflexivity.
  - intros H. apply andb_prop in H. destruct H as [Hx Hab].
    apply Z.eqb_eq in Hx. apply IH in Hab. now subst.
  - intros [= -> ->]. rewrite Z.eqb_refl. now apply IH.
Qed.

Lemma GUID_eqb_eq (a b : GUID) : GUID_eqb a b = true <-> a = b.
Proof.
  destruct a as [a1 a2 a3 a4], b as [b1 b2 b3 b4]. unfold GUID_eqb. simpl.
  rewrite !andb_true_iff, !Z.eqb_eq, bytes_eqb_eq.
  split; [intros [[[-> ->] ->] ->]; reflexivity|intros [= -> -> -> ->]; auto].
Qed.

(** X18: the two look-ups between pixel format and Media Foundation GUID
    are inverse to each other except for [BGR24]: it is mapped to the GUID
    of [RGB24], so it comes back as [RGB24], and no GUID is ever answered
    with [BGR24]. *)
Theorem video_subtype_guid_round_trip (t : VideoSubTypesEnum) (g : GUID) :
  (GetGuidForVideoSubType t = Done g ->
   GetVideoSubTypeForGuid g = Done (if t =? BGR24 then RGB24 else t))
  /\ (GetVideoSubTypeForGuid g = Done t ->
      GetGuidForVideoSubType t = Done g /\ t <> BGR24)
  /\ GetGuidForVideoSubType BGR24 = GetGuidForVideoSubType RGB24.
Proof.
  split; [|split; [|reflexivity]].
  - unfold GetGuidForVideoSubType.
    destruct (t =? I420) eqn:H0; [apply Z.eqb_eq in H0; subst; now intros [= <-]|].
    destruct (t =? RGB24) eqn:H1; [apply Z.eqb_eq in H1; subst; now intros [= <-]|].
    destruct (t =? RGB32) eqn:H2; [apply Z.eqb_eq in H2; subst; now intros [= <-]|].
    destruct (t =? YUY2) eqn:H3; [apply Z.eqb_eq in H3; subst; now intros [= <-]|].
    destruct (t =? BGR24) eqn:H4; [apply Z.eqb_eq in H4; subst; now intros [= <-]|].
    discriminate.
  - unfold GetVideoSubTypeForGuid.
    destruct (GUID_eqb g MFVideoFormat_I420) eqn:H0;
      [apply GUID_eqb_eq in H0; subst; intros [= <-]; split; [reflexivity|discriminate]|].
    destruct (GUID_eqb g MFVideoFormat_RGB24) eqn:H1;
      [apply GUID_eqb_eq in H1; subst; intros [= <-]; split; [reflexivity|discriminate]|].
    destruct (GUID_eqb g MFVideoFormat_RGB32) eqn:H2;
      [apply GUID_eqb_eq in H2; subst; intros [= <-]; split; [reflexivity|discriminate]|].
    destruct (GUID_eqb g MFVideoFormat_YUY2) eqn:H3;
      [apply GUID_eqb_eq in H3; subst; intros [= <-]; split; [reflexivity|discriminate]|].
    discriminate.
Qed.

(** X19: [GetGuidForVideoSubType] and [GetPixelFormatForVideoSubType]
    answer exactly for the five named values of the enumeration and raise
    [ApplicationException], each with its own message, for any other value
    of the underlying integer.  The pixel format look-up is injective. *)
Theorem video_subtype_lookups_cover_the_enum (t u : VideoSubTypesEnum) :
  ((exists g, GetGuidForVideoSubType t = Done g) <-> 0 <= t <= 4)
  /\ ((exists p, GetPixelFormatForVideoSubType t = Done p) <-> 0 <= t <= 4)
  /\ (~ 0 <= t <= 4 ->
      GetGuidForVideoSubType t
      = Raised "Video mode not recognised in GetGuidForVideoSubType."
      /\ GetPixelFormatForVideoSubType t
         = Raised "Video mode not recognised in GetPixelFormatForVideoSubType.")
  /\ (forall p, GetPixelFormatForVideoSubType t = Done p ->
                GetPixelFormatForVideoSubType u = Done p -> t = u).
Proof.
  unfold GetGuidForVideoSubType, GetPixelFormatForVideoSubType,
    I420, RGB24, RGB32, YUY2, BGR24.
  destruct (Z.eqb_spec t 0); [subst|];
    [|destruct (Z.eqb_spec t 1); [subst|];
      [|destruct (Z.eqb_spec t 2); [subst|];
        [|destruct (Z.eqb_spec t 3); [subst|];
          [|destruct (Z.eqb_spec t 4); [subst|]]]]].
  all: repeat split; try (intros; lia); try (intros; eexists; reflexivity);
    try (intros [? H]; discriminate H).
  all: try match goal with
             | H : exists _, Raised _ = Done _ |- _ =>
                 destruct H as [? H']; discriminate H'
             end.
  all: intros p Hp Hu; try discriminate Hp; injection Hp as <-; revert Hu.
  all: repeat match goal with
              | |- context [?x =? ?k] =>
                  destruct (Z.eqb_spec x k) as [->|?];
                  [intros Hu; try reflexivity; discriminate Hu|]
              end.
  all: intros Hu; discriminate Hu.
Qed.



(** X21: the copy constructor of [MediaSampleProperties] copies nine
    fields and leaves [EndOfStream], [Stride], [FrameCount] and
    [NowMilliseconds] at zero: a copy equals its original exactly when the
    original has these four at zero; copying a copy changes nothing. *)
Theorem MediaSampleProperties_copy_drops_four_fields (p : MediaSampleProperties) :
  let c := MediaSampleProperties_copy p in
  MediaSampleProperties_copy c = c
  /\ (c = p <-> EndOfStream p = false /\ Stride p = 0
                /\ FrameCount p = 0 /\ NowMilliseconds p = 0)
  /\ (Success c, HasVideoSample c, HasAudioSample c, Error c, Width c, Height c,
      VideoSubType c, VideoSubTypeFriendlyName c, Timestamp c)
     = (Success p, HasVideoSample p, HasAudioSample p, Error p, Width p, Height p,
        VideoSubType p, VideoSubTypeFriendlyName p, Timestamp p)
  /\ MediaSampleProperties_copy MediaSampleProperties_new
     = MediaSampleProperties_new.
Proof.
  cbv zeta. destruct p; cbn.
  split; [reflexivity|]. split; [|split; reflexivity].
  split.
  - intros [= <- <- <- <-]. auto.
  - intros (-> & -> & -> & ->). reflexivity.
Qed.

Lemma released_app a b : released (a ++ b) = released a ++ released b.
Proof. apply flat_map_app. Qed.

Lemma FindVideoMode_loop_first ts : forall i g w h found log,
  Forall answers ts ->
  let r := FindVideoMode_loop (map (fun t => (S_OK, Some t)) ts) i g w h found log in
  fst r = Done (S_OK, match find (matches g w h) ts with
                      | Some t => Some t
                      | None => found
                      end)
  /\ released (snd r)
     = released log ++ seq i (first_index (matches g w h) ts).
Proof.
  induction ts as [|t ts IH]; intros i g w h found log Hall; cbv zeta.
  - cbn. rewrite released_app. cbn. now rewrite !app_nil_r.
  - inversion Hall as [|? ? [Hg Hs] Hrest]; subst.
    cbn [map FindVideoMode_loop find first_index].
    change (S_OK =? MF_E_NO_MORE_TYPES) with false.
    change (S_OK =? S_OK) with true. cbv beta iota.
    unfold matches at 1 3.
    destruct (GetGUID t MF_MT_SUBTYPE) as [hr sub] eqn:Eg.
    destruct (MFGetAttributeSize t MF_MT_FRAME_SIZE) as [[hrs pw] ph] eqn:Es.
    cbn [fst snd] in *. subst hr hrs.
    change (S_OK =? S_OK) with true. cbn [negb andb].
    destruct (GUID_eqb sub g && (pw =? w) && (ph =? h)) eqn:Em.
    + cbn [fst snd seq]. rewrite !released_app. cbn. now rewrite !app_nil_r.
    + destruct (IH (S i) g w h found
                  ((log ++ [Call_GetNativeMediaType i]) ++ [Call_Release_native i])
                  Hrest) as (H1 & H2).
      split; [exact H1|].
      rewrite H2, !released_app. cbn. rewrite !app_nil_r, <- app_assoc.
      reflexivity.
Qed.

(** X23: over a reader whose native media types all answer,
    [FindVideoMode] finds the first media type of the requested subtype and
    frame size, and leaves the caller's pointer as it was when there is
    none.  It releases exactly the media types before the one found, which
    is handed over unreleased. *)
Theorem FindVideoMode_first_match (r : IMFSourceReader)
  (ts : list IMFMediaType) (g : GUID) (w h : Z) (found : option IMFMediaType)
  (Hr : native_types r = map (fun t => (S_OK, Some t)) ts)
  (Hall : Forall answers ts) :
  let res := FindVideoMode (Some r) g w h found in
  fst res = Done (S_OK, match find (matches g w h) ts with
                        | Some t => Some t
                        | None => found
                        end)
  /\ released (snd res) = seq 0 (first_index (matches g w h) ts).
Proof.
  cbv zeta. unfold FindVideoMode. rewrite Hr.
  exact (FindVideoMode_loop_first ts 0%nat g w h found [] Hall).
Qed.

Lemma FindVideoMode_first_match_witness :
  native_types sample_reader = map (fun t => (S_OK, Some t)) sample_types
  /\ Forall answers sample_types
  /\ fst (FindVideoMode (Some sample_reader) MFVideoFormat_I420 640 480 None)
     = Done (S_OK, Some (sample_type MFVideoFormat_I420 640 480))
  /\ released (snd (FindVideoMode (Some sample_reader) MFVideoFormat_I420 640
                      480 None))
     = [0%nat].
Proof.
  assert (Hr : native_types sample_reader
               = map (fun t => (S_OK, Some t)) sample_types) by reflexivity.
  assert (Hall : Forall answers sample_types)
    by (repeat constructor).
  split; [exact Hr|]. split; [exact Hall|].
  exact (FindVideoMode_first_match sample_reader sample_types
           MFVideoFormat_I420 640 480 None Hr Hall).
Defined.

Lemma FindVideoMode_loop_result types : forall i g w h found log,
  match fst (FindVideoMode_loop types i g w h found log) with
  | Done (hr, f) =>
      hr = S_OK
      /\ (f = found
          \/ exists t, f = Some t /\ matches g w h t = true
                       /\ answers t /\ In (S_OK, Some t) types)
  | Raised msg => msg = "Failed to get attribute size."%string
  | Crashed => In (S_OK, None) types
  end.
Proof.
  induction types as [|[hr p] types IH]; intros i g w h found log.
  - cbn. auto.
  - cbn [FindVideoMode_loop].
    destruct (hr =? MF_E_NO_MORE_TYPES) eqn:Hn; [cbn; auto|].
    destruct (hr =? S_OK) eqn:Hs; [|cbn; auto].
    apply Z.eqb_eq in Hs. subst hr.
    destruct p as [t|]; [|cbn; auto].
    destruct (GetGUID t MF_MT_SUBTYPE) as [hg sub] eqn:Eg.
    destruct (MFGetAttributeSize t MF_MT_FRAME_SIZE) as [[hrs pw] ph] eqn:Es.
    destruct (hrs =? S_OK) eqn:Hrs; [|reflexivity].
    cbn [negb].
    destruct (hg =? S_OK) eqn:Hg; cbn [andb].
    + destruct (GUID_eqb sub g && (pw =? w) && (ph =? h)) eqn:Em.
      * cbn. split; [reflexivity|]. right. exists t.
        apply Z.eqb_eq in Hrs, Hg.
        unfold matches, answers. rewrite Eg, Es. cbn. auto.
      * specialize (IH (S i) g w h found
                      ((log ++ [Call_GetNativeMediaType i])
                       ++ [Call_Release_native i])).
        destruct (fst (FindVideoMode_loop types (S i) g w h found _))
          as [[hr f]|msg|]; cbn; auto.
        destruct IH as (-> & [->|(t' & -> & Hm & Ha & Hin)]); auto.
        split; [reflexivity|]. right. exists t'. auto.
    + cbn. auto.
Qed.

(** X22: [FindVideoMode] returns [S_OK] whether or not it has found
    anything: the caller can tell only from the pointer, which is either
    as it was or a native media type of the reader with the requested
    subtype and frame size.  It raises only for a frame size that cannot be
    read, and faults only when the reader answers [S_OK] with a null media
    type. *)
Theorem FindVideoMode_result (r : IMFSourceReader) (g : GUID) (w h : Z)
  (found : option IMFMediaType) :
  match fst (FindVideoMode (Some r) g w h found) with
  | Done (hr, f) =>
      hr = S_OK
      /\ (f = found
          \/ exists t, f = Some t /\ matches g w h t = true
                       /\ answers t /\ In (S_OK, Some t) (native_types r))
  | Raised msg => msg = "Failed to get attribute size."%string
  | Crashed => In (S_OK, None) (native_types r)
  end.
Proof. apply FindVideoMode_loop_result. Qed.

Lemma SetStreamIndexes_loop_total r : forall fuel stmIndex this log,
  (MAX_STREAM_INDEX - stmIndex < fuel)%nat ->
  SetStreamIndexes_loop fuel r stmIndex this log <> None.
Proof.
  induction fuel as [|fuel IH]; intros stmIndex this log Hfuel; [lia|].
  cbn [SetStreamIndexes_loop].
  destruct (GetStreamSelection r stmIndex) as [hr isSelected].
  destruct (hr =? S_OK); cbn [andb]; [|discriminate].
  destruct (stmIndex <? MAX_STREAM_INDEX)%nat eqn:Hlt; [|discriminate].
  apply Nat.ltb_lt in Hlt.
  assert (Hnext : (MAX_STREAM_INDEX - S stmIndex < fuel)%nat) by lia.
  destruct isSelected; [|now apply IH].
  destruct (GetCurrentMediaType r stmIndex) as [hrt [t|]];
    destruct (hrt =? S_OK); cbn [negb]; try discriminate.
  destruct (GUID_eqb _ MFMediaType_Audio); [now apply IH|].
  destruct (GUID_eqb _ MFMediaType_Video); now apply IH.
Qed.

Lemma SetStreamIndexes_loop_sound r : forall fuel stmIndex this log res log',
  SetStreamIndexes_loop fuel r stmIndex this log = Some (res, log') ->
  match res with
  | Done (hr, this') =>
      hr = S_OK
      /\ _sourceReader this' = _sourceReader this
      /\ (_audioStreamIndex this' = _audioStreamIndex this
          \/ exists i, _audioStreamIndex this' = Z.of_nat i
                       /\ (stmIndex <= i < MAX_STREAM_INDEX)%nat
                       /\ stream_of MFMediaType_Audio r i)
      /\ (_videoStreamIndex this' = _videoStreamIndex this
          \/ exists i, _videoStreamIndex this' = Z.of_nat i
                       /\ (stmIndex <= i < MAX_STREAM_INDEX)%nat
                       /\ stream_of MFMediaType_Video r i)
  | Raised msg => msg = "Failed to get media type for selected stream."%string
  | Crashed => True
  end.
Proof.
  assert (Hweak : forall (P : nat -> Prop) (x y : Z) (n : nat),
             (x = y \/ exists i, x = Z.of_nat i
                                 /\ (S n <= i < MAX_STREAM_INDEX)%nat /\ P i) ->
             x = y \/ exists i, x = Z.of_nat i
                                /\ (n <= i < MAX_STREAM_INDEX)%nat /\ P i).
  { intros P x y n [H|(i & Hi & Hrange & Hs)]; [now left|].
    right. exists i. split; [exact Hi|]. split; [lia|exact Hs]. }
  induction fuel as [|fuel IH]; intros stmIndex this log res log' Hrun;
    [discriminate Hrun|].
  cbn [SetStreamIndexes_loop] in Hrun.
  destruct (GetStreamSelection r stmIndex) as [hr isSelected] eqn:Esel.
  destruct (hr =? S_OK) eqn:Hhr; cbn [andb] in Hrun;
    [|injection Hrun as <- <-; cbn; auto].
  destruct (stmIndex <? MAX_STREAM_INDEX)%nat eqn:Hlt;
    [|injection Hrun as <- <-; cbn; auto].
  apply Z.eqb_eq in Hhr. apply Nat.ltb_lt in Hlt. subst hr.
  destruct isSelected.
  - destruct (GetCurrentMediaType r stmIndex) as [hrt p] eqn:Ecur.
    destruct (hrt =? S_OK) eqn:Hhrt; cbn [negb] in Hrun;
      [|injection Hrun as <- <-; reflexivity].
    apply Z.eqb_eq in Hhrt. subst hrt.
    destruct p as [t|]; [|injection Hrun as <- <-; exact I].
    destruct (GUID_eqb (snd (GetGUID t MF_MT_MAJOR_TYPE)) MFMediaType_Audio) eqn:Ha;
      [|destruct (GUID_eqb (snd (GetGUID t MF_MT_MAJOR_TYPE)) MFMediaType_Video) eqn:Hv].
    + apply GUID_eqb_eq in Ha. apply IH in Hrun.
      destruct res as [[hr this']|msg|]; auto.
      cbn [_sourceReader _audioStreamIndex _videoStreamIndex] in Hrun.
      destruct Hrun as (-> & Hr & Haud & Hvid).
      split; [reflexivity|]. split; [exact Hr|]. split; [|now apply Hweak].
      right. destruct Haud as [Hx|(i & Hi & Hrange & Hs)].
      * exists stmIndex. split; [exact Hx|]. split; [lia|].
        split; [exact Esel|]. exists t. auto.
      * exists i. split; [exact Hi|]. split; [lia|exact Hs].
    + apply GUID_eqb_eq in Hv. apply IH in Hrun.
      destruct res as [[hr this']|msg|]; auto.
      cbn [_sourceReader _audioStreamIndex _videoStreamIndex] in Hrun.
      destruct Hrun as (-> & Hr & Haud & Hvid).
      split; [reflexivity|]. split; [exact Hr|]. split; [now apply Hweak|].
      right. destruct Hvid as [Hx|(i & Hi & Hrange & Hs)].
      * exists stmIndex. split; [exact Hx|]. split; [lia|].
        split; [exact Esel|]. exists t. auto.
      * exists i. split; [exact Hi|]. split; [lia|exact Hs].
    + apply IH in Hrun.
      destruct res as [[hr this']|msg|]; auto.
      destruct Hrun as (-> & Hr & Haud & Hvid).
      split; [reflexivity|]. split; [exact Hr|]. split; now apply Hweak.
  - apply IH in Hrun.
    destruct res as [[hr this']|msg|]; auto.
    destruct Hrun as (-> & Hr & Haud & Hvid).
    split; [reflexivity|]. split; [exact Hr|]. split; now apply Hweak.
Qed.

Lemma SetStreamIndexes_loop_last r : forall fuel stmIndex this log hr this' log',
  SetStreamIndexes_loop fuel r stmIndex this log = Some (Done (hr, this'), log') ->
  forall i,
    (stmIndex <= i < MAX_STREAM_INDEX)%nat ->
    (forall j, (stmIndex <= j <= i)%nat -> fst (GetStreamSelection r j) = S_OK) ->
    (stream_of MFMediaType_Audio r i -> Z.of_nat i <= _audioStreamIndex this')
    /\ (stream_of MFMediaType_Video r i -> Z.of_nat i <= _videoStreamIndex this').
Proof.
  induction fuel as [|fuel IH]; intros stmIndex this log hr this' log' Hrun i Hi Hreach;
    [discriminate Hrun|].
  cbn [SetStreamIndexes_loop] in Hrun.
  pose proof (Hreach stmIndex ltac:(lia)) as Hsel.
  destruct (GetStreamSelection r stmIndex) as [hrs isSelected] eqn:Esel.
  cbn [fst] in Hsel. subst hrs.
  change (S_OK =? S_OK) with true in Hrun. cbn [andb] in Hrun.
  assert (Hlt : (stmIndex <? MAX_STREAM_INDEX)%nat = true) by (apply Nat.ltb_lt; lia).
  rewrite Hlt in Hrun.
  assert (Hind : forall th lg,
             SetStreamIndexes_loop fuel r (S stmIndex) th lg
             = Some (Done (hr, this'), log') ->
             (S stmIndex <= i)%nat ->
             (stream_of MFMediaType_Audio r i -> Z.of_nat i <= _audioStreamIndex this')
             /\ (stream_of MFMediaType_Video r i -> Z.of_nat i <= _videoStreamIndex this')).
  { intros th lg Hth Hle. apply (IH _ _ _ _ _ _ Hth); [lia|].
    intros j Hj. apply Hreach. lia. }
  assert (Hkeep : forall th lg,
             SetStreamIndexes_loop fuel r (S stmIndex) th lg
             = Some (Done (hr, this'), log') ->
             (_audioStreamIndex this' = _audioStreamIndex th
              \/ Z.of_nat (S stmIndex) <= _audioStreamIndex this')
             /\ (_videoStreamIndex this' = _videoStreamIndex th
                 \/ Z.of_nat (S stmIndex) <= _videoStreamIndex this')).
  { intros th lg Hth. apply SetStreamIndexes_loop_sound in Hth.
    destruct Hth as (_ & _ & [Ha|(k & Hk & Hrange & _)] & [Hv|(k' & Hk' & Hrange' & _)]);
      split; auto; right; lia. }
  destruct (Nat.eq_dec stmIndex i) as [->|Hne].
  - (* the stream itself *)
    split; intros (Hs & t & Hcur & Hmajor).
    + rewrite Hs in Esel. injection Esel as <-.
      rewrite Hcur in Hrun. change (S_OK =? S_OK) with true in Hrun.
      cbn [negb] in Hrun. rewrite Hmajor in Hrun.
      change (GUID_eqb MFMediaType_Audio MFMediaType_Audio) with true in Hrun.
      cbv beta iota in Hrun.
      apply Hkeep in Hrun. cbn [_audioStreamIndex] in Hrun.
      destruct Hrun as ([->|H] & _); lia.
    + rewrite Hs in Esel. injection Esel as <-.
      rewrite Hcur in Hrun. change (S_OK =? S_OK) with true in Hrun.
      cbn [negb] in Hrun. rewrite Hmajor in Hrun.
      change (GUID_eqb MFMediaType_Video MFMediaType_Audio) with false in Hrun.
      change (GUID_eqb MFMediaType_Video MFMediaType_Video) with true in Hrun.
      cbv beta iota in Hrun.
      apply Hkeep in Hrun. cbn [_videoStreamIndex] in Hrun.
      destruct Hrun as (_ & [->|H]); lia.
  - assert (Hle : (S stmIndex <= i)%nat) by lia.
    destruct isSelected; [|now apply (Hind _ _ Hrun)].
    destruct (GetCurrentMediaType r stmIndex) as [hrt [t|]];
      destruct (hrt =? S_OK); cbn [negb] in Hrun; try discriminate Hrun.
    destruct (GUID_eqb _ MFMediaType_Audio); [now apply (Hind _ _ Hrun)|].
    destruct (GUID_eqb _ MFMediaType_Video); now apply (Hind _ _ Hrun).
Qed.

(** X24: [SetStreamIndexes] ends, within the first ten streams.  When it
    returns, the status is [S_OK] and each of the two indexes is either as
    it was or the index of a selected stream of that major type; of several
    such streams the last one reached is kept.  It raises when the media
    type of a selected stream cannot be read. *)
Theorem SetStreamIndexes_records_selected_streams (this : MediaSource)
  (r : IMFSourceReader) (Hr : _sourceReader this = Some r) :
  exists res log,
    SetStreamIndexes this = Some (res, log)
    /\ match res with
       | Done (hr, this') =>
           hr = S_OK
           /\ _sourceReader this' = _sourceReader this
           /\ (_audioStreamIndex this' = _audioStreamIndex this
               \/ exists i, _audioStreamIndex this' = Z.of_nat i
                            /\ (i < MAX_STREAM_INDEX)%nat
                            /\ stream_of MFMediaType_Audio r i)
           /\ (_videoStreamIndex this' = _videoStreamIndex this
               \/ exists i, _videoStreamIndex this' = Z.of_nat i
                            /\ (i < MAX_STREAM_INDEX)%nat
                            /\ stream_of MFMediaType_Video r i)
           /\ forall i,
               (i < MAX_STREAM_INDEX)%nat ->
               (forall j, (j <= i)%nat -> fst (GetStreamSelection r j) = S_OK) ->
               (stream_of MFMediaType_Audio r i
                -> Z.of_nat i <= _audioStreamIndex this')
               /\ (stream_of MFMediaType_Video r i
                   -> Z.of_nat i <= _videoStreamIndex this')
       | Raised msg => msg = "Failed to get media type for selected stream."%string
       | Crashed => True
       end.
Proof.
  unfold SetStreamIndexes. rewrite Hr.
  destruct (SetStreamIndexes_loop (S MAX_STREAM_INDEX) r 0 this [])
    as [[res log]|] eqn:Hrun.
  2: { exfalso. revert Hrun. apply SetStreamIndexes_loop_total.
       unfold MAX_STREAM_INDEX. lia. }
  exists res, log. split; [reflexivity|].
  pose proof (SetStreamIndexes_loop_sound _ _ _ _ _ _ _ Hrun) as Hspec.
  destruct res as [[hr this']|msg|]; auto.
  destruct Hspec as (-> & Hrd & Haud & Hvid).
  split; [reflexivity|]. split; [congruence|]. split; [|split].
  - destruct Haud as [Ha|(i & Hi & Hrange & Hs)]; [now left|].
    right. exists i. split; [exact Hi|]. split; [lia|exact Hs].
  - destruct Hvid as [Hv|(i & Hi & Hrange & Hs)]; [now left|].
    right. exists i. split; [exact Hi|]. split; [lia|exact Hs].
  - intros i Hi Hreach.
    apply (SetStreamIndexes_loop_last _ _ _ _ _ _ _ _ Hrun); [lia|].
    intros j Hj. apply Hreach. lia.
Qed.

Lemma SetStreamIndexes_records_selected_streams_witness :
  _sourceReader sample_source = Some sample_reader
  /\ exists res log, SetStreamIndexes sample_source = Some (res, log).
Proof.
  assert (Hr : _sourceReader sample_source = Some sample_reader) by reflexivity.
  split; [exact Hr|].
  destruct (SetStreamIndexes_records_selected_streams sample_source
              sample_reader Hr) as (res & log & Hrun & _).
  exists res, log. exact Hrun.
Defined.

(** X25: [Shutdown] releases the source reader once and forgets it, so
    that a second [Shutdown] and the destructor release nothing more; the
    destructor alone releases without forgetting.  After [Shutdown] the
    instance has no reader: [SetStreamIndexes] faults on the null
    pointer. *)
Theorem MediaSource_Shutdown_releases_once (this : MediaSource) :
  let this1 := fst (Shutdown this) in
  _sourceReader this1 = None
  /\ snd (Shutdown this)
     = (if is_null (_sourceReader this) then [] else [Call_Release_reader])
  /\ Shutdown this1 = (this1, [])
  /\ dtor this1 = (this1, [])
  /\ snd (dtor this) = snd (Shutdown this)
  /\ snd (dtor (fst (dtor this))) = snd (dtor this)
  /\ SetStreamIndexes this1 = Some (Crashed, [])
  /\ (_audioStreamIndex this1, _videoStreamIndex this1)
     = (_audioStreamIndex this, _videoStreamIndex this).
Proof.
  cbv zeta. destruct this as [[r|] a v]; cbn; repeat split.
Qed.
